(** * Zeal IT fine management: ledger ingestion, reconciliation and aggregation

    A shallow embedding of the two back-end controllers that carry the
    algorithmic work of the system:

    - [controllers/studentController.js]: [uploadStudentsCSV] (field
      resolution with [getValue], per-row create-or-merge) and
      [addFineToStudent] (validation, receipt number, ledger append);
    - [controllers/expenditureController.js]: [getFinancialSummary] and
      [getMonthlyReport].

    Conventions of the embedding.
    - A JavaScript string is a [string]; the character operations ([trim],
      [toUpperCase]) are given on the ASCII range, bytes above 127 are left
      as they are.
    - [undefined] is [None]; a value that may be [undefined] is an [option].
    - A parsed CSV row (a plain object whose values are strings) is an
      association list in [Object.keys] enumeration order.
    - A monetary amount is an exact integer ([Z]); a [Date] is its UTC
      calendar reading, compared lexicographically.
    - The Mongoose models ([models/Student.js], [models/Expenditure.js]) are
      not part of the controllers: a collection is the list of its documents
      in insertion order and schema validation is a parameter [validate]. *)

From Stdlib Require Import String Ascii List ZArith QArith Qround Lia Lqa Bool.
From Stdlib Require Import Sorted Permutation.
Import ListNotations.
Open Scope string_scope.
Open Scope Z_scope.

(** ** JavaScript string primitives *)

Module JsString.

(** ECMAScript WhiteSpace and LineTerminator code points below 128. *)
Definition isWhiteSpace (c : ascii) : bool :=
  existsb (Ascii.eqb c) ["009"; "010"; "011"; "012"; "013"; " "]%char.

Fixpoint trimStart (s : string) : string :=
  match s with
  | EmptyString => EmptyString
  | String c s' => if isWhiteSpace c then trimStart s' else s
  end.

Fixpoint trimEnd (s : string) : string :=
  match s with
  | EmptyString => EmptyString
  | String c s' =>
      match trimEnd s' with
      | EmptyString => if isWhiteSpace c then EmptyString else String c EmptyString
      | t => String c t
      end
  end.

(** [String.prototype.trim] *)
Definition trim (s : string) : string := trimEnd (trimStart s).

Definition upperChar (c : ascii) : ascii :=
  let n := N_of_ascii c in
  if ((97 <=? n) && (n <=? 122))%N then ascii_of_N (n - 32) else c.

(** [String.prototype.toUpperCase] *)
Fixpoint toUpperCase (s : string) : string :=
  match s with
  | EmptyString => EmptyString
  | String c s' => String (upperChar c) (toUpperCase s')
  end.

(** [String.prototype.includes]: [sub] occurs somewhere in [s]. *)
Fixpoint includes (s sub : string) : bool :=
  String.prefix sub s
  || match s with
     | EmptyString => false
     | String _ s' => includes s' sub
     end.

(** First and last character of a string, when it has one. *)
Definition firstChar (s : string) : option ascii :=
  match s with
  | EmptyString => None
  | String c _ => Some c
  end.

Fixpoint lastChar (s : string) : option ascii :=
  match s with
  | EmptyString => None
  | String c EmptyString => Some c
  | String _ s' => lastChar s'
  end.

(** No surrounding whitespace is left. *)
Definition isTrimmed (s : string) : Prop :=
  (forall c, firstChar s = Some c -> isWhiteSpace c = false)
  /\ (forall c, lastChar s = Some c -> isWhiteSpace c = false).

Definition isLowerChar (c : ascii) : bool :=
  let n := N_of_ascii c in ((97 <=? n) && (n <=? 122))%N.

Fixpoint allChars (p : ascii -> bool) (s : string) : bool :=
  match s with
  | EmptyString => true
  | String c s' => p c && allChars p s'
  end.

(** Truthiness of a string that may be [undefined]: the empty string and
    [undefined] are falsy. *)
Definition truthy (v : option string) : bool :=
  match v with
  | None => false
  | Some EmptyString => false
  | Some _ => true
  end.

(** [v || undefined] *)
Definition orUndefined (v : option string) : option string :=
  if truthy v then v else None.

(** [v || d] *)
Definition orElse (v : option string) (d : string) : string :=
  match v with
  | Some s => if truthy v then s else d
  | None => d
  end.

End JsString.
Import JsString.

(** ** Parsed rows and field resolution ([getValue]) *)

(** A row produced by the CSV parser: normalized header -> cell. *)
Definition Row := list (string * string).

(** [Object.keys(row)] *)
Definition Object_keys (row : Row) : list string := map fst row.

(** [row[key]]: own-property lookup; [None] is [undefined]. *)
Fixpoint rowGet (row : Row) (key : string) : option string :=
  match row with
  | [] => None
  | (k, v) :: rest => if String.eqb k key then Some v else rowGet rest key
  end.

(** The test of the partial-match loop:
    [rowKey.includes(key) || key.includes(rowKey)]. *)
Definition partialMatch (key rowKey : string) : bool :=
  includes rowKey key || includes key rowKey.

(** [getValue(row, ...possibleKeys)], lines 91-104 of the student
    controller. *)
Fixpoint getValue (row : Row) (possibleKeys : list string) : option string :=
  match possibleKeys with
  | [] => None
  | key :: rest =>
      match rowGet row key with
      | Some v => Some (trim v)
      | None =>
          match find (partialMatch key) (Object_keys row) with
          | Some rowKey => option_map trim (rowGet row rowKey)
          | None => getValue row rest
          end
      end
  end.

(** The alias lists of lines 110-118. *)
Definition prnKeys : list string := ["prn number"; "prn"; "prnnumber"].
Definition nameKeys : list string := ["student name"; "name"; "studentname"].
Definition academicYearKeys : list string := ["academic year"; "academicyear"].
Definition semesterKeys : list string := ["semester"].
Definition yearKeys : list string := ["year"].
Definition divisionKeys : list string := ["division"].
Definition rollNoKeys : list string := ["roll no"; "rollno"; "roll"].
Definition phoneKeys : list string := ["mobile number"; "mobile"; "phone"].
Definition emailKeys : list string := ["email id"; "email"; "emailid"].

(** The nine resolved values of one row (lines 110-118). *)
Record Resolved := mkResolved {
  r_prn : option string;
  r_name : option string;
  r_academicYear : option string;
  r_semester : option string;
  r_year : option string;
  r_division : option string;
  r_rollNo : option string;
  r_phone : option string;
  r_email : option string
}.

Definition resolveRow (row : Row) : Resolved :=
  {| r_prn := option_map toUpperCase (getValue row prnKeys);
     r_name := getValue row nameKeys;
     r_academicYear := getValue row academicYearKeys;
     r_semester := getValue row semesterKeys;
     r_year := getValue row yearKeys;
     r_division := getValue row divisionKeys;
     r_rollNo := getValue row rollNoKeys;
     r_phone := getValue row phoneKeys;
     r_email := getValue row emailKeys |}.

(** ** Data model *)

(** A [Date], read in UTC: calendar day and milliseconds since midnight. *)
Record Date := mkDate {
  d_year : Z;
  d_month : Z;
  d_day : Z;
  d_ms : Z
}.

(** [a <= b] on instants, as MongoDB's [$lte] / [$gte] compare dates. *)
Definition Date_leb (a b : Date) : bool :=
  if d_year a <? d_year b then true
  else if d_year b <? d_year a then false
  else if d_month a <? d_month b then true
  else if d_month b <? d_month a then false
  else if d_day a <? d_day b then true
  else if d_day b <? d_day a then false
  else d_ms a <=? d_ms b.

(** An entry of a student's [fines] array, as [addFineToStudent] builds it. *)
Module Fine.
Record t := mk {
  amount : Z;
  reason : string;
  type : string;
  category : string;
  receiptNumber : string;
  date : Date;
  isPaid : bool;
  paidDate : option Date
}.
End Fine.

(** The [studentData] object of lines 132-143. *)
Module StudentData.
Record t := mk {
  prn : string;
  name : string;
  academicYear : option string;
  semester : option string;
  year : option string;
  division : option string;
  rollNo : option string;
  department : option string;
  email : option string;
  phone : option string
}.
End StudentData.

(** Modelled from the spec: the student schema ([models/Student.js]) is not
    among the sources.  A StudentRecord has a unique identifier, a display
    name, organizational and contact fields and an ordered sequence of
    ledger entries; these are the fields the controllers read and write. *)
Module Student.
Record t := mk {
  prn : string;
  name : string;
  academicYear : option string;
  semester : option string;
  year : option string;
  division : option string;
  rollNo : option string;
  department : option string;
  email : option string;
  phone : option string;
  fines : list Fine.t
}.

(** Field assignments [doc.f = v]. *)
Definition set_name (s : t) (v : string) : t :=
  mk (prn s) v (academicYear s) (semester s) (year s) (division s)
     (rollNo s) (department s) (email s) (phone s) (fines s).
Definition set_academicYear (s : t) (v : option string) : t :=
  mk (prn s) (name s) v (semester s) (year s) (division s)
     (rollNo s) (department s) (email s) (phone s) (fines s).
Definition set_semester (s : t) (v : option string) : t :=
  mk (prn s) (name s) (academicYear s) v (year s) (division s)
     (rollNo s) (department s) (email s) (phone s) (fines s).
Definition set_year (s : t) (v : option string) : t :=
  mk (prn s) (name s) (academicYear s) (semester s) v (division s)
     (rollNo s) (department s) (email s) (phone s) (fines s).
Definition set_division (s : t) (v : option string) : t :=
  mk (prn s) (name s) (academicYear s) (semester s) (year s) v
     (rollNo s) (department s) (email s) (phone s) (fines s).
Definition set_rollNo (s : t) (v : option string) : t :=
  mk (prn s) (name s) (academicYear s) (semester s) (year s) (division s)
     v (department s) (email s) (phone s) (fines s).
Definition set_department (s : t) (v : option string) : t :=
  mk (prn s) (name s) (academicYear s) (semester s) (year s) (division s)
     (rollNo s) v (email s) (phone s) (fines s).
Definition set_email (s : t) (v : option string) : t :=
  mk (prn s) (name s) (academicYear s) (semester s) (year s) (division s)
     (rollNo s) (department s) v (phone s) (fines s).
Definition set_phone (s : t) (v : option string) : t :=
  mk (prn s) (name s) (academicYear s) (semester s) (year s) (division s)
     (rollNo s) (department s) (email s) v (fines s).
(** [doc.fines.push(p)] *)
Definition push_fine (s : t) (p : Fine.t) : t :=
  mk (prn s) (name s) (academicYear s) (semester s) (year s) (division s)
     (rollNo s) (department s) (email s) (phone s) (fines s ++ [p])%list.
End Student.

(** Modelled from the spec: the expenditure schema ([models/Expenditure.js])
    is not among the sources.  An ExpenditureRecord has an amount, a
    description, a category, an owning department, a date and optional
    receipt number and notes. *)
Module Expenditure.
Record t := mk {
  amount : Z;
  description : string;
  category : string;
  department : option string;
  date : Date;
  receiptNumber : option string;
  notes : option string
}.
End Expenditure.

(** Modelled from the spec: the persisted roster, a collection of student
    documents, here in insertion order. *)
Definition Collection := list Student.t.

(** One entry of [errors] (lines 123-126 and 170-173). *)
Record ErrorDetail := mkError {
  err_prn : string;
  err_error : string
}.

(** The loop state of [uploadStudentsCSV]: the collection and the five
    accumulators declared at lines 33-37. *)
Record Batch := mkBatch {
  roster : Collection;
  errors : list ErrorDetail;
  successCount : nat;
  updateCount : nat;
  errorCount : nat
}.

(** The [data] object of the upload response (lines 187-193). *)
Record BatchResult := mkBatchResult {
  totalRecords : nat;
  newStudents : nat;
  updatedStudents : nat;
  errorsTotal : nat;
  errorDetails : option (list ErrorDetail)
}.

(** ** Roster reconciliation ([uploadStudentsCSV], lines 107-194) *)

(** The string held by a value already known to be defined. *)
Definition valueOf (v : option string) : string :=
  match v with
  | Some s => s
  | None => EmptyString
  end.

(** Lines 132-143: the optional fields go through [v || undefined], and
    [department] is filled from the resolved division. *)
Definition studentDataOf (r : Resolved) : StudentData.t :=
  {| StudentData.prn := valueOf (r_prn r);
     StudentData.name := valueOf (r_name r);
     StudentData.academicYear := orUndefined (r_academicYear r);
     StudentData.semester := orUndefined (r_semester r);
     StudentData.year := orUndefined (r_year r);
     StudentData.division := orUndefined (r_division r);
     StudentData.rollNo := orUndefined (r_rollNo r);
     StudentData.department := orUndefined (r_division r);
     StudentData.email := orUndefined (r_email r);
     StudentData.phone := orUndefined (r_phone r) |}.

(** [if (v) doc.f = v] *)
Definition assignIf (v : option string)
    (set : Student.t -> option string -> Student.t) (doc : Student.t) : Student.t :=
  if truthy v then set doc v else doc.

(** Lines 152-160: the assignments made on [existingStudent]. *)
Definition updateExisting (existingStudent : Student.t) (d : StudentData.t) : Student.t :=
  let s := Student.set_name existingStudent (StudentData.name d) in
  let s := assignIf (StudentData.academicYear d) Student.set_academicYear s in
  let s := assignIf (StudentData.semester d) Student.set_semester s in
  let s := assignIf (StudentData.year d) Student.set_year s in
  let s := assignIf (StudentData.division d) Student.set_division s in
  let s := assignIf (StudentData.rollNo d) Student.set_rollNo s in
  let s := assignIf (StudentData.department d) Student.set_department s in
  let s := assignIf (StudentData.email d) Student.set_email s in
  assignIf (StudentData.phone d) Student.set_phone s.

(** Modelled from the spec: the document [Student.create(studentData)]
    builds, "a new StudentRecord with the resolved fields (absent optional
    fields left unset) and an empty ledger". *)
Definition newDocument (d : StudentData.t) : Student.t :=
  {| Student.prn := StudentData.prn d;
     Student.name := StudentData.name d;
     Student.academicYear := StudentData.academicYear d;
     Student.semester := StudentData.semester d;
     Student.year := StudentData.year d;
     Student.division := StudentData.division d;
     Student.rollNo := StudentData.rollNo d;
     Student.department := StudentData.department d;
     Student.email := StudentData.email d;
     Student.phone := StudentData.phone d;
     Student.fines := [] |}.

Definition hasPrn (p : string) (s : Student.t) : bool :=
  String.eqb (Student.prn s) p.

(** Modelled from the spec: [Student.findOne({ prn: p })], "look up an
    existing StudentRecord by identifier". *)
Definition findOne (db : Collection) (p : string) : option Student.t :=
  find (hasPrn p) db.

(** Modelled from the spec: the write of [doc.save()], which replaces the
    stored copy of the document found under the identifier of [doc]. *)
Fixpoint replaceDocument (db : Collection) (doc : Student.t) : Collection :=
  match db with
  | [] => []
  | x :: rest =>
      if hasPrn (Student.prn doc) x then doc :: rest
      else x :: replaceDocument rest doc
  end.

Definition missingFields : string :=
  "Missing required fields (PRN Number or Student Name)".

Definition duplicateKey : string := "E11000 duplicate key error".

Section Roster.

(** Modelled from the spec: "any exception during persistence".  The schema
    of the student model decides which documents it refuses; [validate doc]
    is [Some message] when persisting [doc] throws an error with that
    message. *)
Variable validate : Student.t -> option string.

(** Modelled from the spec: [doc.save()], the thrown message or the
    collection after the write. *)
Definition save (db : Collection) (doc : Student.t) : string + Collection :=
  match validate doc with
  | Some message => inl message
  | None => inr (replaceDocument db doc)
  end.

(** Modelled from the spec: [Student.create(d)]; the identifier is globally
    unique, so a second document with the same [prn] is refused. *)
Definition create (db : Collection) (d : StudentData.t) : string + Collection :=
  let doc := newDocument d in
  match validate doc with
  | Some message => inl message
  | None =>
      if existsb (hasPrn (Student.prn doc)) db then inl duplicateKey
      else inr (db ++ [doc])%list
  end.

(** The [catch] block of lines 169-175. *)
Definition catchRow (b : Batch) (row : Row) (message : string) : Batch :=
  {| roster := roster b;
     errors := (errors b ++ [mkError (orElse (rowGet row "prn") "Unknown") message])%list;
     successCount := successCount b;
     updateCount := updateCount b;
     errorCount := S (errorCount b) |}.

(** Lines 121-129: the row is skipped. *)
Definition skipRow (b : Batch) (r : Resolved) : Batch :=
  {| roster := roster b;
     errors := (errors b ++ [mkError (orElse (r_prn r) "N/A") missingFields])%list;
     successCount := successCount b;
     updateCount := updateCount b;
     errorCount := S (errorCount b) |}.

(** One iteration of the loop of lines 107-176. *)
Definition processRow (b : Batch) (row : Row) : Batch :=
  let r := resolveRow row in
  if negb (truthy (r_prn r)) || negb (truthy (r_name r)) then skipRow b r
  else
    let studentData := studentDataOf r in
    match findOne (roster b) (StudentData.prn studentData) with
    | Some existingStudent =>
        match save (roster b) (updateExisting existingStudent studentData) with
        | inr db' =>
            {| roster := db';
               errors := errors b;
               successCount := successCount b;
               updateCount := S (updateCount b);
               errorCount := errorCount b |}
        | inl message => catchRow b row message
        end
    | None =>
        match create (roster b) studentData with
        | inr db' =>
            {| roster := db';
               errors := errors b;
               successCount := S (successCount b);
               updateCount := updateCount b;
               errorCount := errorCount b |}
        | inl message => catchRow b row message
        end
    end.

Definition startBatch (db : Collection) : Batch :=
  {| roster := db; errors := []; successCount := 0%nat;
     updateCount := 0%nat; errorCount := 0%nat |}.

Definition processRows (db : Collection) (results : list Row) : Batch :=
  fold_left processRow results (startBatch db).

(** [uploadStudentsCSV] once the file is parsed into [results]: the
    response data and the collection it leaves. *)
Definition uploadStudentsCSV (db : Collection) (results : list Row)
  : BatchResult * Collection :=
  let b := processRows db results in
  ({| totalRecords := length results;
      newStudents := successCount b;
      updatedStudents := updateCount b;
      errorsTotal := errorCount b;
      errorDetails := match errors b with [] => None | es => Some es end |},
   roster b).

End Roster.

(** ** Number and date formatting *)

Definition digitChar (d : Z) : ascii := ascii_of_N (48 + Z.to_N d).

(** Decimal digits of a non-negative integer, most significant first. *)
Fixpoint digitsOf (fuel : nat) (n : Z) (acc : string) : string :=
  match fuel with
  | O => acc
  | S fuel' =>
      let acc' := String (digitChar (n mod 10)) acc in
      if n <? 10 then acc' else digitsOf fuel' (n / 10) acc'
  end.

(** [String(n)] for an integer [n]. *)
Definition numberToString (n : Z) : string :=
  if n <? 0 then "-" ++ digitsOf (S (Z.to_nat (Z.log2 (- n)))) (- n) ""
  else digitsOf (S (Z.to_nat (Z.log2 n))) n "".

Fixpoint repeatChar (c : ascii) (n : nat) : string :=
  match n with
  | O => EmptyString
  | S n' => String c (repeatChar c n')
  end.

(** [s.padStart(width, c)] *)
Definition padStart (s : string) (width : nat) (c : ascii) : string :=
  repeatChar c (width - String.length s) ++ s.

Definition pad (width : nat) (n : Z) : string :=
  padStart (numberToString n) width "0".

(** The year of [toISOString]: four digits, or a sign and six digits outside
    0..9999. *)
Definition isoYear (y : Z) : string :=
  if (0 <=? y) && (y <=? 9999) then pad 4 y
  else (if y <? 0 then "-" else "+") ++ pad 6 (Z.abs y).

(** [Date.prototype.toISOString] *)
Definition toISOString (d : Date) : string :=
  isoYear (d_year d) ++ "-" ++ pad 2 (d_month d) ++ "-" ++ pad 2 (d_day d)
  ++ "T" ++ pad 2 (d_ms d / 3600000) ++ ":" ++ pad 2 (d_ms d / 60000 mod 60)
  ++ ":" ++ pad 2 (d_ms d / 1000 mod 60) ++ "." ++ pad 3 (d_ms d mod 1000) ++ "Z".

(** [s.slice(0, n)] *)
Definition slice0 (n : nat) (s : string) : string := substring 0 n s.

(** [s.replace(/c/g, '')] for a single character [c]. *)
Fixpoint removeChar (c : ascii) (s : string) : string :=
  match s with
  | EmptyString => EmptyString
  | String x s' => if Ascii.eqb x c then removeChar c s' else String x (removeChar c s')
  end.

(** ** Appending a ledger entry ([addFineToStudent], lines 262-332) *)

(** A JSON value of the request body, as far as [amount] is concerned. *)
Inductive JsValue :=
| JUndefined
| JNull
| JBool (b : bool)
| JNumber (n : Z)
| JString (s : string).

(** [!!v] *)
Definition truthyValue (v : JsValue) : bool :=
  match v with
  | JUndefined | JNull => false
  | JBool b => b
  | JNumber n => negb (n =? 0)
  | JString s => negb (String.eqb s "")
  end.

Record FineRequest := mkFineRequest {
  req_prn : string;
  body_amount : JsValue;
  body_reason : option string;
  body_type : option string;
  body_category : option string;
  body_date : option Date
}.

(** What one call reads from its environment: the three [new Date()] of
    lines 287, 299 and 301, and [Math.random()], a number in [0, 1). *)
Record Env := mkEnv {
  now : Date;
  nowDate : Date;
  nowPaid : Date;
  random : Q
}.

(** An HTTP outcome: the success payload, or the error thrown to the error
    middleware, each with its status code.  The status of a thrown error is
    the one set with [res.status] before the [throw], and 500 when none was
    set. *)
Inductive Response (A : Type) :=
| Success (status : Z) (data : A)
| Failure (status : Z) (message : string).
Arguments Success {A} status data.
Arguments Failure {A} status message.

(** The [data] object of lines 318-330, without the derived totals. *)
Record FineAdded := mkFineAdded {
  fa_prn : string;
  fa_payment : Fine.t;
  fa_receiptNumber : string;
  fa_paymentCount : nat;
  fa_emailSent : bool
}.

(** Lines 287-290. *)
Definition dateStr (d : Date) : string :=
  removeChar "-" (slice0 10 (toISOString d)).

Definition randomNum (r : Q) : Z :=
  Qfloor (inject_Z 10000 + r * inject_Z 90000).

Definition receiptNumberOf (d : Date) (r : Q) : string :=
  "RCP-" ++ dateStr d ++ "-" ++ numberToString (randomNum r).

Definition notFoundMessage (prn : string) : string :=
  "Student with PRN " ++ toUpperCase prn ++ " not found".

Section AddFine.

Variable validate : Student.t -> option string.

(** [Number(s)] on a string: [None] is [NaN]. *)
Variable stringToNumber : string -> option Z.

(** [Number(v)] *)
Definition toNumber (v : JsValue) : option Z :=
  match v with
  | JUndefined => None
  | JNull => Some 0
  | JBool b => Some (if b then 1 else 0)
  | JNumber n => Some n
  | JString s => stringToNumber s
  end.

Definition newPayment (env : Env) (req : FineRequest) (n : Z) : Fine.t :=
  {| Fine.amount := n;
     Fine.reason := orElse (option_map trim (body_reason req)) "";
     Fine.type := orElse (body_type req) "fine";
     Fine.category := orElse (body_category req) "Others";
     Fine.receiptNumber := receiptNumberOf (now env) (random env);
     Fine.date := match body_date req with Some d => d | None => nowDate env end;
     Fine.isPaid := true;
     Fine.paidDate := Some (nowPaid env) |}.

(** [addFineToStudent], lines 262-332.  The receipt e-mail of lines 311-313
    is sent without being awaited and its outcome reaches neither the
    response nor the collection; only [emailSent] records it. *)
Definition addFineToStudent (env : Env) (db : Collection) (req : FineRequest)
  : Response FineAdded * Collection :=
  if negb (truthyValue (body_amount req)) then
    (Failure 400 "Please provide payment amount", db)
  else
    match toNumber (body_amount req) with   (* isNaN(amount) || Number(amount) <= 0 *)
    | None => (Failure 400 "Payment amount must be a positive number", db)
    | Some n =>
        if n <=? 0 then (Failure 400 "Payment amount must be a positive number", db)
        else
          match findOne db (toUpperCase (req_prn req)) with
          | None => (Failure 404 (notFoundMessage (req_prn req)), db)
          | Some student =>
              let p := newPayment env req n in
              let student' := Student.push_fine student p in
              match save validate db student' with
              | inl message => (Failure 500 message, db)
              | inr db' =>
                  (Success 201
                     {| fa_prn := Student.prn student';
                        fa_payment := p;
                        fa_receiptNumber := Fine.receiptNumber p;
                        fa_paymentCount := length (Student.fines student');
                        fa_emailSent := truthy (Student.email student') |},
                   db')
              end
          end
    end.

End AddFine.

(** ** Ledger aggregation ([expenditureController.js]) *)

Definition sumZ (l : list Z) : Z := fold_right Z.add 0 l.

(** [{ $unwind: '$fines' }]: one document per ledger entry; a student with
    an empty array yields none. *)
Definition unwindFines (students : Collection) : list Fine.t :=
  flat_map Student.fines students.

(** [{ $group: { _id: null, total: { $sum: f } } }]: one group when there is
    at least one input document, none otherwise. *)
Definition groupAll {A : Type} (f : A -> Z) (docs : list A) : list Z :=
  match docs with
  | [] => []
  | _ => [fold_left (fun acc d => acc + f d) docs 0]
  end.

(** [result.length > 0 ? result[0].total : 0] *)
Definition firstOrZero (result : list Z) : Z :=
  match result with
  | total :: _ => total
  | [] => 0
  end.

(** The [financial] and [statistics] objects of lines 93-105. *)
Record FinancialSummary := mkSummary {
  totalIncome : Z;
  totalExpenditure : Z;
  balance : Z;
  status : string;
  totalStudents : nat;
  studentsWithFines : nat;
  totalFines : Z;
  totalExpenditures : nat
}.

Definition hasFines (s : Student.t) : bool :=
  match Student.fines s with
  | [] => false
  | _ => true
  end.

(** [getFinancialSummary], lines 62-109, without the breakdown by category
    (a static method of the expenditure model). *)
Definition getFinancialSummary (students : Collection)
    (expenditures : list Expenditure.t) : FinancialSummary :=
  let incomeResult := groupAll Fine.amount (unwindFines students) in
  let totalIncome := firstOrZero incomeResult in
  let expenditureResult := groupAll Expenditure.amount expenditures in
  let totalExpenditure := firstOrZero expenditureResult in
  let balance := totalIncome - totalExpenditure in
  let totalFineCount :=
    groupAll (fun s => Z.of_nat (length (Student.fines s))) students in
  {| totalIncome := totalIncome;
     totalExpenditure := totalExpenditure;
     balance := balance;
     status := if 0 <=? balance then "surplus" else "deficit";
     totalStudents := length students;
     studentsWithFines := length (filter hasFines students);
     totalFines := firstOrZero totalFineCount;
     totalExpenditures := length expenditures |}.

(** One group of a [$group] by month: [_id.month], the sum and the count. *)
Record MonthGroup := mkGroup {
  g_month : Z;
  g_total : Z;
  g_count : nat
}.

(** A document joins the group of its month, or opens it. *)
Fixpoint addToGroup (m a : Z) (groups : list MonthGroup) : list MonthGroup :=
  match groups with
  | [] => [mkGroup m a 1]
  | g :: rest =>
      if g_month g =? m then mkGroup m (g_total g + a) (S (g_count g)) :: rest
      else g :: addToGroup m a rest
  end.

(** [{ $group: { _id: { month: { $month: date } }, total: { $sum: amount },
    count: { $sum: 1 } } }] over (date, amount) pairs. *)
Definition groupByMonth (docs : list (Date * Z)) : list MonthGroup :=
  fold_left (fun groups d => addToGroup (d_month (fst d)) (snd d) groups) docs [].

Fixpoint insertGroup (g : MonthGroup) (sorted : list MonthGroup) : list MonthGroup :=
  match sorted with
  | [] => [g]
  | h :: rest =>
      if g_month g <=? g_month h then g :: sorted else h :: insertGroup g rest
  end.

(** [{ $sort: { '_id.month': 1 } }] *)
Definition sortByMonth (groups : list MonthGroup) : list MonthGroup :=
  fold_right insertGroup [] groups.

(** The years whose template string [`${year}-01-01`] is an ISO date-only
    string, [YYYY-MM-DD]: those of four digits.  For any other year the
    string is not in the date-time format and what [new Date] reads from it
    is left to the engine; the report is modelled, and its properties are
    stated, for four-digit years only. *)
Definition fourDigitYear (year : Z) : Prop := 1000 <= year <= 9999.

(** [new Date(`${year}-01-01`)] and [new Date(`${year}-12-31`)] for a
    four-digit year: a date-only string is midnight UTC of that day. *)
Definition yearStart (year : Z) : Date := mkDate year 1 1 0.
Definition yearEnd (year : Z) : Date := mkDate year 12 31 0.

(** [{ $match: { date: { $gte: yearStart, $lte: yearEnd } } }] *)
Definition inYearSpan (year : Z) (d : Date) : bool :=
  Date_leb (yearStart year) d && Date_leb d (yearEnd year).

Definition monthlyIncome (year : Z) (students : Collection) : list MonthGroup :=
  sortByMonth
    (groupByMonth
       (map (fun f => (Fine.date f, Fine.amount f))
            (filter (fun f => inYearSpan year (Fine.date f)) (unwindFines students)))).

Definition monthlyExpenditure (year : Z) (expenditures : list Expenditure.t)
  : list MonthGroup :=
  sortByMonth
    (groupByMonth
       (map (fun e => (Expenditure.date e, Expenditure.amount e))
            (filter (fun e => inYearSpan year (Expenditure.date e)) expenditures))).

(** One element of [monthlyReport] (lines 287-295). *)
Record MonthRow := mkMonthRow {
  month : string;
  monthNumber : Z;
  income : Z;
  expenditure : Z;
  monthBalance : Z;
  fineCount : nat;
  expenditureCount : nat
}.

Record YearlyTotals := mkTotals {
  yt_totalIncome : Z;
  yt_totalExpenditure : Z;
  yt_totalBalance : Z
}.

Record MonthlyReport := mkReport {
  rep_year : Z;
  monthlyReport : list MonthRow;
  yearlyTotals : YearlyTotals
}.

Definition months : list string :=
  ["Jan"; "Feb"; "Mar"; "Apr"; "May"; "Jun";
   "Jul"; "Aug"; "Sep"; "Oct"; "Nov"; "Dec"].

(** [groups.find(item => item._id.month === index + 1)] *)
Definition findMonth (groups : list MonthGroup) (index : nat) : option MonthGroup :=
  find (fun item => g_month item =? Z.of_nat index + 1) groups.

(** The callback of [months.map] (lines 281-296). *)
Definition monthRow (incomes expenditures : list MonthGroup)
    (index : nat) (name : string) : MonthRow :=
  let incomeData := findMonth incomes index in
  let expData := findMonth expenditures index in
  let income := match incomeData with Some g => g_total g | None => 0 end in
  let expenditure := match expData with Some g => g_total g | None => 0 end in
  {| month := name;
     monthNumber := Z.of_nat index + 1;
     income := income;
     expenditure := expenditure;
     monthBalance := income - expenditure;
     fineCount := match incomeData with Some g => g_count g | None => 0%nat end;
     expenditureCount := match expData with Some g => g_count g | None => 0%nat end |}.

(** [array.map((x, index) => f(index, x))] *)
Fixpoint mapIndexed {A B : Type} (f : nat -> A -> B) (index : nat) (l : list A) : list B :=
  match l with
  | [] => []
  | x :: rest => f index x :: mapIndexed f (S index) rest
  end.

(** [parseInt(req.query.year) || new Date().getFullYear()]: [None] is a
    query that does not parse ([NaN]). *)
Definition reportYear (queryYear : option Z) (currentYear : Z) : Z :=
  match queryYear with
  | Some y => if y =? 0 then currentYear else y
  | None => currentYear
  end.

(** [getMonthlyReport], lines 248-313, for the year already chosen, a year
    of four digits. *)
Definition getMonthlyReport (year : Z) (students : Collection)
    (expenditures : list Expenditure.t) : MonthlyReport :=
  let incomes := monthlyIncome year students in
  let spent := monthlyExpenditure year expenditures in
  let report := mapIndexed (monthRow incomes spent) 0 months in
  {| rep_year := year;
     monthlyReport := report;
     yearlyTotals :=
       {| yt_totalIncome := fold_left (fun sum m => sum + income m) report 0;
          yt_totalExpenditure := fold_left (fun sum m => sum + expenditure m) report 0;
          yt_totalBalance := fold_left (fun sum m => sum + monthBalance m) report 0 |} |}.

(** ** Specification-side notions

    The definitions below follow the words of the specification; the
    properties compare them with the embedded code above. *)

(** [sub] is a substring of [s]: [s] is some characters, then [sub], then
    the rest. *)
Definition occursIn (sub s : string) : Prop :=
  exists before after, s = before ++ sub ++ after.

(** "Substring match in either direction": the row key contains the alias,
    or the alias contains the row key. *)
Definition substringMatch (alias rowKey : string) : Prop :=
  occursIn alias rowKey \/ occursIn rowKey alias.


(** Every alias any lookup of [resolveRow] tries. *)
Definition allKeys : list string :=
  (prnKeys ++ nameKeys ++ academicYearKeys ++ semesterKeys ++ yearKeys
   ++ divisionKeys ++ rollNoKeys ++ phoneKeys ++ emailKeys)%list.

(** A lookup by alias [key] can read column [column]. *)
Definition consults (key column : string) : bool :=
  String.eqb key column || partialMatch key column.

(** A present value overwrites, an absent one keeps what is there. *)
Definition keep (v old : option string) : option string :=
  if truthy v then v else old.

(** A row is invalid when its identifier or its name is missing. *)
Definition invalidRow (row : Row) : bool :=
  negb (truthy (r_prn (resolveRow row))) || negb (truthy (r_name (resolveRow row))).

(** The document a valid row asks the store to write. *)
Definition writtenDocument (db : Collection) (row : Row) : Student.t :=
  let d := studentDataOf (resolveRow row) in
  match findOne db (StudentData.prn d) with
  | Some existing => updateExisting existing d
  | None => newDocument d
  end.

(** Per-row reconciliation: an invalid row is skipped, a valid one is merged
    into the student with its identifier, or creates that student. *)
Definition reconcile (db : Collection) (row : Row) : Collection :=
  if invalidRow row then db
  else
    let d := studentDataOf (resolveRow row) in
    match findOne db (StudentData.prn d) with
    | Some existing => replaceDocument db (updateExisting existing d)
    | None => (db ++ [newDocument d])%list
    end.

Definition isNone {A : Type} (o : option A) : bool :=
  match o with
  | None => true
  | Some _ => false
  end.

(** No valid row of the batch meets an exception when it is persisted. *)
Fixpoint persistsCleanly (validate : Student.t -> option string)
    (db : Collection) (rows : list Row) : bool :=
  match rows with
  | [] => true
  | row :: rest =>
      (invalidRow row || isNone (validate (writtenDocument db row)))
      && persistsCleanly validate (reconcile db row) rest
  end.

(** A resolved value is missing: the field resolved to absent, or to an
    empty cell. *)
Definition missing (v : option string) : Prop :=
  v = None \/ v = Some EmptyString.

(** What the student met by a row held in an optional field: nothing when
    the row met no student. *)
Definition heldBefore (before : option Student.t) (field : Student.t -> option string)
  : option string :=
  match before with
  | Some s => field s
  | None => None
  end.

(** A valid row is fully applied, "created or merged", to the student
    [before] it met and leaves the student [s]: [s] is filed under the
    upper-cased resolved identifier and carries the resolved name; each
    optional field holds the value the row resolves when it is present and
    otherwise what the student held before (nothing for a student the row
    creates), department being filled from the division column; the ledger
    is the student's ledger, empty for a student the row creates. *)
Definition fullyApplied (row : Row) (before : option Student.t) (s : Student.t) : Prop :=
  Some (Student.prn s) = option_map toUpperCase (getValue row prnKeys)
  /\ Some (Student.name s) = getValue row nameKeys
  /\ Student.academicYear s
     = keep (getValue row academicYearKeys) (heldBefore before Student.academicYear)
  /\ Student.semester s = keep (getValue row semesterKeys) (heldBefore before Student.semester)
  /\ Student.year s = keep (getValue row yearKeys) (heldBefore before Student.year)
  /\ Student.division s = keep (getValue row divisionKeys) (heldBefore before Student.division)
  /\ Student.rollNo s = keep (getValue row rollNoKeys) (heldBefore before Student.rollNo)
  /\ Student.department s
     = keep (getValue row divisionKeys) (heldBefore before Student.department)
  /\ Student.email s = keep (getValue row emailKeys) (heldBefore before Student.email)
  /\ Student.phone s = keep (getValue row phoneKeys) (heldBefore before Student.phone)
  /\ Student.fines s
     = match before with
       | Some b => Student.fines b
       | None => []
       end.

(** Two successive rows for one student amount to one row. *)
Definition combineData (d1 d2 : StudentData.t) : StudentData.t :=
  {| StudentData.prn := StudentData.prn d1;
     StudentData.name := StudentData.name d2;
     StudentData.academicYear := keep (StudentData.academicYear d2) (StudentData.academicYear d1);
     StudentData.semester := keep (StudentData.semester d2) (StudentData.semester d1);
     StudentData.year := keep (StudentData.year d2) (StudentData.year d1);
     StudentData.division := keep (StudentData.division d2) (StudentData.division d1);
     StudentData.rollNo := keep (StudentData.rollNo d2) (StudentData.rollNo d1);
     StudentData.department := keep (StudentData.department d2) (StudentData.department d1);
     StudentData.email := keep (StudentData.email d2) (StudentData.email d1);
     StudentData.phone := keep (StudentData.phone d2) (StudentData.phone d1) |}.

(** The student a row leaves behind, given the student it met. *)
Definition applyData (o : option Student.t) (d : StudentData.t) : Student.t :=
  match o with
  | Some s => updateExisting s d
  | None => newDocument d
  end.

(** What the rows of a batch say about student [p], taken together. *)
Fixpoint combinedData (p : string) (rows : list Row) : option StudentData.t :=
  match rows with
  | [] => None
  | row :: rest =>
      let d := studentDataOf (resolveRow row) in
      if negb (invalidRow row) && String.eqb (StudentData.prn d) p then
        Some (match combinedData p rest with
              | Some d' => combineData d d'
              | None => d
              end)
      else combinedData p rest
  end.

(** The effect of one row on the student with identifier [p]. *)
Definition reconcileOne (p : string) (o : option Student.t) (row : Row)
  : option Student.t :=
  let d := studentDataOf (resolveRow row) in
  if negb (invalidRow row) && String.eqb (StudentData.prn d) p then
    Some (match o with
          | Some s => updateExisting s d
          | None => newDocument d
          end)
  else o.

(** The documents of a collection that no lookup can reach: those that
    repeat an identifier met earlier in the collection (or listed in
    [seen]); reachable documents are masked. *)
Fixpoint shadowed (seen : list string) (db : Collection) : list (option Student.t) :=
  match db with
  | [] => []
  | x :: rest =>
      (if existsb (String.eqb (Student.prn x)) seen then Some x else None)
      :: shadowed (Student.prn x :: seen) rest
  end.

(** A validation rule of the kind the README documents for the student
    schema ([department: String (required)]). *)
Definition requireDepartment (s : Student.t) : option string :=
  if truthy (Student.department s) then None
  else Some "Student validation failed: department: Path `department` is required.".

(** A schema that accepts every document. *)
Definition acceptAll (s : Student.t) : option string := None.








Definition isDigit (c : ascii) : bool :=
  let n := N_of_ascii c in ((48 <=? n) && (n <=? 57))%N.

(** The calendar day of a date, as eight digits. *)
Definition yyyymmdd (d : Date) : string :=
  pad 4 (d_year d) ++ pad 2 (d_month d) ++ pad 2 (d_day d).

(** A date of the common era with a four-digit year. *)
Definition calendarDate (d : Date) : Prop :=
  0 <= d_year d <= 9999 /\ 1 <= d_month d <= 12 /\ 1 <= d_day d <= 31.

(** Income as the specification words it: every student contributes the sum
    of the amounts of its ledger entries. *)
Definition ledgerTotal (s : Student.t) : Z :=
  sumZ (map Fine.amount (Student.fines s)).

Definition incomeOf (students : Collection) : Z :=
  sumZ (map ledgerTotal students).

Definition expenditureOf (expenditures : list Expenditure.t) : Z :=
  sumZ (map Expenditure.amount expenditures).

(** The sum and the count a month's group holds, zero when the month has no
    group. *)
Definition totalOf (o : option MonthGroup) : Z :=
  match o with
  | Some g => g_total g
  | None => 0
  end.

Definition countOf (o : option MonthGroup) : nat :=
  match o with
  | Some g => g_count g
  | None => 0%nat
  end.

(** A date the report of [year] files under month [m]: it passes the
    [$match] of the year span and its own month is [m]. *)
Definition inMonth (year m : Z) (d : Date) : bool :=
  inYearSpan year d && (d_month d =? m).

Definition monthIncome (year m : Z) (students : Collection) : Z :=
  sumZ (map Fine.amount
          (filter (fun f => inMonth year m (Fine.date f)) (unwindFines students))).

Definition monthSpent (year m : Z) (expenditures : list Expenditure.t) : Z :=
  sumZ (map Expenditure.amount
          (filter (fun e => inMonth year m (Expenditure.date e)) expenditures)).

(** A well-formed UTC reading: month, day and time of day in range. *)
Definition wellFormedDate (d : Date) : Prop :=
  1 <= d_month d <= 12 /\ 1 <= d_day d <= 31 /\ 0 <= d_ms d < 86400000.

(** Sample rows used to exercise the properties. *)
Definition sampleRow : Row :=
  [("sr no", "1"); ("prn number", " a1b2 "); ("student name", "Asha Rao ");
   ("division", "B"); ("email id", "asha@example.org")].


(** A row whose division cell is blank and which has a column
    "department". *)
Definition blankDivisionRow : Row :=
  [("prn", "a1b2"); ("name", "Asha Rao"); ("division", "  "); ("department", "IT")].

Definition sampleFine : Fine.t :=
  {| Fine.amount := 50; Fine.reason := "Late submission"; Fine.type := "fine";
     Fine.category := "Others"; Fine.receiptNumber := "RCP-20240307-40000";
     Fine.date := mkDate 2024 3 7 4500000; Fine.isPaid := true;
     Fine.paidDate := Some (mkDate 2024 3 7 4500000) |}.

Definition sampleStudent : Student.t :=
  {| Student.prn := "A1B2"; Student.name := "A. Rao";
     Student.academicYear := Some "2023-24"; Student.semester := None;
     Student.year := None; Student.division := Some "A";
     Student.rollNo := Some "17"; Student.department := Some "A";
     Student.email := None; Student.phone := Some "5550100";
     Student.fines := [sampleFine] |}.

Definition sampleRoster : Collection := [sampleStudent].

Definition newRow : Row :=
  [("prn number", "c9d8"); ("student name", "Binod Kale"); ("division", "A")].

Definition noNameRow : Row :=
  [("prn number", "e5f6"); ("student name", "  ")].

Definition sampleBatch : list Row := [newRow; sampleRow; noNameRow].

(** Two rows for one student: the first carries an email and no division,
    the second a division and no email. *)
Definition splitBatch : list Row :=
  [[("prn", "a1"); ("name", "Asha"); ("email", "asha@example.org")];
   [("prn", "a1"); ("name", "Asha Rao"); ("division", "B")]].

(** Re-running a batch as an unconditional statement: the second run leaves
    the collection of the first run, creates nothing and takes the update
    path for every row. *)
Definition rerunsAsUpdates (validate : Student.t -> option string)
    (db : Collection) (rows : list Row) : Prop :=
  let first := uploadStudentsCSV validate db rows in
  let second := uploadStudentsCSV validate (snd first) rows in
  snd second = snd first
  /\ newStudents (fst second) = 0%nat
  /\ updatedStudents (fst second) = length rows.

(** A row whose identifier column is headed "PRN Number" and which has no
    division. *)
Definition prnNumberRow : Row :=
  [("prn number", "a1b2"); ("student name", "Asha Rao")].

(** A coercion for bodies whose amount is a JSON number: every string is
    [NaN]. *)
Definition numbersOnly (s : string) : option Z := None.

Definition sampleEnv : Env :=
  {| now := mkDate 2024 3 7 4500000; nowDate := mkDate 2024 3 7 4500001;
     nowPaid := mkDate 2024 3 7 4500002; random := 1 # 3 |}.

Definition sampleRequest : FineRequest :=
  {| req_prn := "a1b2"; body_amount := JNumber 30; body_reason := Some " Library ";
     body_type := Some "fee"; body_category := None;
     body_date := Some (mkDate 2023 12 31 0) |}.

(** A ledger entry of the given amount and date. *)
Definition fineOn (amount : Z) (d : Date) : Fine.t :=
  {| Fine.amount := amount; Fine.reason := ""; Fine.type := "fine";
     Fine.category := "Others"; Fine.receiptNumber := "RCP-20241231-12345";
     Fine.date := d; Fine.isPaid := true; Fine.paidDate := Some d |}.

(** A student with one entry, of amount 50, dated 31 December 2024 at
    10:00 UTC. *)
Definition decemberStudent : Student.t :=
  {| Student.prn := "C9D8"; Student.name := "Binod Kale";
     Student.academicYear := None; Student.semester := None;
     Student.year := None; Student.division := None;
     Student.rollNo := None; Student.department := None;
     Student.email := None; Student.phone := None;
     Student.fines := [fineOn 50 (mkDate 2024 12 31 36000000)] |}.

(** The student of the specification's scenario: a fine of 50 and a fee of
    30. *)
Definition twoEntryStudent : Student.t :=
  {| Student.prn := "A1B2"; Student.name := "Asha Rao";
     Student.academicYear := None; Student.semester := None;
     Student.year := None; Student.division := None;
     Student.rollNo := None; Student.department := None;
     Student.email := None; Student.phone := None;
     Student.fines := [fineOn 50 (mkDate 2024 3 7 0); fineOn 30 (mkDate 2024 3 8 0)] |}.

(** ** Further notions for the properties of the rest of the controllers *)

(** What a student's ledger is filed under: the identifier and the entries. *)
Definition ledgerKey (s : Student.t) : string * list Fine.t :=
  (Student.prn s, Student.fines s).

(** ** Reading and deleting students (student controller, lines 212-253,
    383-412 and 454-472) *)

(** [searchStudentByPRN], lines 212-232. *)
Definition searchStudentByPRN (db : Collection) (prn : string) : Response Student.t :=
  if negb (truthy (Some prn)) then Failure 400 "Please provide a PRN to search"
  else
    match findOne db (toUpperCase prn) with
    | None => Failure 404 (notFoundMessage prn)
    | Some student => Success 200 student
    end.

(** [getStudentByPRN], lines 239-253. *)
Definition getStudentByPRN (db : Collection) (prn : string) : Response Student.t :=
  match findOne db (toUpperCase prn) with
  | None => Failure 404 (notFoundMessage prn)
  | Some student => Success 200 student
  end.

(** One step of sorting with the comparator
    [(a, b) => new Date(b.date) - new Date(a.date)]: [x] goes in front of
    the first entry that is not newer than it. *)
Fixpoint insertNewestFirst (x : Fine.t) (sorted : list Fine.t) : list Fine.t :=
  match sorted with
  | [] => [x]
  | y :: rest =>
      if Date_leb (Fine.date y) (Fine.date x) then x :: sorted
      else y :: insertNewestFirst x rest
  end.

(** [fines.sort((a, b) => new Date(b.date) - new Date(a.date))].
    [Array.prototype.sort] is stable, and a stable sort by a total preorder
    has one result; it is computed here by insertion. *)
Definition sortNewestFirst (fines : list Fine.t) : list Fine.t :=
  fold_right insertNewestFirst [] fines.

(** The [data] object of lines 398-410, without the totals the student
    schema derives. *)
Record FinesView := mkFinesView {
  fv_prn : string;
  fv_name : string;
  fv_department : option string;
  fv_fines : list Fine.t;
  fv_fineCount : nat
}.

(** [getStudentFines], lines 383-412. *)
Definition getStudentFines (db : Collection) (prn : string) : Response FinesView :=
  match findOne db (toUpperCase prn) with
  | None => Failure 404 (notFoundMessage prn)
  | Some student =>
      let sortedFines := sortNewestFirst (Student.fines student) in
      Success 200
        {| fv_prn := Student.prn student;
           fv_name := Student.name student;
           fv_department := Student.department student;
           fv_fines := sortedFines;
           fv_fineCount := length sortedFines |}
  end.

(** Modelled from the spec: the write of [Student.findOneAndDelete], which
    removes the document found under the identifier. *)
Fixpoint removeDocument (db : Collection) (p : string) : Collection :=
  match db with
  | [] => []
  | x :: rest => if hasPrn p x then rest else x :: removeDocument rest p
  end.

(** [deleteStudent], lines 454-472: the response data are the identifier
    and the name of the deleted student. *)
Definition deleteStudent (db : Collection) (prn : string)
  : Response (string * string) * Collection :=
  match findOne db (toUpperCase prn) with
  | None => (Failure 404 (notFoundMessage prn), db)
  | Some student =>
      (Success 200 (Student.prn student, Student.name student),
       removeDocument db (toUpperCase prn))
  end.

(** Two dates are the same instant. *)
Definition sameDate (a b : Date) : bool := Date_leb a b && Date_leb b a.

(** [a] is not later than [b], spelled out. *)
Definition notLater (a b : Date) : Prop :=
  d_year a < d_year b
  \/ (d_year a = d_year b
      /\ (d_month a < d_month b
          \/ (d_month a = d_month b
              /\ (d_day a < d_day b
                  \/ (d_day a = d_day b /\ d_ms a <= d_ms b))))).

(** ** Locating and naming the header row (student controller, lines 40-68) *)

Definition isUpperChar (c : ascii) : bool :=
  let n := N_of_ascii c in ((65 <=? n) && (n <=? 90))%N.

Definition lowerChar (c : ascii) : ascii :=
  let n := N_of_ascii c in
  if ((65 <=? n) && (n <=? 90))%N then ascii_of_N (n + 32) else c.

(** [String.prototype.toLowerCase] *)
Fixpoint toLowerCase (s : string) : string :=
  match s with
  | EmptyString => EmptyString
  | String c s' => String (lowerChar c) (toLowerCase s')
  end.

(** A character goes in front of the first piece. *)
Definition consFirst (c : ascii) (pieces : list string) : list string :=
  match pieces with
  | [] => [String c EmptyString]
  | piece :: rest => String c piece :: rest
  end.

(** [s.split(/\r?\n/)]: the pieces between line breaks, a line break being
    a line feed or a carriage return followed by a line feed. *)
Fixpoint splitLines (s : string) : list string :=
  match s with
  | EmptyString => [EmptyString]
  | String c rest =>
      if Ascii.eqb c "010" then EmptyString :: splitLines rest
      else
        match rest with
        | String c' rest' =>
            if Ascii.eqb c "013" && Ascii.eqb c' "010"
            then EmptyString :: splitLines rest'
            else consFirst c (splitLines rest)
        | EmptyString => consFirst c (splitLines rest)
        end
  end.

(** Line 41: the lines of the file that are not blank. *)
Definition contentLines (fileContent : string) : list string :=
  filter (fun line => truthy (Some (trim line))) (splitLines fileContent).

(** The test of line 47. *)
Definition looksLikeHeader (line : string) : bool :=
  let lineLower := toLowerCase line in
  includes lineLower "prn" && (includes lineLower "name" || includes lineLower "student").

(** The loop of lines 45-52 from index [i], with [budget] iterations left:
    the index at which it breaks, if it does. *)
Fixpoint scanHeader (budget i : nat) (lines : list string) : option nat :=
  match budget, lines with
  | S budget', line :: rest =>
      if looksLikeHeader line then Some i else scanHeader budget' (S i) rest
  | _, _ => None
  end.

(** Lines 44-52: [headerRowIndex] starts at 0 and the loop runs over the
    first [Math.min(5, lines.length)] lines. *)
Definition headerRowIndex (lines : list string) : nat :=
  match scanHeader 5 0 lines with
  | Some i => i
  | None => 0%nat
  end.

(** Line 55: [lines.slice(headerRowIndex).join('\n')]. *)
Definition modifiedContent (fileContent : string) : string :=
  let lines := contentLines fileContent in
  String.concat (String "010" EmptyString) (skipn (headerRowIndex lines) lines).

(** A character of the class [[.\s]] (below 128). *)
Definition isSeparator (c : ascii) : bool :=
  Ascii.eqb c "." || isWhiteSpace c.

(** [s.replace(/[.\s]+/g, ' ')]: every maximal run of separators becomes one
    space; [inRun] tells that the previous character was a separator. *)
Fixpoint collapseSeparators (inRun : bool) (s : string) : string :=
  match s with
  | EmptyString => EmptyString
  | String c rest =>
      if isSeparator c then
        if inRun then collapseSeparators true rest
        else String " " (collapseSeparators true rest)
      else String c (collapseSeparators false rest)
  end.

(** The [mapHeaders] callback of line 67:
    [header.trim().toLowerCase().replace(/[.\s]+/g, ' ').trim()]. *)
Definition mapHeaders (header : string) : string :=
  trim (collapseSeparators false (toLowerCase (trim header))).

(** The only separators are single spaces; [afterSpace] tells that the
    previous character was one. *)
Fixpoint singleSpaced (afterSpace : bool) (s : string) : bool :=
  match s with
  | EmptyString => true
  | String c rest =>
      if isSeparator c then Ascii.eqb c " " && negb afterSpace && singleSpaced true rest
      else singleSpaced false rest
  end.

(** A file with three lines of preamble before its header. *)
Definition sampleFile : string :=
  "Zeal College" ++ String "013" (String "010" "")
  ++ "Division B," ++ String "010" (String "010" "")
  ++ "   " ++ String "010" ""
  ++ "Academic Year 2023-24" ++ String "010" ""
  ++ "Sr. No,PRN  Number,Student Name" ++ String "013" (String "010" "")
  ++ "1,a1b2,Asha Rao".

(** The month numbers of a report. *)
Definition monthNumbers : list Z := [1; 2; 3; 4; 5; 6; 7; 8; 9; 10; 11; 12].

(** ** Paginated listings ([getAllStudents], student controller lines
    339-376; [getAllExpenditures], expenditure controller lines 116-159) *)

(** [parseInt(q) || d]: [None] is a query parameter that is absent or does
    not parse ([NaN]). *)
Definition parseOr (q : option Z) (d : Z) : Z :=
  match q with
  | Some n => if n =? 0 then d else n
  | None => d
  end.

(** The [pagination] object of both listings; [totalDocuments] is
    [totalStudents], respectively [totalExpenditures]. *)
Record Pagination := mkPagination {
  currentPage : Z;
  totalPages : Z;
  totalDocuments : Z;
  hasNextPage : bool;
  hasPrevPage : bool
}.

(** [Math.ceil(total / limit)], on exact quotients. *)
Definition ceilDiv (total limit : Z) : Z :=
  Qceiling (inject_Z total / inject_Z limit).

Definition paginationOf (page limit total : Z) : Pagination :=
  {| currentPage := page;
     totalPages := ceilDiv total limit;
     totalDocuments := total;
     hasNextPage := page * limit <? total;
     hasPrevPage := 1 <? page |}.

Section Listing.

Variable A : Type.

(** The documents that match the filter of the request, in the order of the
    sort, as [countDocuments(filter)] counts them. *)
Variable matching : list A.

(** The answer of the database to the query
    [find(filter).sort(...).skip(skip).limit(limit)]; nothing is assumed of
    it here. *)
Variable fetch : Z -> Z -> list A.

(** The page a listing answers with, and its pagination. *)
Definition listPage (queryPage queryLimit : option Z) : list A * Pagination :=
  let page := parseOr queryPage 1 in
  let limit := parseOr queryLimit 10 in
  let skip := (page - 1) * limit in
  let total := Z.of_nat (length matching) in
  (fetch skip limit, paginationOf page limit total).

End Listing.

(** The window of the matching documents that starts after [skip] of them
    and holds at most [limit]: what a database answers to a query with a
    skip that is not negative and a positive limit. *)
Definition window {A : Type} (matching : list A) (skip limit : Z) : list A :=
  firstn (Z.to_nat limit) (skipn (Z.to_nat skip) matching).

(** ** Recording expenditures (expenditure controller, lines 18-50 and
    186-241) *)

(** A text field of a request body: absent ([undefined]), [null], or a
    string. *)
Inductive Field :=
| Absent
| Null
| Text (s : string).

(** [!!f] *)
Definition truthyField (f : Field) : bool :=
  match f with
  | Text s => truthy (Some s)
  | _ => false
  end.

(** [f?.trim()] *)
Definition trimmedField (f : Field) : option string :=
  match f with
  | Text s => Some (trim s)
  | _ => None
  end.

(** [f || d] *)
Definition fieldOr (f : Field) (d : string) : string :=
  match f with
  | Text s => orElse (Some s) d
  | _ => d
  end.

(** The body of an add or update request. *)
Record ExpenditureBody := mkExpenditureBody {
  eb_amount : JsValue;
  eb_description : Field;
  eb_category : Field;
  eb_department : Field;
  eb_date : option Date;
  eb_receiptNumber : Field;
  eb_notes : Field
}.

(** Modelled from the spec: a stored expenditure record, with the identifier
    the database gave it and the "attributing actor reference". *)
Record StoredExpenditure := mkStored {
  exp_id : string;
  exp_addedBy : string;
  exp_record : Expenditure.t
}.

(** Modelled from the spec: the expenditure store, in insertion order. *)
Definition Store := list StoredExpenditure.

Definition hasId (id : string) (e : StoredExpenditure) : bool :=
  String.eqb (exp_id e) id.

(** Modelled from the spec: [Expenditure.findById(id)]. *)
Definition findById (store : Store) (id : string) : option StoredExpenditure :=
  find (hasId id) store.


(** Modelled from the spec: the write of [Expenditure.findByIdAndDelete(id)]. *)
Fixpoint removeStored (store : Store) (id : string) : Store :=
  match store with
  | [] => []
  | x :: rest => if hasId id x then rest else x :: removeStored rest id
  end.

Definition amountMessage : string := "Amount must be a positive number".

Definition expenditureNotFound : string := "Expenditure not found".



Section Expenditures.

(** Modelled from the spec: the schema of the expenditure model decides
    which records it refuses; [validate record] is [Some message] when
    persisting the record throws an error with that message. *)
Variable validate : Expenditure.t -> option string.

(** [Number(s)] on a string: [None] is [NaN]. *)
Variable stringToNumber : string -> option Z.

(** [addExpenditure], lines 18-50.  [today] is the [new Date()] of line 39,
    [newId] the identifier the database gives the new document and [admin]
    the [req.admin._id] of the authenticated request. *)
Definition addExpenditure (today : Date) (newId admin : string) (store : Store)
    (body : ExpenditureBody) : Response StoredExpenditure * Store :=
  if negb (truthyValue (eb_amount body)) || negb (truthyField (eb_description body)) then
    (Failure 400 "Please provide amount and description", store)
  else
    match toNumber stringToNumber (eb_amount body) with
    | None => (Failure 400 amountMessage, store)
    | Some n =>
        if n <=? 0 then (Failure 400 amountMessage, store)
        else
          let record :=
            {| Expenditure.amount := n;
               Expenditure.description := trim (fieldOr (eb_description body) "");
               Expenditure.category := fieldOr (eb_category body) "other";
               Expenditure.department := trimmedField (eb_department body);
               Expenditure.date := match eb_date body with Some d => d | None => today end;
               Expenditure.receiptNumber := trimmedField (eb_receiptNumber body);
               Expenditure.notes := trimmedField (eb_notes body) |} in
          match validate record with
          | Some message => (Failure 500 message, store)
          | None =>
              let expenditure := mkStored newId admin record in
              (Success 201 expenditure, (store ++ [expenditure])%list)
          end
    end.


(** [deleteExpenditure], lines 225-241: the response data are the
    identifier and the description of the deleted record. *)
Definition deleteExpenditure (store : Store) (id : string)
  : Response (string * string) * Store :=
  match findById store id with
  | None => (Failure 404 expenditureNotFound, store)
  | Some expenditure =>
      (Success 200 (exp_id expenditure, Expenditure.description (exp_record expenditure)),
       removeStored store id)
  end.

End Expenditures.

(** The records the financial summary reads from the store. *)
Definition recordsOf (store : Store) : list Expenditure.t := map exp_record store.


(** A schema that accepts every expenditure record. *)
Definition acceptAnyRecord (e : Expenditure.t) : option string := None.

Definition sampleBody : ExpenditureBody :=
  {| eb_amount := JNumber 120; eb_description := Text " Projector lamp ";
     eb_category := Absent; eb_department := Text "IT"; eb_date := None;
     eb_receiptNumber := Null; eb_notes := Absent |}.

Definition sampleStored : StoredExpenditure :=
  mkStored "e1" "admin1"
    {| Expenditure.amount := 40; Expenditure.description := "Chalk";
       Expenditure.category := "stationery"; Expenditure.department := None;
       Expenditure.date := mkDate 2024 2 1 0; Expenditure.receiptNumber := None;
       Expenditure.notes := None |}.

(** The identifier a row files its student under. *)
Definition rowPrn (row : Row) : string :=
  StudentData.prn (studentDataOf (resolveRow row)).

(** A later row for the student of [sampleRow], with another name. *)
Definition renamedRow : Row :=
  [("prn", "A1B2"); ("name", "Asha R. Rao")].

(** * Properties *)

(** ** String primitives *)

Lemma trimStart_first s c :
  firstChar (trimStart s) = Some c -> isWhiteSpace c = false.
Proof.
  induction s as [|a s IH]; simpl; [discriminate|].
  destruct (isWhiteSpace a) eqn:E; auto.
  simpl. intros [= <-]. exact E.
Qed.

Lemma trimEnd_first s c :
  firstChar (trimEnd s) = Some c -> firstChar s = Some c.
Proof.
  destruct s as [|a s]; simpl; auto.
  destruct (trimEnd s); [destruct (isWhiteSpace a)|]; simpl; auto; discriminate.
Qed.

Lemma trimEnd_last s c :
  lastChar (trimEnd s) = Some c -> isWhiteSpace c = false.
Proof.
  induction s as [|a s IH]; simpl; [discriminate|].
  destruct (trimEnd s) as [|b t] eqn:E.
  - destruct (isWhiteSpace a) eqn:W; simpl; [discriminate|].
    intros [= <-]. exact W.
  - intros H. apply IH. exact H.
Qed.

Lemma trim_isTrimmed s : isTrimmed (trim s).
Proof.
  split; intros c H.
  - apply (trimStart_first s). apply trimEnd_first. exact H.
  - apply (trimEnd_last (trimStart s)). exact H.
Qed.

Lemma upperChar_not_lower c : isLowerChar (upperChar c) = false.
Proof.
  unfold upperChar, isLowerChar.
  destruct ((97 <=? N_of_ascii c)%N && (N_of_ascii c <=? 122)%N) eqn:E; [|exact E].
  apply andb_true_iff in E. destruct E as [A B].
  apply N.leb_le in A, B.
  rewrite N_ascii_embedding by lia.
  apply andb_false_iff. left. apply N.leb_gt. lia.
Qed.

Lemma toUpperCase_no_lower s :
  allChars (fun c => negb (isLowerChar c)) (toUpperCase s) = true.
Proof.
  induction s as [|c s IH]; simpl; auto.
  now rewrite upperChar_not_lower, IH.
Qed.

Lemma truthy_orUndefined v : truthy (orUndefined v) = truthy v.
Proof. unfold orUndefined. destruct (truthy v) eqn:E; auto. Qed.

Lemma keep_orUndefined v old : keep (orUndefined v) old = keep v old.
Proof.
  unfold keep. rewrite truthy_orUndefined.
  unfold orUndefined. now destruct (truthy v).
Qed.

(** ** Field resolution *)




Lemma prefix_occurs sub s :
  String.prefix sub s = true <-> exists after, s = sub ++ after.
Proof.
  revert s. induction sub as [|a sub IH]; intros s.
  - split; [intros _; exists s; reflexivity|]. intros _. now destruct s.
  - destruct s as [|b s]; cbn [String.prefix].
    + split; [discriminate|]. intros [after E]. discriminate E.
    + destruct (ascii_dec a b) as [->|N].
      * rewrite IH. split; intros [after E]; exists after.
        -- cbn [String.append]. now rewrite E.
        -- cbn [String.append] in E. now injection E.
      * split; [discriminate|]. intros [after E]. cbn [String.append] in E.
        injection E as E _. congruence.
Qed.

Lemma includes_occursIn s sub : includes s sub = true <-> occursIn sub s.
Proof.
  unfold occursIn. induction s as [|c s IH].
  - cbn [includes]. rewrite orb_false_r, prefix_occurs. split.
    + intros [after E]. exists EmptyString, after. exact E.
    + intros (before & after & E). destruct before; [|discriminate E].
      exists after. exact E.
  - cbn [includes]. rewrite orb_true_iff, prefix_occurs, IH. split.
    + intros [[after E]|(before & after & E)].
      * exists EmptyString, after. exact E.
      * exists (String c before), after. cbn [String.append]. now rewrite E.
    + intros (before & after & E). destruct before as [|c' before].
      * left. exists after. exact E.
      * right. exists before, after. cbn [String.append] in E. now injection E.
Qed.

Lemma partialMatch_substringMatch alias k :
  partialMatch alias k = true <-> substringMatch alias k.
Proof.
  unfold partialMatch, substringMatch.
  now rewrite orb_true_iff, !includes_occursIn.
Qed.

Lemma partialMatch_no_match alias k :
  partialMatch alias k = false <-> ~ substringMatch alias k.
Proof.
  rewrite <- partialMatch_substringMatch.
  destruct (partialMatch alias k); split; congruence.
Qed.







(** ** A column no alias consults *)

Lemma rowGet_without before column v after key :
  String.eqb key column = false ->
  rowGet (before ++ (column, v) :: after)%list key = rowGet (before ++ after)%list key.
Proof.
  intros N. induction before as [|[k0 v0] before IH]; simpl.
  - rewrite String.eqb_sym, N. reflexivity.
  - now rewrite IH.
Qed.

Lemma find_without (p : string -> bool) before column v after :
  p column = false ->
  find p (Object_keys (before ++ (column, v) :: after)%list)
  = find p (Object_keys (before ++ after)%list).
Proof.
  intros N. induction before as [|[k0 v0] before IH]; simpl.
  - now rewrite N.
  - now rewrite IH.
Qed.

Lemma getValue_without before column v after keys :
  forallb (fun key => negb (consults key column)) keys = true ->
  getValue (before ++ (column, v) :: after)%list keys
  = getValue (before ++ after)%list keys.
Proof.
  induction keys as [|key keys IH]; simpl; auto.
  intros H. apply andb_true_iff in H. destruct H as [H Hs].
  apply negb_true_iff in H. unfold consults in H.
  apply orb_false_iff in H. destruct H as [E M].
  rewrite (rowGet_without _ _ _ _ _ E), (find_without _ _ _ _ _ M), (IH Hs).
  destruct (rowGet (before ++ after)%list key); auto.
  destruct (find (partialMatch key) (Object_keys (before ++ after)%list)) as [k|] eqn:F; auto.
  apply find_some in F. destruct F as [_ F].
  rewrite rowGet_without; auto.
  destruct (String.eqb_spec k column) as [->|]; congruence.
Qed.

Lemma resolveRow_without before column v after :
  forallb (fun key => negb (consults key column)) allKeys = true ->
  resolveRow (before ++ (column, v) :: after)%list
  = resolveRow (before ++ after)%list.
Proof.
  intros H. unfold allKeys in H.
  repeat (rewrite forallb_app in H; apply andb_true_iff in H;
          let A := fresh "A" in destruct H as [A H]).
  unfold resolveRow. now rewrite !getValue_without by assumption.
Qed.

Lemma processRow_same_reading validate b row row' :
  resolveRow row = resolveRow row' ->
  rowGet row "prn" = rowGet row' "prn" ->
  processRow validate b row = processRow validate b row'.
Proof.
  intros R P. unfold processRow, catchRow. now rewrite R, P.
Qed.

(** C10.  The department of an ingested student comes from the resolved
    division column and from nowhere else.  When the division resolves to a
    value that is not empty, the student data, a created student and an
    updated student all carry that value as department; when it resolves to
    nothing or to an empty cell, the student data and a created student have
    no department and an existing student keeps the one it had.  No alias
    lookup consults a column named "department": a row resolves, and is
    processed, exactly as the same row without that column. *)
Theorem department_from_division :
  (forall row v,
      getValue row ["division"] = Some v -> v <> EmptyString ->
      StudentData.department (studentDataOf (resolveRow row)) = Some v
      /\ StudentData.division (studentDataOf (resolveRow row)) = Some v
      /\ Student.department (newDocument (studentDataOf (resolveRow row))) = Some v
      /\ forall existing,
           Student.department (updateExisting existing (studentDataOf (resolveRow row)))
           = Some v)
  /\ (forall row,
        getValue row ["division"] = None \/ getValue row ["division"] = Some EmptyString ->
        StudentData.department (studentDataOf (resolveRow row)) = None
        /\ Student.department (newDocument (studentDataOf (resolveRow row))) = None
        /\ forall existing,
             Student.department (updateExisting existing (studentDataOf (resolveRow row)))
             = Student.department existing)
  /\ (forall key, In key allKeys -> consults key "department" = false)
  /\ (forall key, In key allKeys ->
        key <> "department"
        /\ ~ (exists before after, "department" = before ++ key ++ after)
        /\ ~ (exists before after, key = before ++ "department" ++ after))
  /\ (forall before v after,
        resolveRow (before ++ ("department", v) :: after)%list
        = resolveRow (before ++ after)%list)
  /\ (forall validate b before v after,
        processRow validate b (before ++ ("department", v) :: after)%list
        = processRow validate b (before ++ after)%list).
Proof.
  assert (K : forallb (fun key => negb (consults key "department")) allKeys = true)
    by reflexivity.
  assert (C : forall key, In key allKeys -> consults key "department" = false).
  { intros key I. rewrite forallb_forall in K.
    apply negb_true_iff. now apply K. }
  assert (U : forall existing row,
             Student.department (updateExisting existing (studentDataOf (resolveRow row)))
             = keep (getValue row ["division"]) (Student.department existing)).
  { intros existing row.
    transitivity (keep (StudentData.department (studentDataOf (resolveRow row)))
                       (Student.department existing)).
    - unfold updateExisting, assignIf, keep.
      repeat match goal with
             | |- context [truthy ?x] => destruct (truthy x)
             end; reflexivity.
    - apply keep_orUndefined. }
  split.
  { intros row v G N.
    assert (T : truthy (Some v) = true) by (destruct v; [congruence|reflexivity]).
    cbn [studentDataOf StudentData.department StudentData.division newDocument
           Student.department resolveRow r_division].
    change divisionKeys with ["division"]. rewrite G. unfold orUndefined. rewrite T.
    split; [reflexivity|]. split; [reflexivity|]. split; [reflexivity|].
    intros existing. rewrite U, G. unfold keep. now rewrite T. }
  split.
  { intros row G.
    assert (T : truthy (getValue row ["division"]) = false)
      by (destruct G as [-> | ->]; reflexivity).
    cbn [studentDataOf StudentData.department newDocument Student.department
           resolveRow r_division].
    change divisionKeys with ["division"]. unfold orUndefined. rewrite T.
    split; [reflexivity|]. split; [reflexivity|].
    intros existing. rewrite U. unfold keep. now rewrite T. }
  split; [exact C|].
  split.
  { intros key I. specialize (C key I). unfold consults in C.
    apply orb_false_iff in C. destruct C as [E M].
    apply String.eqb_neq in E. apply partialMatch_no_match in M.
    unfold substringMatch, occursIn in M. tauto. }
  split.
  { intros before v after. now apply resolveRow_without. }
  intros validate b before v after.
  apply processRow_same_reading.
  - now apply resolveRow_without.
  - now apply rowGet_without.
Qed.

Lemma department_from_division_witness :
  Student.department (newDocument (studentDataOf (resolveRow sampleRow))) = Some "B"
  /\ Student.department (newDocument (studentDataOf (resolveRow blankDivisionRow))) = None
  /\ Student.department
       (updateExisting sampleStudent (studentDataOf (resolveRow blankDivisionRow)))
     = Some "A"
  /\ Student.department
       (updateExisting (newDocument (studentDataOf (resolveRow sampleRow)))
                       (studentDataOf (resolveRow [("prn", "a1b2"); ("name", "Asha");
                                                   ("department", "IT")])))
     = Some "B"
  /\ consults "division" "department" = false.
Proof.
  destruct department_from_division as (P & A & C & _).
  split.
  { refine (proj1 (proj2 (proj2 (P sampleRow "B" eq_refl _)))). discriminate. }
  split.
  { exact (proj1 (proj2 (A blankDivisionRow (or_intror eq_refl)))). }
  split.
  { exact (proj2 (proj2 (A blankDivisionRow (or_intror eq_refl))) sampleStudent). }
  split.
  { exact (proj2 (proj2 (A [("prn", "a1b2"); ("name", "Asha"); ("department", "IT")]
                           (or_introl eq_refl)))
                 (newDocument (studentDataOf (resolveRow sampleRow)))). }
  apply C. unfold allKeys. simpl. tauto.
Defined.

(** ** The assignments of the update path *)

Ltac through_assignments :=
  unfold updateExisting, assignIf, keep;
  repeat match goal with
         | |- context [truthy ?v] => destruct (truthy v)
         end;
  reflexivity.

Lemma updateExisting_prn s d :
  Student.prn (updateExisting s d) = Student.prn s.
Proof. through_assignments. Qed.

Lemma updateExisting_name s d :
  Student.name (updateExisting s d) = StudentData.name d.
Proof. through_assignments. Qed.

Lemma updateExisting_fines s d :
  Student.fines (updateExisting s d) = Student.fines s.
Proof. through_assignments. Qed.

Lemma updateExisting_academicYear s d :
  Student.academicYear (updateExisting s d)
  = keep (StudentData.academicYear d) (Student.academicYear s).
Proof. through_assignments. Qed.

Lemma updateExisting_semester s d :
  Student.semester (updateExisting s d)
  = keep (StudentData.semester d) (Student.semester s).
Proof. through_assignments. Qed.

Lemma updateExisting_year s d :
  Student.year (updateExisting s d) = keep (StudentData.year d) (Student.year s).
Proof. through_assignments. Qed.

Lemma updateExisting_division s d :
  Student.division (updateExisting s d)
  = keep (StudentData.division d) (Student.division s).
Proof. through_assignments. Qed.

Lemma updateExisting_rollNo s d :
  Student.rollNo (updateExisting s d)
  = keep (StudentData.rollNo d) (Student.rollNo s).
Proof. through_assignments. Qed.

Lemma updateExisting_department s d :
  Student.department (updateExisting s d)
  = keep (StudentData.department d) (Student.department s).
Proof. through_assignments. Qed.

Lemma updateExisting_email s d :
  Student.email (updateExisting s d)
  = keep (StudentData.email d) (Student.email s).
Proof. through_assignments. Qed.

Lemma updateExisting_phone s d :
  Student.phone (updateExisting s d)
  = keep (StudentData.phone d) (Student.phone s).
Proof. through_assignments. Qed.

Create Rewrite HintDb assignments.
#[local] Hint Rewrite updateExisting_prn updateExisting_name updateExisting_fines
  updateExisting_academicYear updateExisting_semester updateExisting_year
  updateExisting_division updateExisting_rollNo updateExisting_department
  updateExisting_email updateExisting_phone : assignments.

(** Two documents with the same fields are the same document. *)
Lemma Student_ext (a b : Student.t) :
  Student.prn a = Student.prn b ->
  Student.name a = Student.name b ->
  Student.academicYear a = Student.academicYear b ->
  Student.semester a = Student.semester b ->
  Student.year a = Student.year b ->
  Student.division a = Student.division b ->
  Student.rollNo a = Student.rollNo b ->
  Student.department a = Student.department b ->
  Student.email a = Student.email b ->
  Student.phone a = Student.phone b ->
  Student.fines a = Student.fines b ->
  a = b.
Proof. destruct a, b; simpl; intros; subst; reflexivity. Qed.

(** ** The student collection *)

Lemma findOne_prn db p s : findOne db p = Some s -> Student.prn s = p.
Proof.
  intros H. apply find_some in H. destruct H as [_ H].
  now apply String.eqb_eq in H.
Qed.

Lemma findOne_In db p s : findOne db p = Some s -> In s db.
Proof. intros H. now apply find_some in H. Qed.

Lemma findOne_replaceDocument db p s doc q :
  findOne db p = Some s ->
  Student.prn doc = p ->
  findOne (replaceDocument db doc) q
  = if String.eqb p q then Some doc else findOne db q.
Proof.
  intros F <-. induction db as [|x rest IH]; simpl in *; [discriminate|].
  unfold hasPrn in *.
  destruct (String.eqb_spec (Student.prn x) (Student.prn doc)) as [E|N]; simpl.
  - unfold hasPrn. destruct (String.eqb_spec (Student.prn doc) q) as [->|Nq].
    + reflexivity.
    + rewrite E. destruct (String.eqb_spec (Student.prn doc) q); [contradiction|reflexivity].
  - unfold hasPrn. destruct (String.eqb_spec (Student.prn x) q) as [<-|Nq].
    + destruct (String.eqb_spec (Student.prn doc) (Student.prn x)); congruence.
    + now apply IH.
Qed.

Lemma findOne_app db x q :
  findOne (db ++ [x])%list q
  = match findOne db q with
    | Some s => Some s
    | None => if hasPrn q x then Some x else None
    end.
Proof.
  unfold findOne. induction db as [|y rest IH]; simpl.
  - reflexivity.
  - destruct (hasPrn q y); auto.
Qed.

Lemma findOne_None_existsb db p :
  findOne db p = None -> existsb (hasPrn p) db = false.
Proof.
  unfold findOne. induction db as [|x rest IH]; simpl; auto.
  destruct (hasPrn p x); [discriminate|auto].
Qed.

Lemma replaceDocument_prns db doc :
  map Student.prn (replaceDocument db doc) = map Student.prn db.
Proof.
  induction db as [|x rest IH]; simpl; auto.
  destruct (hasPrn (Student.prn doc) x) eqn:E; simpl.
  - unfold hasPrn in E. apply String.eqb_eq in E. now rewrite E.
  - now rewrite IH.
Qed.

(** ** Merging a row into an existing student *)

Lemma processRow_update validate b row existing :
  invalidRow row = false ->
  findOne (roster b) (StudentData.prn (studentDataOf (resolveRow row))) = Some existing ->
  roster (processRow validate b row)
  = match validate (updateExisting existing (studentDataOf (resolveRow row))) with
    | Some _ => roster b
    | None => replaceDocument (roster b)
                (updateExisting existing (studentDataOf (resolveRow row)))
    end.
Proof.
  intros V F. unfold processRow. unfold invalidRow in V. rewrite V, F.
  unfold save.
  destruct (validate (updateExisting existing (studentDataOf (resolveRow row))));
    reflexivity.
Qed.

(** C1.  Applying an upload row to the existing student with its identifier
    overwrites the name unconditionally, overwrites each optional field
    (academic year, semester, cohort year, division, roll number,
    department, email, phone) only when the row resolves a present value
    for it and otherwise leaves the field as it was, and leaves the ledger
    as it was.  In the collection the student then holds either these fields
    (the save went through) or its former ones (the save threw); its ledger
    is the same sequence in both cases, and no other student is touched. *)
Theorem update_overwrites_present_only validate b row existing :
  invalidRow row = false ->
  findOne (roster b) (valueOf (r_prn (resolveRow row))) = Some existing ->
  let r := resolveRow row in
  let updated := updateExisting existing (studentDataOf r) in
  let after := roster (processRow validate b row) in
  (Some (Student.name updated) = r_name r
   /\ Student.academicYear updated = keep (r_academicYear r) (Student.academicYear existing)
   /\ Student.semester updated = keep (r_semester r) (Student.semester existing)
   /\ Student.year updated = keep (r_year r) (Student.year existing)
   /\ Student.division updated = keep (r_division r) (Student.division existing)
   /\ Student.rollNo updated = keep (r_rollNo r) (Student.rollNo existing)
   /\ Student.department updated = keep (r_division r) (Student.department existing)
   /\ Student.email updated = keep (r_email r) (Student.email existing)
   /\ Student.phone updated = keep (r_phone r) (Student.phone existing))
  /\ Student.prn updated = Student.prn existing
  /\ Student.fines updated = Student.fines existing
  /\ findOne after (Student.prn existing)
     = Some (if isNone (validate updated) then updated else existing)
  /\ (exists stored, findOne after (Student.prn existing) = Some stored
                     /\ Student.fines stored = Student.fines existing)
  /\ (forall q, q <> Student.prn existing -> findOne after q = findOne (roster b) q).
Proof.
  intros V F r updated after.
  assert (P : Student.prn existing = valueOf (r_prn (resolveRow row)))
    by exact (findOne_prn _ _ _ F).
  assert (A : after = match validate updated with
                      | Some _ => roster b
                      | None => replaceDocument (roster b) updated
                      end) by exact (processRow_update validate b row existing V F).
  assert (S : findOne after (Student.prn existing)
              = Some (if isNone (validate updated) then updated else existing)).
  { rewrite A. destruct (validate updated); simpl.
    - now rewrite P.
    - rewrite (findOne_replaceDocument _ _ _ updated _ F).
      + rewrite P. now rewrite String.eqb_refl.
      + unfold updated. now rewrite updateExisting_prn. }
  split.
  { unfold updated. autorewrite with assignments. cbn [studentDataOf StudentData.name
      StudentData.academicYear StudentData.semester StudentData.year
      StudentData.division StudentData.rollNo StudentData.department
      StudentData.email StudentData.phone].
    rewrite !keep_orUndefined. repeat split.
    unfold invalidRow in V. apply orb_false_iff in V. destruct V as [_ V].
    fold r in V. destruct (r_name r); [reflexivity|discriminate]. }
  split; [apply updateExisting_prn|].
  split; [apply updateExisting_fines|].
  split; [exact S|].
  split.
  { eexists. split; [exact S|].
    destruct (isNone (validate updated)); [apply updateExisting_fines|reflexivity]. }
  intros q N. rewrite A. destruct (validate updated); [reflexivity|].
  rewrite (findOne_replaceDocument _ _ _ updated _ F).
  - rewrite <- P. destruct (String.eqb_spec (Student.prn existing) q); congruence.
  - unfold updated. now rewrite updateExisting_prn.
Qed.

Lemma update_overwrites_present_only_witness :
  findOne (roster (processRow acceptAll (startBatch sampleRoster) sampleRow)) "A1B2"
  = Some {| Student.prn := "A1B2"; Student.name := "Asha Rao";
            Student.academicYear := Some "2023-24"; Student.semester := None;
            Student.year := None; Student.division := Some "B";
            Student.rollNo := Some "17"; Student.department := Some "B";
            Student.email := Some "asha@example.org"; Student.phone := Some "5550100";
            Student.fines := [sampleFine] |}.
Proof.
  exact (proj1 (proj2 (proj2 (proj2
    (update_overwrites_present_only acceptAll (startBatch sampleRoster) sampleRow
       sampleStudent eq_refl eq_refl))))).
Defined.

(** ** Successive rows for one student *)

Lemma keep_keep v2 v1 old : keep v2 (keep v1 old) = keep (keep v2 v1) old.
Proof.
  unfold keep. destruct (truthy v2) eqn:E2; [now rewrite E2|reflexivity].
Qed.

Lemma keep_same v : keep v v = v.
Proof. unfold keep. now destruct (truthy v). Qed.

Lemma updateExisting_twice s d1 d2 :
  updateExisting (updateExisting s d1) d2 = updateExisting s (combineData d1 d2).
Proof.
  apply Student_ext; autorewrite with assignments; cbn [combineData
    StudentData.name StudentData.academicYear StudentData.semester
    StudentData.year StudentData.division StudentData.rollNo
    StudentData.department StudentData.email StudentData.phone];
  auto using keep_keep.
Qed.

Lemma updateExisting_new d1 d2 :
  updateExisting (newDocument d1) d2 = newDocument (combineData d1 d2).
Proof.
  apply Student_ext; autorewrite with assignments; reflexivity.
Qed.

Lemma combineData_same d : combineData d d = d.
Proof.
  destruct d. unfold combineData. cbn. now rewrite !keep_same.
Qed.

Lemma applyData_twice o d1 d2 :
  updateExisting (applyData o d1) d2 = applyData o (combineData d1 d2).
Proof.
  destruct o; simpl; [apply updateExisting_twice|apply updateExisting_new].
Qed.

Lemma reconcileOne_fold p rows o :
  fold_left (reconcileOne p) rows o
  = match combinedData p rows with
    | Some d => Some (applyData o d)
    | None => o
    end.
Proof.
  revert o. induction rows as [|row rows IH]; intros o;
    cbn [fold_left combinedData]; auto.
  rewrite IH. unfold reconcileOne.
  destruct (negb (invalidRow row)
            && String.eqb (StudentData.prn (studentDataOf (resolveRow row))) p);
    [|reflexivity].
  destruct (combinedData p rows) as [d'|]; [|reflexivity].
  rewrite <- applyData_twice. reflexivity.
Qed.

Lemma reconcileOne_fold_twice p rows o :
  fold_left (reconcileOne p) rows (fold_left (reconcileOne p) rows o)
  = fold_left (reconcileOne p) rows o.
Proof.
  rewrite !reconcileOne_fold.
  destruct (combinedData p rows) as [d|]; [|reflexivity].
  cbn [applyData]. now rewrite applyData_twice, combineData_same.
Qed.

(** ** Reconciliation, one identifier at a time *)

Lemma findOne_reconcile db row p :
  findOne (reconcile db row) p = reconcileOne p (findOne db p) row.
Proof.
  unfold reconcile, reconcileOne.
  set (d := studentDataOf (resolveRow row)).
  destruct (invalidRow row); cbn [negb andb]; [reflexivity|].
  destruct (findOne db (StudentData.prn d)) as [s|] eqn:F.
  - rewrite (findOne_replaceDocument _ _ _ (updateExisting s d) p F)
      by (rewrite updateExisting_prn; exact (findOne_prn _ _ _ F)).
    destruct (String.eqb_spec (StudentData.prn d) p) as [<-|]; [|reflexivity].
    now rewrite F.
  - rewrite findOne_app. unfold hasPrn. cbn [newDocument Student.prn].
    destruct (String.eqb_spec (StudentData.prn d) p) as [<-|].
    + now rewrite F.
    + now destruct (findOne db p).
Qed.

Lemma findOne_reconcile_fold rows db p :
  findOne (fold_left reconcile rows db) p
  = fold_left (reconcileOne p) rows (findOne db p).
Proof.
  revert db. induction rows as [|row rows IH]; intros db; simpl; auto.
  now rewrite IH, findOne_reconcile.
Qed.

Lemma findOne_known db p :
  In p (map Student.prn db) <-> exists s, findOne db p = Some s.
Proof.
  split.
  - intros I. apply in_map_iff in I. destruct I as (x & E & I).
    destruct (findOne db p) as [s|] eqn:F; [eauto|].
    exfalso. pose proof (find_none _ _ F x I) as N.
    unfold hasPrn in N. rewrite E, String.eqb_refl in N. discriminate.
  - intros [s F]. apply in_map_iff. exists s. split.
    + exact (findOne_prn _ _ _ F).
    + exact (findOne_In _ _ _ F).
Qed.

Lemma reconcile_keeps_known db row p :
  In p (map Student.prn db) -> In p (map Student.prn (reconcile db row)).
Proof.
  rewrite !findOne_known. intros [s F]. rewrite findOne_reconcile, F.
  unfold reconcileOne. destruct (_ && _); eauto.
Qed.

Lemma reconcile_makes_known db row :
  invalidRow row = false ->
  In (StudentData.prn (studentDataOf (resolveRow row)))
     (map Student.prn (reconcile db row)).
Proof.
  intros V. rewrite findOne_known, findOne_reconcile.
  unfold reconcileOne. rewrite V, String.eqb_refl. cbn [negb andb]. eauto.
Qed.

Lemma reconcile_fold_keeps_known rows db p :
  In p (map Student.prn db) -> In p (map Student.prn (fold_left reconcile rows db)).
Proof.
  revert db. induction rows as [|row rows IH]; intros db I; simpl; auto.
  apply IH. now apply reconcile_keeps_known.
Qed.

Lemma reconcile_fold_makes_known rows db row :
  In row rows -> invalidRow row = false ->
  In (StudentData.prn (studentDataOf (resolveRow row)))
     (map Student.prn (fold_left reconcile rows db)).
Proof.
  revert db. induction rows as [|r rows IH]; intros db [].
  - subst r. intros V. simpl. apply reconcile_fold_keeps_known.
    now apply reconcile_makes_known.
  - intros V. simpl. now apply IH.
Qed.

(** ** A batch whose rows persist without exception *)

Lemma processRow_clean validate b row :
  invalidRow row || isNone (validate (writtenDocument (roster b) row)) = true ->
  roster (processRow validate b row) = reconcile (roster b) row
  /\ errorCount (processRow validate b row)
     = (errorCount b + if invalidRow row then 1 else 0)%nat
  /\ length (errors (processRow validate b row))
     = (length (errors b) + if invalidRow row then 1 else 0)%nat
  /\ (successCount (processRow validate b row) + updateCount (processRow validate b row)
      = successCount b + updateCount b + if invalidRow row then 0 else 1)%nat
  /\ ((invalidRow row = false ->
       In (StudentData.prn (studentDataOf (resolveRow row))) (map Student.prn (roster b))) ->
      successCount (processRow validate b row) = successCount b).
Proof.
  unfold processRow, reconcile, writtenDocument, invalidRow.
  set (d := studentDataOf (resolveRow row)).
  destruct (negb (truthy (r_prn (resolveRow row))) || negb (truthy (r_name (resolveRow row))));
    cbn [orb].
  - intros _. unfold skipRow. cbn [roster errorCount errors successCount updateCount].
    rewrite length_app. cbn [length]. repeat split; auto; lia.
  - destruct (findOne (roster b) (StudentData.prn d)) as [s|] eqn:F.
    + unfold save. destruct (validate (updateExisting s d)); [discriminate|].
      intros _. cbn [roster errorCount errors successCount updateCount].
      repeat split; auto; lia.
    + unfold create. destruct (validate (newDocument d)); [discriminate|].
      intros _. cbn [newDocument Student.prn].
      rewrite (findOne_None_existsb _ _ F).
      cbn [roster errorCount errors successCount updateCount].
      repeat split; auto; try lia.
      intros K. specialize (K eq_refl). apply findOne_known in K.
      destruct K as [s K]. congruence.
Qed.

Lemma processRows_clean validate rows b :
  persistsCleanly validate (roster b) rows = true ->
  roster (fold_left (processRow validate) rows b) = fold_left reconcile rows (roster b)
  /\ errorCount (fold_left (processRow validate) rows b)
     = (errorCount b + length (filter invalidRow rows))%nat
  /\ length (errors (fold_left (processRow validate) rows b))
     = (length (errors b) + length (filter invalidRow rows))%nat
  /\ (successCount (fold_left (processRow validate) rows b)
      + updateCount (fold_left (processRow validate) rows b)
      + length (filter invalidRow rows)
      = successCount b + updateCount b + length rows)%nat
  /\ ((forall row, In row rows -> invalidRow row = false ->
         In (StudentData.prn (studentDataOf (resolveRow row))) (map Student.prn (roster b))) ->
      successCount (fold_left (processRow validate) rows b) = successCount b).
Proof.
  revert b. induction rows as [|row rows IH]; intros b C.
  - cbn. repeat split; auto; lia.
  - cbn [persistsCleanly] in C. apply andb_true_iff in C. destruct C as [C Cs].
    destruct (processRow_clean validate b row C) as (R & E & L & S & N).
    cbn [fold_left filter].
    rewrite <- R in Cs. destruct (IH _ Cs) as (R' & E' & L' & S' & N').
    rewrite R', E', L', R, E, L.
    split; [reflexivity|].
    destruct (invalidRow row) eqn:V; cbn [length].
    + split; [lia|]. split; [lia|]. split; [lia|].
      intros K. rewrite N'.
      * apply N. intros; discriminate.
      * intros r I Vr. rewrite R. apply reconcile_keeps_known. apply K; auto. now right.
    + split; [lia|]. split; [lia|]. split; [lia|].
      intros K. rewrite N'.
      * apply N. intros _. apply K; auto. now left.
      * intros r I Vr. rewrite R. apply reconcile_keeps_known. apply K; auto. now right.
Qed.

Lemma filter_length_le {A : Type} (f : A -> bool) (l : list A) :
  (length (filter f l) <= length l)%nat.
Proof.
  induction l as [|x l IH]; simpl; auto. destruct (f x); simpl; lia.
Qed.

Lemma persistsCleanly_app validate pre post db :
  persistsCleanly validate db (pre ++ post)%list
  = persistsCleanly validate db pre
    && persistsCleanly validate (fold_left reconcile pre db) post.
Proof.
  revert db. induction pre as [|row pre IH]; intros db; cbn [app persistsCleanly fold_left].
  - reflexivity.
  - now rewrite IH, andb_assoc.
Qed.

Lemma truthy_missing v : truthy v = false <-> missing v.
Proof.
  unfold missing. destruct v as [[|c s]|]; cbn [truthy]; split; auto;
    try discriminate; intros [H|H]; discriminate H.
Qed.

Lemma invalidRow_missing row :
  invalidRow row = true
  <-> missing (getValue row prnKeys) \/ missing (getValue row nameKeys).
Proof.
  unfold invalidRow, resolveRow. cbn [r_prn r_name].
  rewrite orb_true_iff, !negb_true_iff, !truthy_missing.
  assert (P : missing (option_map toUpperCase (getValue row prnKeys))
              <-> missing (getValue row prnKeys)).
  { unfold missing. destruct (getValue row prnKeys) as [[|c s]|]; cbn;
      split; auto; intros [H|H]; discriminate H. }
  now rewrite P.
Qed.

Lemma valid_row_resolves row :
  invalidRow row = false ->
  Some (StudentData.prn (studentDataOf (resolveRow row)))
  = option_map toUpperCase (getValue row prnKeys)
  /\ Some (StudentData.name (studentDataOf (resolveRow row))) = getValue row nameKeys.
Proof.
  unfold invalidRow, resolveRow. cbn [r_prn r_name studentDataOf StudentData.prn
                                      StudentData.name].
  intros V. apply orb_false_iff in V. destruct V as [A B].
  apply negb_false_iff in A, B.
  destruct (option_map toUpperCase (getValue row prnKeys)); [|discriminate A].
  destruct (getValue row nameKeys); [|discriminate B].
  split; reflexivity.
Qed.

Lemma writtenDocument_fullyApplied db row :
  invalidRow row = false ->
  fullyApplied row (findOne db (StudentData.prn (studentDataOf (resolveRow row))))
               (writtenDocument db row).
Proof.
  intros V. destruct (valid_row_resolves row V) as [P N].
  unfold fullyApplied, writtenDocument. cbv zeta.
  destruct (findOne db (StudentData.prn (studentDataOf (resolveRow row))))
    as [existing|] eqn:F.
  - autorewrite with assignments. rewrite (findOne_prn _ _ _ F).
    cbn [heldBefore studentDataOf StudentData.academicYear StudentData.semester
           StudentData.year StudentData.division StudentData.rollNo
           StudentData.department StudentData.email StudentData.phone
           resolveRow r_academicYear r_semester r_year r_division r_rollNo
           r_phone r_email].
    rewrite !keep_orUndefined. repeat split; assumption.
  - cbn [newDocument Student.prn Student.name Student.academicYear Student.semester
           Student.year Student.division Student.rollNo Student.department
           Student.email Student.phone Student.fines heldBefore].
    repeat split; assumption.
Qed.

Lemma reconcileOne_other p o row :
  (invalidRow row = false -> StudentData.prn (studentDataOf (resolveRow row)) <> p) ->
  reconcileOne p o row = o.
Proof.
  intros H. unfold reconcileOne. destruct (invalidRow row); [reflexivity|].
  specialize (H eq_refl). cbn [negb andb].
  destruct (String.eqb_spec (StudentData.prn (studentDataOf (resolveRow row))) p);
    [contradiction|reflexivity].
Qed.

Lemma reconcileOne_fold_other p rows o :
  (forall r, In r rows -> invalidRow r = false ->
        StudentData.prn (studentDataOf (resolveRow r)) <> p) ->
  fold_left (reconcileOne p) rows o = o.
Proof.
  revert o. induction rows as [|row rows IH]; intros o H; [reflexivity|].
  cbn [fold_left]. rewrite reconcileOne_other by (apply H; now left).
  apply IH. intros r I. apply H. now right.
Qed.

Lemma reconcileOne_fold_fines p rows s :
  exists final,
    fold_left (reconcileOne p) rows (Some s) = Some final
    /\ Student.fines final = Student.fines s.
Proof.
  rewrite reconcileOne_fold. destruct (combinedData p rows) as [d|].
  - eexists. split; [reflexivity|]. cbn [applyData]. apply updateExisting_fines.
  - eexists. split; reflexivity.
Qed.

(** C4.  A batch of N parsed rows, K of which fail to resolve an identifier
    or a name while the others persist without exception, is processed to
    the end: the result reports N records, K errors (with K error details)
    and N - K created or updated students.  A row without an identifier or a
    name changes nothing.  Every other row is fully applied when its turn
    comes: the student filed under its upper-cased identifier then carries
    the row's name, each optional field the row gives (department from the
    division) and otherwise what the student held before, and the ledger it
    had, nothing else in the collection being touched; at the end of the
    batch that student is still there with the same ledger, and is exactly
    what the row left unless a later row is filed under the same
    identifier.  The collection is the one obtained by reconciling every
    row in order. *)
Theorem partial_batch_tolerance validate db rows :
  persistsCleanly validate db rows = true ->
  let N := length rows in
  let K := length (filter invalidRow rows) in
  let result := fst (uploadStudentsCSV validate db rows) in
  let after := snd (uploadStudentsCSV validate db rows) in
  totalRecords result = N
  /\ errorsTotal result = K
  /\ (newStudents result + updatedStudents result = N - K)%nat
  /\ (exists details,
         length details = K
         /\ errorDetails result = match details with [] => None | _ => Some details end)
  /\ (forall row,
         invalidRow row = true
         <-> missing (getValue row prnKeys) \/ missing (getValue row nameKeys))
  /\ (forall pre row post,
         rows = (pre ++ row :: post)%list -> invalidRow row = true ->
         snd (uploadStudentsCSV validate db (pre ++ [row])%list)
         = snd (uploadStudentsCSV validate db pre))
  /\ (forall pre row post,
         rows = (pre ++ row :: post)%list -> invalidRow row = false ->
         let reached := snd (uploadStudentsCSV validate db pre) in
         let next := snd (uploadStudentsCSV validate db (pre ++ [row])%list) in
         exists s,
           findOne next (Student.prn s) = Some s
           /\ fullyApplied row (findOne reached (Student.prn s)) s
           /\ (forall q, q <> Student.prn s -> findOne next q = findOne reached q)
           /\ (exists final,
                 findOne after (Student.prn s) = Some final
                 /\ Student.fines final = Student.fines s)
           /\ ((forall r, In r post -> invalidRow r = false ->
                   option_map toUpperCase (getValue r prnKeys) <> Some (Student.prn s)) ->
               findOne after (Student.prn s) = Some s))
  /\ after = fold_left reconcile rows db
  /\ (forall p,
         findOne after p
         = match combinedData p rows with
           | Some d => Some (applyData (findOne db p) d)
           | None => findOne db p
           end).
Proof.
  intros C N K result after.
  destruct (processRows_clean validate rows (startBatch db) C) as (R & E & L & S & _).
  cbn [startBatch roster errorCount errors successCount updateCount length] in R, E, L, S.
  assert (A : after = fold_left reconcile rows db) by exact R.
  assert (Step : forall pre row post,
             rows = (pre ++ row :: post)%list ->
             snd (uploadStudentsCSV validate db pre) = fold_left reconcile pre db
             /\ snd (uploadStudentsCSV validate db (pre ++ [row])%list)
                = reconcile (fold_left reconcile pre db) row
             /\ after = fold_left reconcile post (reconcile (fold_left reconcile pre db) row)).
  { intros pre row post Hr.
    assert (C' : persistsCleanly validate db ((pre ++ [row]) ++ post)%list = true).
    { rewrite <- app_assoc. cbn [app]. now rewrite <- Hr. }
    rewrite persistsCleanly_app in C'. apply andb_true_iff in C'. destruct C' as [C1 _].
    pose proof C1 as C0. rewrite persistsCleanly_app in C0.
    apply andb_true_iff in C0. destruct C0 as [C0 _].
    destruct (processRows_clean validate pre (startBatch db) C0) as (R0 & _).
    destruct (processRows_clean validate (pre ++ [row])%list (startBatch db) C1)
      as (R1 & _).
    cbn [startBatch roster] in R0, R1.
    split; [exact R0|]. split.
    - etransitivity; [exact R1|]. now rewrite fold_left_app.
    - rewrite A, Hr, fold_left_app. reflexivity. }
  split; [reflexivity|].
  split; [exact E|].
  split.
  { unfold result, uploadStudentsCSV, processRows. cbn [fst newStudents updatedStudents].
    pose proof (filter_length_le invalidRow rows). unfold N, K. lia. }
  split.
  { exists (errors (processRows validate db rows)). split; [exact L|].
    unfold result, uploadStudentsCSV. cbn [fst errorDetails].
    now destruct (errors (processRows validate db rows)). }
  split; [exact invalidRow_missing|].
  split.
  { intros pre row post Hr V. destruct (Step pre row post Hr) as (R0 & R1 & _).
    rewrite R0, R1. unfold reconcile. now rewrite V. }
  split.
  { intros pre row post Hr V reached next.
    destruct (Step pre row post Hr) as (R0 & R1 & R2).
    fold reached in R0. fold next in R1.
    set (mid := fold_left reconcile pre db) in *.
    set (p := StudentData.prn (studentDataOf (resolveRow row))).
    assert (F : findOne next p = Some (writtenDocument mid row)).
    { rewrite R1, findOne_reconcile. unfold reconcileOne. rewrite V. fold p.
      rewrite String.eqb_refl. cbn [negb andb].
      unfold writtenDocument. cbv zeta. fold p. now destruct (findOne mid p). }
    assert (P : Student.prn (writtenDocument mid row) = p)
      by exact (findOne_prn _ _ _ F).
    exists (writtenDocument mid row). rewrite P.
    split; [exact F|].
    split; [rewrite R0; now apply writtenDocument_fullyApplied|].
    split.
    { intros q Nq. rewrite R1, R0, findOne_reconcile. apply reconcileOne_other.
      intros _. fold p. congruence. }
    assert (Fin : findOne after p
                  = fold_left (reconcileOne p) post (Some (writtenDocument mid row))).
    { rewrite R2, findOne_reconcile_fold. f_equal. rewrite <- R1. exact F. }
    split.
    { rewrite Fin. apply reconcileOne_fold_fines. }
    intros Later. rewrite Fin. apply reconcileOne_fold_other.
    intros r I Vr E'. apply (Later r I Vr).
    rewrite <- (proj1 (valid_row_resolves r Vr)). now rewrite E'. }
  split; [exact A|].
  intros p. now rewrite A, findOne_reconcile_fold, reconcileOne_fold.
Qed.

Lemma partial_batch_tolerance_witness :
  fst (uploadStudentsCSV acceptAll sampleRoster sampleBatch)
  = {| totalRecords := 3; newStudents := 1; updatedStudents := 1; errorsTotal := 1;
       errorDetails := Some [mkError "E5F6" missingFields] |}
  /\ (newStudents (fst (uploadStudentsCSV acceptAll sampleRoster sampleBatch))
      + updatedStudents (fst (uploadStudentsCSV acceptAll sampleRoster sampleBatch))
      = 3 - 1)%nat
  /\ (exists s,
        findOne (snd (uploadStudentsCSV acceptAll sampleRoster sampleBatch)) "A1B2" = Some s
        /\ Student.name s = "Asha Rao"
        /\ Student.division s = Some "B"
        /\ Student.department s = Some "B"
        /\ Student.rollNo s = Some "17"
        /\ Student.email s = Some "asha@example.org"
        /\ Student.fines s = [sampleFine]).
Proof.
  pose proof (partial_batch_tolerance acceptAll sampleRoster sampleBatch eq_refl)
    as (_ & _ & S & _ & _ & _ & Applied & _).
  split; [reflexivity|]. split; [exact S|].
  destruct (Applied [newRow] sampleRow [noNameRow] eq_refl eq_refl)
    as (s & F & (P & Nm & _ & _ & _ & Dv & Rn & Dp & Em & _ & Fi) & _ & _ & Last).
  assert (E : Student.prn s = "A1B2") by (vm_compute in P; now injection P).
  rewrite E in *.
  exists s. split.
  { apply Last. intros r [<-|[]] V. vm_compute in V. discriminate V. }
  vm_compute in F. injection F as <-.
  repeat split.
Defined.

(** ** Running a batch twice *)

(** A collection is determined by the order of its identifiers, by what
    each identifier finds, and by the documents no lookup reaches. *)
Lemma roster_ext_from seen (l1 l2 : Collection) :
  map Student.prn l1 = map Student.prn l2 ->
  (forall p, ~ In p seen -> findOne l1 p = findOne l2 p) ->
  shadowed seen l1 = shadowed seen l2 ->
  l1 = l2.
Proof.
  revert seen l2. induction l1 as [|x1 t1 IH]; intros seen [|x2 t2] M F S;
    try discriminate; auto.
  cbn [map] in M. injection M as P M.
  cbn [shadowed] in S. rewrite <- P in S. injection S as H S.
  assert (x1 = x2).
  { destruct (existsb (String.eqb (Student.prn x1)) seen) eqn:E; [congruence|].
    assert (N : ~ In (Student.prn x1) seen).
    { intros I. assert (existsb (String.eqb (Student.prn x1)) seen = true); [|congruence].
      apply existsb_exists. exists (Student.prn x1). split; auto. apply String.eqb_refl. }
    specialize (F _ N). unfold findOne in F. cbn [find] in F.
    unfold hasPrn in F. rewrite <- P, String.eqb_refl in F. congruence. }
  subst x2. f_equal. apply (IH (Student.prn x1 :: seen)); auto.
  intros p N. assert (Np : Student.prn x1 <> p) by (intros E; apply N; now left).
  assert (Ns : ~ In p seen) by (intros I; apply N; now right).
  specialize (F p Ns). unfold findOne in F. cbn [find] in F.
  unfold hasPrn in F. apply String.eqb_neq in Np. now rewrite Np in F.
Qed.

Lemma shadowed_replaceDocument seen db doc :
  existsb (String.eqb (Student.prn doc)) seen = false ->
  shadowed seen (replaceDocument db doc) = shadowed seen db.
Proof.
  revert seen. induction db as [|x rest IH]; intros seen N; cbn [replaceDocument shadowed]; auto.
  unfold hasPrn. destruct (String.eqb_spec (Student.prn x) (Student.prn doc)) as [E|D];
    cbn [shadowed].
  - rewrite E, N. reflexivity.
  - f_equal. apply IH. cbn [existsb]. rewrite N.
    apply String.eqb_neq in D. rewrite String.eqb_sym in D. now rewrite D.
Qed.

Lemma reconcile_shadowed_known db row :
  (invalidRow row = false ->
   In (StudentData.prn (studentDataOf (resolveRow row))) (map Student.prn db)) ->
  shadowed [] (reconcile db row) = shadowed [] db.
Proof.
  unfold reconcile. destruct (invalidRow row); [reflexivity|].
  intros K. specialize (K eq_refl). apply findOne_known in K. destruct K as [s K].
  rewrite K. now apply shadowed_replaceDocument.
Qed.

Lemma reconcile_prns_known db row :
  (invalidRow row = false ->
   In (StudentData.prn (studentDataOf (resolveRow row))) (map Student.prn db)) ->
  map Student.prn (reconcile db row) = map Student.prn db.
Proof.
  unfold reconcile. destruct (invalidRow row); [reflexivity|].
  intros K. specialize (K eq_refl). apply findOne_known in K. destruct K as [s K].
  rewrite K. apply replaceDocument_prns.
Qed.

Lemma reconcile_fold_prns_known rows db :
  (forall row, In row rows -> invalidRow row = false ->
     In (StudentData.prn (studentDataOf (resolveRow row))) (map Student.prn db)) ->
  map Student.prn (fold_left reconcile rows db) = map Student.prn db.
Proof.
  revert db. induction rows as [|row rows IH]; intros db K; cbn [fold_left]; auto.
  assert (E : map Student.prn (reconcile db row) = map Student.prn db).
  { apply reconcile_prns_known. intros V. apply K; auto. now left. }
  rewrite IH; auto.
  intros r I V. rewrite E. apply K; auto. now right.
Qed.

Lemma reconcile_fold_shadowed_known rows db :
  (forall row, In row rows -> invalidRow row = false ->
     In (StudentData.prn (studentDataOf (resolveRow row))) (map Student.prn db)) ->
  shadowed [] (fold_left reconcile rows db) = shadowed [] db.
Proof.
  revert db. induction rows as [|row rows IH]; intros db K; cbn [fold_left]; auto.
  rewrite IH.
  - apply reconcile_shadowed_known. intros V. apply K; auto. now left.
  - intros r I V. apply reconcile_keeps_known. apply K; auto. now right.
Qed.

Lemma reconcile_fold_twice rows db :
  fold_left reconcile rows (fold_left reconcile rows db) = fold_left reconcile rows db.
Proof.
  assert (K : forall row, In row rows -> invalidRow row = false ->
            In (StudentData.prn (studentDataOf (resolveRow row)))
               (map Student.prn (fold_left reconcile rows db))).
  { intros row I V. now apply reconcile_fold_makes_known. }
  apply (roster_ext_from []).
  - now apply reconcile_fold_prns_known.
  - intros p _. now rewrite !findOne_reconcile_fold, reconcileOne_fold_twice.
  - now apply reconcile_fold_shadowed_known.
Qed.

(** C9, as stated, fails, in two ways.  With a schema that requires a
    department, the first row of [splitBatch] is refused on creation and
    accepted as an update once the second row has created the student: the
    second run leaves an email the first run did not.  And a row without a
    name is rejected in the second run as in the first: it never takes the
    update path. *)
Lemma rerun_changes_roster :
  ~ rerunsAsUpdates requireDepartment [] splitBatch
  /\ ~ rerunsAsUpdates acceptAll [] [noNameRow].
Proof.
  unfold rerunsAsUpdates. split.
  - intros (H & _). vm_compute in H. discriminate.
  - intros (_ & _ & H). vm_compute in H. discriminate.
Qed.

(** C9, amended.  When no row meets a persistence exception in either run,
    re-running the unchanged batch leaves the collection of the first run:
    the second run creates no student, takes the update path for every row
    that has an identifier and a name, and rejects the other rows again. *)
Theorem rerun_is_idempotent validate db rows :
  persistsCleanly validate db rows = true ->
  persistsCleanly validate (snd (uploadStudentsCSV validate db rows)) rows = true ->
  let first := uploadStudentsCSV validate db rows in
  let second := uploadStudentsCSV validate (snd first) rows in
  snd second = snd first
  /\ newStudents (fst second) = 0%nat
  /\ updatedStudents (fst second) = (length rows - length (filter invalidRow rows))%nat
  /\ errorsTotal (fst second) = length (filter invalidRow rows).
Proof.
  intros C1 C2. cbv zeta.
  destruct (processRows_clean validate rows (startBatch db) C1) as (R1 & _).
  change (snd (uploadStudentsCSV validate db rows))
    with (roster (fold_left (processRow validate) rows (startBatch db))) in *.
  cbn [startBatch roster] in R1. rewrite R1 in *. clear R1.
  set (db1 := fold_left reconcile rows db) in *.
  destruct (processRows_clean validate rows (startBatch db1) C2) as (R & E & _ & S & N).
  cbn [startBatch roster errorCount errors successCount updateCount length] in R, E, S, N.
  unfold uploadStudentsCSV, processRows.
  cbn [fst snd newStudents updatedStudents errorsTotal].
  assert (Z : successCount (fold_left (processRow validate) rows (startBatch db1)) = 0%nat).
  { apply N. intros row I V. now apply reconcile_fold_makes_known. }
  split.
  { rewrite R. apply reconcile_fold_twice. }
  split; [exact Z|].
  pose proof (filter_length_le invalidRow rows).
  split; [lia|exact E].
Qed.

Lemma rerun_is_idempotent_witness :
  snd (uploadStudentsCSV acceptAll
         (snd (uploadStudentsCSV acceptAll sampleRoster sampleBatch)) sampleBatch)
  = snd (uploadStudentsCSV acceptAll sampleRoster sampleBatch)
  /\ newStudents (fst (uploadStudentsCSV acceptAll
         (snd (uploadStudentsCSV acceptAll sampleRoster sampleBatch)) sampleBatch))
     = 0%nat.
Proof.
  pose proof (rerun_is_idempotent acceptAll sampleRoster sampleBatch eq_refl eq_refl)
    as (A & B & _).
  split; [exact A|exact B].
Defined.

(** ** Number and date formatting *)

Lemma string_app_assoc (a b c : string) : (a ++ b) ++ c = a ++ (b ++ c).
Proof. induction a as [|x a IH]; simpl; congruence. Qed.

Lemma string_app_length (a b : string) :
  String.length (a ++ b) = (String.length a + String.length b)%nat.
Proof. induction a as [|x a IH]; simpl; congruence. Qed.

Lemma substring_0_app (a b : string) :
  substring 0 (String.length a) (a ++ b) = a.
Proof.
  induction a as [|x a IH]; simpl.
  - now destruct b.
  - now rewrite IH.
Qed.

Lemma allChars_app p (a b : string) :
  allChars p (a ++ b) = allChars p a && allChars p b.
Proof. induction a as [|x a IH]; simpl; auto. now rewrite IH, andb_assoc. Qed.

Lemma removeChar_app c (a b : string) :
  removeChar c (a ++ b) = removeChar c a ++ removeChar c b.
Proof.
  induction a as [|x a IH]; simpl; auto.
  destruct (Ascii.eqb x c); simpl; congruence.
Qed.

Lemma removeChar_digits (s : string) :
  allChars isDigit s = true -> removeChar "-" s = s.
Proof.
  induction s as [|x s IH]; simpl; auto.
  intros H. apply andb_true_iff in H. destruct H as [D Ds].
  destruct (Ascii.eqb_spec x "-"%char) as [->|_].
  - discriminate.
  - now rewrite IH.
Qed.

Lemma digitChar_isDigit d : 0 <= d < 10 -> isDigit (digitChar d) = true.
Proof.
  intros H. unfold isDigit, digitChar.
  rewrite N_ascii_embedding by lia.
  apply andb_true_iff. split; apply N.leb_le; lia.
Qed.

Lemma digitsOf_digits fuel n acc :
  allChars isDigit acc = true -> allChars isDigit (digitsOf fuel n acc) = true.
Proof.
  revert n acc. induction fuel as [|fuel IH]; intros n acc H; simpl; auto.
  assert (D : allChars isDigit (String (digitChar (n mod 10)) acc) = true).
  { simpl. rewrite H, digitChar_isDigit; auto. apply Z.mod_pos_bound. lia. }
  destruct (n <? 10); auto.
Qed.

Lemma digitsOf_length_acc fuel n acc :
  (String.length acc <= String.length (digitsOf fuel n acc))%nat.
Proof.
  revert n acc. induction fuel as [|fuel IH]; intros n acc; simpl; auto.
  destruct (n <? 10); simpl; [lia|].
  specialize (IH (n / 10) (String (digitChar (n mod 10)) acc)). simpl in IH. lia.
Qed.

Lemma digitsOf_length_le w fuel n acc :
  0 <= n < 10 ^ Z.of_nat (S w) ->
  (String.length (digitsOf fuel n acc) <= S w + String.length acc)%nat.
Proof.
  revert fuel n acc. induction w as [|w IH]; intros [|fuel] n acc H; simpl; try lia.
  - destruct (Z.ltb_spec n 10); simpl; [lia|]. change (10 ^ Z.of_nat 1) with 10 in H. lia.
  - destruct (Z.ltb_spec n 10); simpl; [lia|].
    specialize (IH fuel (n / 10) (String (digitChar (n mod 10)) acc)).
    simpl in IH. rewrite <- Nat.add_succ_r. apply IH.
    rewrite Nat2Z.inj_succ, Z.pow_succ_r in H by lia.
    split; [apply Z.div_pos; lia|apply Z.div_lt_upper_bound; lia].
Qed.

Lemma digitsOf_length_ge w fuel n acc :
  10 ^ Z.of_nat w <= n -> (w < fuel)%nat ->
  (S w + String.length acc <= String.length (digitsOf fuel n acc))%nat.
Proof.
  revert fuel n acc. induction w as [|w IH]; intros [|fuel] n acc H F; try lia; simpl.
  - destruct (n <? 10); simpl; [lia|].
    pose proof (digitsOf_length_acc fuel (n / 10) (String (digitChar (n mod 10)) acc)) as L.
    simpl in L. lia.
  - rewrite Nat2Z.inj_succ, Z.pow_succ_r in H by lia.
    assert (0 < 10 ^ Z.of_nat w) by (apply Z.pow_pos_nonneg; lia).
    destruct (Z.ltb_spec n 10); [lia|].
    specialize (IH fuel (n / 10) (String (digitChar (n mod 10)) acc)).
    simpl in IH. rewrite <- Nat.add_succ_r. apply IH; [|lia].
    apply Z.div_le_lower_bound; lia.
Qed.

Lemma repeatChar_length c n : String.length (repeatChar c n) = n.
Proof. induction n; simpl; congruence. Qed.

Lemma repeatChar_all p c n : p c = true -> allChars p (repeatChar c n) = true.
Proof. intros H. induction n; simpl; auto. now rewrite H. Qed.

Lemma numberToString_digits n : 0 <= n -> allChars isDigit (numberToString n) = true.
Proof.
  intros H. unfold numberToString.
  destruct (Z.ltb_spec n 0); [lia|]. now apply digitsOf_digits.
Qed.

Lemma pad_ok w n :
  0 <= n < 10 ^ Z.of_nat (S w) ->
  String.length (pad (S w) n) = S w /\ allChars isDigit (pad (S w) n) = true.
Proof.
  intros H. unfold pad, padStart.
  assert (L : (String.length (numberToString n) <= S w)%nat).
  { unfold numberToString. destruct (Z.ltb_spec n 0); [lia|].
    pose proof (digitsOf_length_le w (S (Z.to_nat (Z.log2 n))) n "" H) as L.
    change (String.length "") with 0%nat in L. lia. }
  split.
  - rewrite string_app_length, repeatChar_length. lia.
  - rewrite allChars_app, repeatChar_all, numberToString_digits by (auto; lia).
    reflexivity.
Qed.

Lemma randomNum_range r : (0 <= r)%Q -> (r < 1)%Q -> 10000 <= randomNum r <= 99999.
Proof.
  intros A B. unfold randomNum.
  set (x := (inject_Z 10000 + r * inject_Z 90000)%Q).
  assert (Lo : (inject_Z 10000 <= x)%Q) by (unfold x, inject_Z; lra).
  assert (Hi : (x < inject_Z 100000)%Q) by (unfold x, inject_Z; lra).
  split.
  - rewrite <- (Qfloor_Z 10000). now apply Qfloor_resp_le.
  - assert (Qfloor x < 100000); [|lia].
    rewrite Zlt_Qlt. eapply Qle_lt_trans; [apply Qfloor_le|exact Hi].
Qed.

Lemma five_digits n :
  10000 <= n <= 99999 ->
  String.length (numberToString n) = 5%nat /\ allChars isDigit (numberToString n) = true.
Proof.
  intros H. split; [|apply numberToString_digits; lia].
  unfold numberToString. destruct (Z.ltb_spec n 0); [lia|].
  assert (F : (4 < S (Z.to_nat (Z.log2 n)))%nat).
  { pose proof (Z.log2_le_mono 10000 n) as M.
    change (Z.log2 10000) with 13 in M. lia. }
  pose proof (digitsOf_length_le 4 (S (Z.to_nat (Z.log2 n))) n "") as U.
  pose proof (digitsOf_length_ge 4 (S (Z.to_nat (Z.log2 n))) n "") as L.
  change (10 ^ Z.of_nat 5) with 100000 in U.
  change (10 ^ Z.of_nat 4) with 10000 in L.
  change (String.length "") with 0%nat in U, L. specialize (U ltac:(lia)). specialize (L ltac:(lia) F). lia.
Qed.

Lemma dateStr_calendar d : calendarDate d -> dateStr d = yyyymmdd d.
Proof.
  intros (Y & M & D). unfold dateStr, toISOString, isoYear, yyyymmdd.
  destruct (Z.leb_spec 0 (d_year d)); [|lia].
  destruct (Z.leb_spec (d_year d) 9999); [|lia]. cbn [andb].
  destruct (pad_ok 3 (d_year d)) as [Ly Dy]; [change (10 ^ Z.of_nat 4) with 10000; lia|].
  destruct (pad_ok 1 (d_month d)) as [Lm Dm]; [change (10 ^ Z.of_nat 2) with 100; lia|].
  destruct (pad_ok 1 (d_day d)) as [Ld Dd]; [change (10 ^ Z.of_nat 2) with 100; lia|].
  set (Ys := pad 4 (d_year d)) in *. set (Ms := pad 2 (d_month d)) in *.
  set (Ds := pad 2 (d_day d)) in *.
  match goal with
  | |- removeChar _ (slice0 10 (Ys ++ "-" ++ Ms ++ "-" ++ Ds ++ ?rest)) = _ =>
      replace (Ys ++ "-" ++ Ms ++ "-" ++ Ds ++ rest)
        with ((Ys ++ "-" ++ Ms ++ "-" ++ Ds) ++ rest)
        by (now rewrite !string_app_assoc)
  end.
  unfold slice0.
  replace 10%nat with (String.length (Ys ++ "-" ++ Ms ++ "-" ++ Ds))
    by (rewrite !string_app_length, Ly, Lm, Ld; reflexivity).
  rewrite substring_0_app, !removeChar_app.
  rewrite (removeChar_digits Ys), (removeChar_digits Ms), (removeChar_digits Ds)
    by assumption.
  reflexivity.
Qed.

(** ** Appending a ledger entry *)

Lemma findOne_no_match db p :
  (forall s, In s db -> Student.prn s <> p) -> findOne db p = None.
Proof.
  intros H. destruct (findOne db p) as [s|] eqn:F; auto.
  exfalso. apply (H s); [exact (findOne_In _ _ _ F)|exact (findOne_prn _ _ _ F)].
Qed.





(** C6.  Whenever [addFineToStudent] succeeds, at a date with a four-digit
    year and a random draw in [0, 1), the receipt number it generates is
    "RCP-", the eight digits YYYYMMDD of the date of the call, "-", and
    exactly five decimal digits; the date part is the date of the call
    whatever date the request supplies for the entry.  The number returned
    is the one stored with the appended entry. *)
Theorem receipt_number_format validate stringToNumber env db req status data db' :
  calendarDate (now env) ->
  (0 <= random env)%Q -> (random env < 1)%Q ->
  addFineToStudent validate stringToNumber env db req = (Success status data, db') ->
  (exists digits,
      fa_receiptNumber data = "RCP-" ++ yyyymmdd (now env) ++ "-" ++ digits
      /\ String.length digits = 5%nat
      /\ allChars isDigit digits = true)
  /\ String.length (yyyymmdd (now env)) = 8%nat
  /\ allChars isDigit (yyyymmdd (now env)) = true
  /\ Fine.receiptNumber (fa_payment data) = fa_receiptNumber data
  /\ Fine.date (fa_payment data)
     = match body_date req with Some d => d | None => nowDate env end
  /\ (exists student,
         findOne db (toUpperCase (req_prn req)) = Some student
         /\ findOne db' (toUpperCase (req_prn req))
            = Some (Student.push_fine student (fa_payment data))).
Proof.
  intros C R0 R1 H. unfold addFineToStudent in H.
  destruct (truthyValue (body_amount req)); cbn [negb] in H; [|discriminate].
  destruct (toNumber stringToNumber (body_amount req)) as [n|]; [|discriminate].
  destruct (n <=? 0); [discriminate|].
  destruct (findOne db (toUpperCase (req_prn req))) as [student|] eqn:F; [|discriminate].
  unfold save in H.
  destruct (validate (Student.push_fine student (newPayment env req n))); [discriminate|].
  injection H as _ <- <-. cbn [fa_receiptNumber fa_payment].
  destruct (five_digits _ (randomNum_range _ R0 R1)) as [L D].
  destruct C as (Y & M & Dy).
  destruct (pad_ok 3 (d_year (now env))) as [Ly Ay];
    [change (10 ^ Z.of_nat 4) with 10000; lia|].
  destruct (pad_ok 1 (d_month (now env))) as [Lm Am];
    [change (10 ^ Z.of_nat 2) with 100; lia|].
  destruct (pad_ok 1 (d_day (now env))) as [Ld Ad];
    [change (10 ^ Z.of_nat 2) with 100; lia|].
  split.
  { exists (numberToString (randomNum (random env))). split; [|split; assumption].
    cbn [newPayment Fine.receiptNumber]. unfold receiptNumberOf.
    now rewrite dateStr_calendar by (repeat split; lia). }
  split.
  { unfold yyyymmdd. rewrite !string_app_length, Ly, Lm, Ld. reflexivity. }
  split.
  { unfold yyyymmdd. now rewrite !allChars_app, Ay, Am, Ad. }
  split; [reflexivity|]. split; [reflexivity|].
  exists student. split; [reflexivity|].
  rewrite (findOne_replaceDocument _ _ _ _ _ F).
  - now rewrite String.eqb_refl.
  - exact (findOne_prn _ _ _ F).
Qed.

Lemma receipt_number_format_witness :
  fst (addFineToStudent acceptAll numbersOnly sampleEnv sampleRoster sampleRequest)
  = Success 201
      {| fa_prn := "A1B2";
         fa_payment :=
           {| Fine.amount := 30; Fine.reason := "Library"; Fine.type := "fee";
              Fine.category := "Others"; Fine.receiptNumber := "RCP-20240307-40000";
              Fine.date := mkDate 2023 12 31 0; Fine.isPaid := true;
              Fine.paidDate := Some (mkDate 2024 3 7 4500002) |};
         fa_receiptNumber := "RCP-20240307-40000";
         fa_paymentCount := 2;
         fa_emailSent := false |}
  /\ exists digits,
       "RCP-20240307-40000" = "RCP-" ++ yyyymmdd (now sampleEnv) ++ "-" ++ digits
       /\ String.length digits = 5%nat
       /\ allChars isDigit digits = true.
Proof.
  split; [reflexivity|].
  refine (proj1 (receipt_number_format acceptAll numbersOnly sampleEnv sampleRoster
                   sampleRequest 201 _ _ _ _ _ eq_refl)).
  - unfold calendarDate. cbn. lia.
  - unfold Qle. cbn. lia.
  - unfold Qlt. cbn. lia.
Defined.

(** ** A row whose persistence throws *)

(** C8 at a failing input.  The row resolves the identifier "A1B2" and its
    creation is refused by the schema; the exception is caught and the next
    row is still processed, but the recorded error carries "Unknown" in
    place of the identifier, because the [catch] block reads the column
    named "prn" and not the resolved identifier. *)
Lemma caught_row_reports_unknown :
  r_prn (resolveRow prnNumberRow) = Some "A1B2"
  /\ errors (processRow requireDepartment (startBatch []) prnNumberRow)
     = [mkError "Unknown"
          "Student validation failed: department: Path `department` is required."]
  /\ fst (uploadStudentsCSV requireDepartment [] [prnNumberRow; newRow])
     = {| totalRecords := 2; newStudents := 1; updatedStudents := 0; errorsTotal := 1;
          errorDetails :=
            Some [mkError "Unknown"
                    "Student validation failed: department: Path `department` is required."] |}.
Proof. repeat split. Qed.

(** ** The financial summary *)

Lemma sumZ_cons (x : Z) (l : list Z) : sumZ (x :: l) = x + sumZ l.
Proof. reflexivity. Qed.

Lemma sumZ_app (a b : list Z) : sumZ (a ++ b)%list = sumZ a + sumZ b.
Proof. induction a as [|x a IH]; simpl; lia. Qed.

Lemma fold_left_sum {A : Type} (f : A -> Z) (docs : list A) (start : Z) :
  fold_left (fun acc d => acc + f d) docs start = start + sumZ (map f docs).
Proof.
  revert start. induction docs as [|d docs IH]; intros start; simpl; [lia|].
  rewrite IH. lia.
Qed.

Lemma groupAll_total {A : Type} (f : A -> Z) (docs : list A) :
  firstOrZero (groupAll f docs) = sumZ (map f docs).
Proof.
  destruct docs as [|d docs]; [reflexivity|].
  unfold groupAll, firstOrZero. now rewrite fold_left_sum.
Qed.

Lemma unwindFines_total (students : Collection) :
  sumZ (map Fine.amount (unwindFines students)) = incomeOf students.
Proof.
  unfold unwindFines, incomeOf.
  induction students as [|s students IH]; simpl; auto.
  now rewrite map_app, sumZ_app, IH.
Qed.

(** C2.  The financial summary reports as total income the sum, over every
    student, of the amounts of that student's ledger entries (a student
    with an empty ledger adds nothing), as total expenditure the sum of the
    amounts of all expenditure records, as balance exactly income minus
    expenditure, and as status "surplus" when the balance is at least zero
    and "deficit" otherwise. *)
Theorem financial_summary_totals :
  forall (students : Collection) (expenditures : list Expenditure.t),
    let s := getFinancialSummary students expenditures in
    totalIncome s = incomeOf students
    /\ totalExpenditure s = expenditureOf expenditures
    /\ balance s = totalIncome s - totalExpenditure s
    /\ status s = (if 0 <=? balance s then "surplus" else "deficit")
    /\ (0 <= balance s <-> status s = "surplus")
    /\ (balance s < 0 <-> status s = "deficit")
    /\ (forall before idle after,
           Student.fines idle = [] ->
           incomeOf (before ++ idle :: after)%list = incomeOf (before ++ after)%list).
Proof.
  intros students expenditures s.
  split; [unfold s, getFinancialSummary; cbn [totalIncome];
          now rewrite groupAll_total, unwindFines_total|].
  split; [unfold s, getFinancialSummary; cbn [totalExpenditure];
          now rewrite groupAll_total|].
  split; [reflexivity|].
  split; [reflexivity|].
  assert (St : status s = if 0 <=? balance s then "surplus" else "deficit")
    by reflexivity.
  split; [|split].
  - rewrite St. destruct (Z.leb_spec 0 (balance s)); split; intros; try lia;
      try reflexivity; discriminate.
  - rewrite St. destruct (Z.leb_spec 0 (balance s)); split; intros; try lia;
      try reflexivity; discriminate.
  - intros before idle after E. unfold incomeOf.
    rewrite !map_app, !sumZ_app. cbn [map].
    change (sumZ (ledgerTotal idle :: map ledgerTotal after))
      with (ledgerTotal idle + sumZ (map ledgerTotal after)).
    replace (ledgerTotal idle) with 0 by (unfold ledgerTotal; now rewrite E).
    lia.
Qed.

Lemma financial_summary_totals_witness :
  totalIncome (getFinancialSummary [twoEntryStudent] []) = 80
  /\ totalExpenditure (getFinancialSummary [twoEntryStudent] []) = 0
  /\ balance (getFinancialSummary [twoEntryStudent] []) = 80
  /\ status (getFinancialSummary [twoEntryStudent] []) = "surplus".
Proof.
  destruct (financial_summary_totals [twoEntryStudent] []) as (I & E & B & S & _).
  rewrite S, B, I, E. repeat split.
Defined.

(** ** The monthly report *)

(** C3 at a failing input.  A ledger entry of amount 50 dated 31 December
    2024, 10:00 UTC, has its date in December 2024, yet the report of 2024
    counts it neither in December nor in the yearly total: the upper bound
    of the year span is the first instant of 31 December.  The same entry
    dated at that first instant is counted. *)
Lemma december_31_entry_is_dropped :
  map income (monthlyReport (getMonthlyReport 2024 [decemberStudent] []))
  = [0; 0; 0; 0; 0; 0; 0; 0; 0; 0; 0; 0]
  /\ yt_totalIncome (yearlyTotals (getMonthlyReport 2024 [decemberStudent] [])) = 0
  /\ inYearSpan 2024 (mkDate 2024 12 31 36000000) = false
  /\ inYearSpan 2024 (mkDate 2024 12 31 0) = true.
Proof. repeat split. Qed.

Lemma find_insertGroup m g sorted :
  find (fun item => g_month item =? m) (insertGroup g sorted)
  = if g_month g =? m then Some g
    else find (fun item => g_month item =? m) sorted.
Proof.
  induction sorted as [|h rest IH]; cbn [insertGroup find]; [reflexivity|].
  destruct (Z.leb_spec (g_month g) (g_month h)); cbn [find].
  - reflexivity.
  - rewrite IH. destruct (Z.eqb_spec (g_month g) m) as [E|]; [|reflexivity].
    destruct (Z.eqb_spec (g_month h) m); [lia|reflexivity].
Qed.

Lemma find_sortByMonth m groups :
  find (fun item => g_month item =? m) (sortByMonth groups)
  = find (fun item => g_month item =? m) groups.
Proof.
  induction groups as [|g groups IH]; cbn [sortByMonth fold_right find]; auto.
  fold (sortByMonth groups). now rewrite find_insertGroup, IH.
Qed.

Lemma find_addToGroup m' m a groups :
  totalOf (find (fun item => g_month item =? m') (addToGroup m a groups))
  = totalOf (find (fun item => g_month item =? m') groups) + (if m =? m' then a else 0)
  /\ countOf (find (fun item => g_month item =? m') (addToGroup m a groups))
     = Nat.add (countOf (find (fun item => g_month item =? m') groups))
               (if m =? m' then 1%nat else 0%nat).
Proof.
  induction groups as [|g rest IH]; cbn [addToGroup find g_month].
  - destruct (m =? m'); cbn; split; lia.
  - destruct (Z.eqb_spec (g_month g) m) as [E|N]; cbn [find g_month].
    + rewrite E. destruct (m =? m'); cbn; split; lia.
    + destruct (Z.eqb_spec (g_month g) m') as [E'|_].
      * destruct (Z.eqb_spec m m'); [lia|]. cbn. split; lia.
      * exact IH.
Qed.

Lemma find_groupByMonth_from m docs groups :
  totalOf (find (fun item => g_month item =? m)
             (fold_left (fun gs d => addToGroup (d_month (fst d)) (snd d) gs) docs groups))
  = totalOf (find (fun item => g_month item =? m) groups)
    + sumZ (map snd (filter (fun d => d_month (fst d) =? m) docs))
  /\ countOf (find (fun item => g_month item =? m)
                (fold_left (fun gs d => addToGroup (d_month (fst d)) (snd d) gs) docs groups))
     = Nat.add (countOf (find (fun item => g_month item =? m) groups))
               (length (filter (fun d => d_month (fst d) =? m) docs)).
Proof.
  revert groups. induction docs as [|d docs IH]; intros groups; cbn [fold_left filter].
  - cbn. split; lia.
  - destruct (IH (addToGroup (d_month (fst d)) (snd d) groups)) as [T C].
    destruct (find_addToGroup m (d_month (fst d)) (snd d) groups) as [T1 C1].
    rewrite T, C, T1, C1.
    destruct (d_month (fst d) =? m); cbn [map length];
      rewrite ?sumZ_cons; split; lia.
Qed.

Lemma findMonth_groups index docs :
  totalOf (findMonth (sortByMonth (groupByMonth docs)) index)
  = sumZ (map snd (filter (fun d => d_month (fst d) =? Z.of_nat index + 1) docs))
  /\ countOf (findMonth (sortByMonth (groupByMonth docs)) index)
     = length (filter (fun d => d_month (fst d) =? Z.of_nat index + 1) docs).
Proof.
  unfold findMonth, groupByMonth. rewrite find_sortByMonth.
  destruct (find_groupByMonth_from (Z.of_nat index + 1) docs []) as [T C].
  rewrite T, C. cbn. split; lia.
Qed.

Lemma filter_in_month {A : Type} (date : A -> Date) (amount : A -> Z) year m (l : list A) :
  filter (fun d => d_month (fst d) =? m)
         (map (fun x => (date x, amount x)) (filter (fun x => inYearSpan year (date x)) l))
  = map (fun x => (date x, amount x)) (filter (fun x => inMonth year m (date x)) l).
Proof.
  induction l as [|x l IH]; cbn [filter map]; auto.
  unfold inMonth at 1.
  destruct (inYearSpan year (date x)); cbn [andb filter map fst].
  - destruct (d_month (date x) =? m); cbn [map]; now rewrite IH.
  - exact IH.
Qed.

Lemma findMonth_income year index students :
  totalOf (findMonth (monthlyIncome year students) index)
  = monthIncome year (Z.of_nat index + 1) students
  /\ countOf (findMonth (monthlyIncome year students) index)
     = length (filter (fun f => inMonth year (Z.of_nat index + 1) (Fine.date f))
                      (unwindFines students)).
Proof.
  unfold monthlyIncome, monthIncome.
  destruct (findMonth_groups index
              (map (fun f => (Fine.date f, Fine.amount f))
                   (filter (fun f => inYearSpan year (Fine.date f)) (unwindFines students))))
    as [T C].
  rewrite T, C, filter_in_month, !map_map, length_map. cbn [snd]. split; reflexivity.
Qed.

Lemma findMonth_spent year index expenditures :
  totalOf (findMonth (monthlyExpenditure year expenditures) index)
  = monthSpent year (Z.of_nat index + 1) expenditures
  /\ countOf (findMonth (monthlyExpenditure year expenditures) index)
     = length (filter (fun e => inMonth year (Z.of_nat index + 1) (Expenditure.date e))
                      expenditures).
Proof.
  unfold monthlyExpenditure, monthSpent.
  destruct (findMonth_groups index
              (map (fun e => (Expenditure.date e, Expenditure.amount e))
                   (filter (fun e => inYearSpan year (Expenditure.date e)) expenditures)))
    as [T C].
  rewrite T, C, filter_in_month, !map_map, length_map. cbn [snd]. split; reflexivity.
Qed.

Lemma monthRow_values year students expenditures index name :
  income (monthRow (monthlyIncome year students)
                   (monthlyExpenditure year expenditures) index name)
  = monthIncome year (Z.of_nat index + 1) students
  /\ expenditure (monthRow (monthlyIncome year students)
                           (monthlyExpenditure year expenditures) index name)
     = monthSpent year (Z.of_nat index + 1) expenditures
  /\ fineCount (monthRow (monthlyIncome year students)
                         (monthlyExpenditure year expenditures) index name)
     = length (filter (fun f => inMonth year (Z.of_nat index + 1) (Fine.date f))
                      (unwindFines students))
  /\ expenditureCount (monthRow (monthlyIncome year students)
                                (monthlyExpenditure year expenditures) index name)
     = length (filter (fun e => inMonth year (Z.of_nat index + 1) (Expenditure.date e))
                      expenditures).
Proof.
  destruct (findMonth_income year index students) as [I C].
  destruct (findMonth_spent year index expenditures) as [E D].
  repeat split; assumption.
Qed.

Lemma In_mapIndexed {A B : Type} (f : nat -> A -> B) (l : list A) (start : nat) (y : B) :
  In y (mapIndexed f start l) -> exists index x, y = f index x.
Proof.
  revert start. induction l as [|x l IH]; intros start; cbn [mapIndexed].
  - intros [].
  - intros [<-|I]; eauto.
Qed.

Lemma sumZ_difference {A : Type} (f g h : A -> Z) (l : list A) :
  (forall x, In x l -> h x = f x - g x) ->
  sumZ (map h l) = sumZ (map f l) - sumZ (map g l).
Proof.
  induction l as [|x l IH]; intros H; cbn [map].
  - reflexivity.
  - rewrite !sumZ_cons, IH by (intros; apply H; now right).
    rewrite (H x) by now left. lia.
Qed.

Lemma inYearSpan_wellFormed year d :
  wellFormedDate d ->
  inYearSpan year d = true
  <-> d_year d = year /\ (d_month d = 12 -> d_day d = 31 -> d_ms d = 0).
Proof.
  intros (M & D & T). unfold inYearSpan, Date_leb, yearStart, yearEnd.
  cbn [d_year d_month d_day d_ms].
  repeat match goal with
         | |- context [?a <? ?b] => destruct (Z.ltb_spec a b)
         | |- context [?a <=? ?b] => destruct (Z.leb_spec a b)
         end; cbn [andb]; split; intros G; try discriminate; try reflexivity;
    try lia.
Qed.

(** X1.  What the monthly report computes.  It has one row per calendar
    month, numbered 1 to 12 in order; a row's income (expenditure) is the
    sum of the amounts of the ledger entries (expenditure records) whose own
    date passes the year filter and lies in the row's month, its counts are
    the numbers of those entries, and its balance is income minus
    expenditure; a month without activity reports zero.  The yearly totals
    are the sums of the twelve monthly values.  The year filter accepts a
    well-formed date exactly when its year is the report's year and it is
    not later than the first instant of 31 December.  All this is for a
    report of a four-digit year, for which the bounds of the filter are the
    ISO dates of 1 January and 31 December. *)
Theorem monthly_report_rows :
  forall (year : Z) (students : Collection) (expenditures : list Expenditure.t),
    fourDigitYear year ->
    let r := getMonthlyReport year students expenditures in
    map monthNumber (monthlyReport r) = [1; 2; 3; 4; 5; 6; 7; 8; 9; 10; 11; 12]
    /\ map month (monthlyReport r) = months
    /\ (forall row, In row (monthlyReport r) ->
          income row = monthIncome year (monthNumber row) students
          /\ expenditure row = monthSpent year (monthNumber row) expenditures
          /\ monthBalance row = income row - expenditure row
          /\ fineCount row
             = length (filter (fun f => inMonth year (monthNumber row) (Fine.date f))
                              (unwindFines students))
          /\ expenditureCount row
             = length (filter (fun e => inMonth year (monthNumber row) (Expenditure.date e))
                              expenditures))
    /\ yt_totalIncome (yearlyTotals r) = sumZ (map income (monthlyReport r))
    /\ yt_totalExpenditure (yearlyTotals r) = sumZ (map expenditure (monthlyReport r))
    /\ yt_totalBalance (yearlyTotals r) = sumZ (map monthBalance (monthlyReport r))
    /\ yt_totalBalance (yearlyTotals r)
       = yt_totalIncome (yearlyTotals r) - yt_totalExpenditure (yearlyTotals r)
    /\ (forall d, wellFormedDate d ->
          inYearSpan year d = true
          <-> d_year d = year /\ (d_month d = 12 -> d_day d = 31 -> d_ms d = 0)).
Proof.
  intros year students expenditures _ r.
  assert (Rows : forall row, In row (monthlyReport r) ->
            income row = monthIncome year (monthNumber row) students
            /\ expenditure row = monthSpent year (monthNumber row) expenditures
            /\ monthBalance row = income row - expenditure row
            /\ fineCount row
               = length (filter (fun f => inMonth year (monthNumber row) (Fine.date f))
                                (unwindFines students))
            /\ expenditureCount row
               = length (filter (fun e => inMonth year (monthNumber row) (Expenditure.date e))
                                expenditures)).
  { intros row I. apply In_mapIndexed in I. destruct I as (index & name & ->).
    destruct (monthRow_values year students expenditures index name) as (A & B & C & D).
    repeat split; assumption. }
  assert (TI : yt_totalIncome (yearlyTotals r) = sumZ (map income (monthlyReport r))).
  { unfold r, getMonthlyReport. cbn [yearlyTotals yt_totalIncome monthlyReport].
    now rewrite fold_left_sum. }
  assert (TE : yt_totalExpenditure (yearlyTotals r)
               = sumZ (map expenditure (monthlyReport r))).
  { unfold r, getMonthlyReport. cbn [yearlyTotals yt_totalExpenditure monthlyReport].
    now rewrite fold_left_sum. }
  assert (TB : yt_totalBalance (yearlyTotals r)
               = sumZ (map monthBalance (monthlyReport r))).
  { unfold r, getMonthlyReport. cbn [yearlyTotals yt_totalBalance monthlyReport].
    now rewrite fold_left_sum. }
  split; [reflexivity|]. split; [reflexivity|]. split; [exact Rows|].
  split; [exact TI|]. split; [exact TE|]. split; [exact TB|].
  split.
  { rewrite TB, TI, TE. apply sumZ_difference. intros row I. apply Rows, I. }
  intros d. apply inYearSpan_wellFormed.
Qed.

Lemma monthly_report_rows_witness :
  map income (monthlyReport (getMonthlyReport 2024 [twoEntryStudent; decemberStudent] []))
  = [0; 0; 80; 0; 0; 0; 0; 0; 0; 0; 0; 0]
  /\ yt_totalIncome (yearlyTotals (getMonthlyReport 2024 [twoEntryStudent; decemberStudent] []))
     = 80
  /\ (inYearSpan 2024 (mkDate 2024 12 31 0) = true
      <-> 2024 = 2024 /\ (12 = 12 -> 31 = 31 -> 0 = 0)).
Proof.
  assert (Y : fourDigitYear 2024) by (unfold fourDigitYear; lia).
  destruct (monthly_report_rows 2024 [twoEntryStudent; decemberStudent] [] Y)
    as (_ & _ & _ & T & _ & _ & _ & S).
  split; [reflexivity|]. split; [rewrite T; reflexivity|].
  apply (S (mkDate 2024 12 31 0)). unfold wellFormedDate. cbn. lia.
Defined.

(** X2.  What the [catch] block does.  When persisting a valid row throws,
    nothing is written, one error is counted and recorded with the thrown
    message and with the raw cell of the column named "prn" ("Unknown" when
    the row has no such column or the cell is empty), and the rows that
    follow are processed from that state. *)
Theorem persistence_exception_is_caught validate b row message rest :
  invalidRow row = false ->
  validate (writtenDocument (roster b) row) = Some message ->
  processRow validate b row = catchRow b row message
  /\ roster (processRow validate b row) = roster b
  /\ errorCount (processRow validate b row) = S (errorCount b)
  /\ errors (processRow validate b row)
     = (errors b ++ [mkError (orElse (rowGet row "prn") "Unknown") message])%list
  /\ successCount (processRow validate b row) = successCount b
  /\ updateCount (processRow validate b row) = updateCount b
  /\ fold_left (processRow validate) (row :: rest) b
     = fold_left (processRow validate) rest (catchRow b row message).
Proof.
  intros V T.
  assert (E : processRow validate b row = catchRow b row message).
  { unfold processRow. unfold invalidRow in V. rewrite V.
    unfold writtenDocument in T. unfold save, create.
    destruct (findOne (roster b) (StudentData.prn (studentDataOf (resolveRow row))));
      now rewrite T. }
  cbn [fold_left]. rewrite E. repeat split.
Qed.

Lemma persistence_exception_is_caught_witness :
  errors (processRow requireDepartment (startBatch sampleRoster)
            [("prn", " c9d8 "); ("name", "Binod Kale")])
  = [mkError " c9d8 "
       "Student validation failed: department: Path `department` is required."].
Proof.
  exact (proj1 (proj2 (proj2 (proj2
    (persistence_exception_is_caught requireDepartment (startBatch sampleRoster)
       [("prn", " c9d8 "); ("name", "Binod Kale")] _ [] eq_refl eq_refl))))).
Defined.

(** * Further properties of the controllers *)

(** ** Any batch, whatever its rows and whatever persistence does *)

Lemma replaceDocument_ledgerKeys db p existing doc :
  findOne db p = Some existing ->
  Student.prn doc = p ->
  Student.fines doc = Student.fines existing ->
  map ledgerKey (replaceDocument db doc) = map ledgerKey db.
Proof.
  intros F <- E. induction db as [|x rest IH]; cbn [replaceDocument map]; auto.
  unfold findOne in F. cbn [find] in F.
  destruct (hasPrn (Student.prn doc) x) eqn:H; cbn [map].
  - injection F as ->. unfold hasPrn in H. apply String.eqb_eq in H.
    unfold ledgerKey. now rewrite E, H.
  - now rewrite IH.
Qed.

(** The three ways one iteration of the loop can end. *)
Lemma processRow_outcomes validate b row :
  (roster (processRow validate b row) = roster b
   /\ successCount (processRow validate b row) = successCount b
   /\ updateCount (processRow validate b row) = updateCount b
   /\ errorCount (processRow validate b row) = S (errorCount b)
   /\ length (errors (processRow validate b row)) = S (length (errors b)))
  \/ (exists existing,
        findOne (roster b) (StudentData.prn (studentDataOf (resolveRow row))) = Some existing
        /\ roster (processRow validate b row)
           = replaceDocument (roster b)
               (updateExisting existing (studentDataOf (resolveRow row)))
        /\ successCount (processRow validate b row) = successCount b
        /\ updateCount (processRow validate b row) = S (updateCount b)
        /\ errorCount (processRow validate b row) = errorCount b
        /\ errors (processRow validate b row) = errors b)
  \/ (findOne (roster b) (StudentData.prn (studentDataOf (resolveRow row))) = None
      /\ roster (processRow validate b row)
         = (roster b ++ [newDocument (studentDataOf (resolveRow row))])%list
      /\ successCount (processRow validate b row) = S (successCount b)
      /\ updateCount (processRow validate b row) = updateCount b
      /\ errorCount (processRow validate b row) = errorCount b
      /\ errors (processRow validate b row) = errors b).
Proof.
  unfold processRow.
  set (d := studentDataOf (resolveRow row)).
  destruct (negb (truthy (r_prn (resolveRow row))) || negb (truthy (r_name (resolveRow row)))).
  { left. unfold skipRow. cbn [roster successCount updateCount errorCount errors].
    rewrite length_app. cbn [length]. repeat split; lia. }
  destruct (findOne (roster b) (StudentData.prn d)) as [existing|] eqn:F.
  - unfold save. destruct (validate (updateExisting existing d)).
    + left. unfold catchRow. cbn [roster successCount updateCount errorCount errors].
      rewrite length_app. cbn [length]. repeat split; lia.
    + right. left. exists existing. repeat split.
  - unfold create. destruct (validate (newDocument d)).
    + left. unfold catchRow. cbn [roster successCount updateCount errorCount errors].
      rewrite length_app. cbn [length]. repeat split; lia.
    + cbn [newDocument Student.prn]. rewrite (findOne_None_existsb _ _ F).
      right. right. repeat split.
Qed.

Lemma processRows_accounting validate rows b :
  (successCount (fold_left (processRow validate) rows b)
   + updateCount (fold_left (processRow validate) rows b)
   + errorCount (fold_left (processRow validate) rows b)
   = successCount b + updateCount b + errorCount b + length rows)%nat
  /\ (length (errors (fold_left (processRow validate) rows b))
      + errorCount b
      = errorCount (fold_left (processRow validate) rows b) + length (errors b))%nat.
Proof.
  revert b. induction rows as [|row rows IH]; intros b; cbn [fold_left length].
  - split; lia.
  - destruct (IH (processRow validate b row)) as [A L].
    destruct (processRow_outcomes validate b row)
      as [(_ & S & U & E & Le)|[(x & _ & _ & S & U & E & Le)|(_ & _ & S & U & E & Le)]];
      rewrite ?Le in *; split; lia.
Qed.

(** X3.  Every row of a batch is accounted for exactly once, whatever the
    rows are and whatever persistence does: created, updated and failed
    rows add up to the number of rows read, and there is one error detail
    per failed row (none at all when no row failed). *)
Theorem upload_accounts_for_every_row :
  forall (validate : Student.t -> option string) (db : Collection) (rows : list Row),
    let result := fst (uploadStudentsCSV validate db rows) in
    totalRecords result = length rows
    /\ (newStudents result + updatedStudents result + errorsTotal result
        = totalRecords result)%nat
    /\ match errorDetails result with
       | None => errorsTotal result = 0%nat
       | Some details => length details = errorsTotal result /\ details <> []
       end.
Proof.
  intros validate db rows result.
  destruct (processRows_accounting validate rows (startBatch db)) as [A L].
  cbn [startBatch successCount updateCount errorCount errors length] in A, L.
  unfold result, uploadStudentsCSV, processRows.
  cbn [fst totalRecords newStudents updatedStudents errorsTotal errorDetails].
  split; [reflexivity|]. split; [lia|].
  destruct (errors (fold_left (processRow validate) rows (startBatch db))) as [|e es].
  - cbn [length] in L. lia.
  - split; [lia|discriminate].
Qed.

Lemma processRows_ledgerKeys validate rows b :
  exists created,
    map ledgerKey (roster (fold_left (processRow validate) rows b))
    = (map ledgerKey (roster b) ++ map (fun p => (p, [])) created)%list
    /\ (successCount (fold_left (processRow validate) rows b)
        = successCount b + length created)%nat.
Proof.
  revert b. induction rows as [|row rows IH]; intros b; cbn [fold_left].
  - exists []. cbn [map length]. rewrite app_nil_r. split; [reflexivity|lia].
  - destruct (IH (processRow validate b row)) as (created & K & N).
    destruct (processRow_outcomes validate b row)
      as [(R & S & _)|[(x & F & R & S & _)|(_ & R & S & _)]].
    + exists created. rewrite K, N, R, S. split; reflexivity.
    + exists created. rewrite K, N, R, S. split; [|reflexivity]. f_equal.
      apply (replaceDocument_ledgerKeys _ _ x _ F).
      * rewrite updateExisting_prn. exact (findOne_prn _ _ _ F).
      * apply updateExisting_fines.
    + exists (StudentData.prn (studentDataOf (resolveRow row)) :: created).
      rewrite K, N, R, S, map_app. cbn [map length newDocument ledgerKey].
      rewrite <- app_assoc. split; [reflexivity|lia].
Qed.

Lemma find_app_found {A : Type} (f : A -> bool) (l : list A) (x : A) (l' : list A) :
  find f l = Some x -> find f (l ++ l')%list = Some x.
Proof.
  induction l as [|y l IH]; cbn [find app]; [discriminate|].
  destruct (f y); auto.
Qed.

Lemma incomeOf_ledgerKeys db :
  incomeOf db = sumZ (map (fun k => sumZ (map Fine.amount (snd k))) (map ledgerKey db)).
Proof. unfold incomeOf. rewrite map_map. reflexivity. Qed.

Lemma findOne_ledgerKeys db p :
  option_map ledgerKey (findOne db p)
  = find (fun k => String.eqb (fst k) p) (map ledgerKey db).
Proof.
  unfold findOne. induction db as [|x rest IH]; cbn [find map]; auto.
  unfold hasPrn at 1. cbn [ledgerKey fst]. destruct (String.eqb (Student.prn x) p); auto.
Qed.

(** X4.  An upload never changes a ledger, whatever its rows are and
    whatever persistence does: afterwards the collection holds the same
    students in the same order, each under the same identifier and with the
    same ledger, followed by the newly created students, whose ledgers are
    empty.  No student is removed, every student found before is found
    after with the same ledger, and the total income of the financial
    summary is what it was. *)
Theorem upload_keeps_every_ledger :
  forall (validate : Student.t -> option string) (db : Collection) (rows : list Row),
    let result := fst (uploadStudentsCSV validate db rows) in
    let after := snd (uploadStudentsCSV validate db rows) in
    (exists created,
        map ledgerKey after = (map ledgerKey db ++ map (fun p => (p, [])) created)%list
        /\ length created = newStudents result)
    /\ (forall p s, findOne db p = Some s ->
          exists s', findOne after p = Some s'
                     /\ Student.fines s' = Student.fines s)
    /\ incomeOf after = incomeOf db
    /\ (forall expenditures,
          totalIncome (getFinancialSummary after expenditures)
          = totalIncome (getFinancialSummary db expenditures)).
Proof.
  intros validate db rows result after.
  destruct (processRows_ledgerKeys validate rows (startBatch db)) as (created & K & N).
  cbn [startBatch roster successCount] in K, N.
  change (roster (fold_left (processRow validate) rows (startBatch db))) with after in K.
  assert (I : incomeOf after = incomeOf db).
  { rewrite !incomeOf_ledgerKeys, K, map_app, sumZ_app.
    assert (Z0 : forall l : list string,
               sumZ (map (fun k : string * list Fine.t => sumZ (map Fine.amount (snd k)))
                         (map (fun p => (p, [])) l)) = 0).
    { induction l as [|y l IH]; [reflexivity|].
      cbn [map]. rewrite sumZ_cons, IH. reflexivity. }
    rewrite Z0. lia. }
  split; [exists created; split; [exact K|exact (eq_sym N)]|].
  split.
  { intros p s F.
    pose proof (findOne_ledgerKeys after p) as A.
    pose proof (findOne_ledgerKeys db p) as B.
    rewrite F in B. cbn [option_map] in B. symmetry in B.
    rewrite K, (find_app_found _ _ _ (map (fun q => (q, [])) created) B) in A.
    destruct (findOne after p) as [s'|]; [|discriminate].
    exists s'. split; [reflexivity|]. cbn [option_map] in A.
    unfold ledgerKey in A. now injection A. }
  split; [exact I|].
  intros expenditures. unfold getFinancialSummary. cbn [totalIncome].
  now rewrite !groupAll_total, !unwindFines_total.
Qed.

(** ** A successful append *)

(** A per-student measure summed over the collection, after one document is
    replaced. *)
Lemma measure_replaceDocument (f : Student.t -> Z) db p s doc :
  findOne db p = Some s ->
  Student.prn doc = p ->
  sumZ (map f (replaceDocument db doc)) = sumZ (map f db) - f s + f doc.
Proof.
  intros F <-. induction db as [|x rest IH]; [discriminate|].
  unfold findOne in F. cbn [find] in F. cbn [replaceDocument].
  destruct (hasPrn (Student.prn doc) x); cbn [map]; rewrite !sumZ_cons.
  - injection F as ->. lia.
  - rewrite IH by exact F. lia.
Qed.

Lemma ledgerTotal_push_fine s p :
  ledgerTotal (Student.push_fine s p) = ledgerTotal s + Fine.amount p.
Proof.
  unfold ledgerTotal, Student.push_fine. cbn [Student.fines].
  rewrite map_app, sumZ_app. cbn [map]. rewrite sumZ_cons. cbn. lia.
Qed.

(** X5.  [addFineToStudent] succeeds exactly when the amount is truthy and
    coerces to a number above zero, the upper-cased identifier finds a
    student and the save is accepted.  It then answers 201 and the only
    change is that this student's ledger has one more entry at its end, paid
    and of that amount: the earlier entries, the student's other fields, the
    other students and the order of the collection are as before.  Every
    failure, including a refused save, leaves the collection as it was. *)
Theorem addFine_appends_one_entry :
  forall (validate : Student.t -> option string) (stringToNumber : string -> option Z)
         (env : Env) (db : Collection) (req : FineRequest),
    let outcome := addFineToStudent validate stringToNumber env db req in
    let PRN := toUpperCase (req_prn req) in
    (forall status data db',
        outcome = (Success status data, db') ->
        exists student n,
          status = 201
          /\ truthyValue (body_amount req) = true
          /\ toNumber stringToNumber (body_amount req) = Some n /\ 0 < n
          /\ findOne db PRN = Some student
          /\ validate (Student.push_fine student (fa_payment data)) = None
          /\ Fine.amount (fa_payment data) = n
          /\ Fine.isPaid (fa_payment data) = true
          /\ Fine.paidDate (fa_payment data) = Some (nowPaid env)
          /\ findOne db' PRN = Some (Student.push_fine student (fa_payment data))
          /\ Student.fines (Student.push_fine student (fa_payment data))
             = (Student.fines student ++ [fa_payment data])%list
          /\ Student.prn (Student.push_fine student (fa_payment data)) = Student.prn student
          /\ Student.name (Student.push_fine student (fa_payment data)) = Student.name student
          /\ Student.department (Student.push_fine student (fa_payment data))
             = Student.department student
          /\ Student.email (Student.push_fine student (fa_payment data)) = Student.email student
          /\ Student.phone (Student.push_fine student (fa_payment data)) = Student.phone student
          /\ fa_paymentCount data = S (length (Student.fines student))
          /\ (forall q, q <> PRN -> findOne db' q = findOne db q)
          /\ map Student.prn db' = map Student.prn db)
    /\ (forall student n,
           truthyValue (body_amount req) = true ->
           toNumber stringToNumber (body_amount req) = Some n -> 0 < n ->
           findOne db PRN = Some student ->
           validate (Student.push_fine student (newPayment env req n)) = None ->
           exists data,
             outcome
             = (Success 201 data,
                replaceDocument db (Student.push_fine student (newPayment env req n)))
             /\ fa_payment data = newPayment env req n)
    /\ (forall status message db',
           outcome = (Failure status message, db') -> db' = db).
Proof.
  intros validate stringToNumber env db req outcome PRN.
  unfold outcome, addFineToStudent. fold PRN.
  destruct (truthyValue (body_amount req)); cbn [negb].
  2:{ split; [intros; discriminate|]. split; [intros; discriminate|].
      intros ? ? ? [= _ _ <-]. reflexivity. }
  destruct (toNumber stringToNumber (body_amount req)) as [n|].
  2:{ split; [intros; discriminate|]. split; [intros; discriminate|].
      intros ? ? ? [= _ _ <-]. reflexivity. }
  destruct (Z.leb_spec n 0).
  { split; [intros; discriminate|].
    split; [intros ? ? _ [= <-]; lia|].
    intros ? ? ? [= _ _ <-]. reflexivity. }
  destruct (findOne db PRN) as [student|] eqn:F.
  2:{ split; [intros; discriminate|]. split; [intros; discriminate|].
      intros ? ? ? [= _ _ <-]. reflexivity. }
  unfold save.
  destruct (validate (Student.push_fine student (newPayment env req n))) eqn:V.
  { split; [intros; discriminate|].
    split; [intros ? ? _ [= <-] _ [= <-]; congruence|].
    intros ? ? ? [= _ _ <-]. reflexivity. }
  split.
  { intros status data db' [= <- <- <-]. exists student, n.
    cbn [fa_payment fa_paymentCount].
    assert (P : Student.prn (Student.push_fine student (newPayment env req n)) = PRN)
      by exact (findOne_prn _ _ _ F).
    repeat split; auto.
    - rewrite (findOne_replaceDocument _ _ _ _ _ F P). now rewrite String.eqb_refl.
    - cbn [Student.push_fine Student.fines]. rewrite length_app. cbn [length]. lia.
    - intros q N. rewrite (findOne_replaceDocument _ _ _ _ _ F P).
      destruct (String.eqb_spec PRN q); congruence.
    - apply replaceDocument_prns. }
  split.
  { intros student' n' _ [= <-] _ [= <-] _. eexists. split; reflexivity. }
  intros; discriminate.
Qed.

(** X6.  After a successful [addFineToStudent] the financial summary shows
    the appended amount and nothing else: total income and balance are up by
    exactly that amount, which is positive, the number of ledger entries is
    up by one, and total expenditure and the number of students are the
    same. *)
Theorem addFine_raises_income validate stringToNumber env db req status data db' :
  addFineToStudent validate stringToNumber env db req = (Success status data, db') ->
  forall expenditures,
    let before := getFinancialSummary db expenditures in
    let after := getFinancialSummary db' expenditures in
    0 < Fine.amount (fa_payment data)
    /\ totalIncome after = totalIncome before + Fine.amount (fa_payment data)
    /\ balance after = balance before + Fine.amount (fa_payment data)
    /\ totalExpenditure after = totalExpenditure before
    /\ totalFines after = totalFines before + 1
    /\ totalStudents after = totalStudents before.
Proof.
  intros H expenditures before after. unfold addFineToStudent in H.
  destruct (truthyValue (body_amount req)); cbn [negb] in H; [|discriminate].
  destruct (toNumber stringToNumber (body_amount req)) as [n|]; [|discriminate].
  destruct (Z.leb_spec n 0); [discriminate|].
  destruct (findOne db (toUpperCase (req_prn req))) as [student|] eqn:F; [|discriminate].
  unfold save in H.
  destruct (validate (Student.push_fine student (newPayment env req n))); [discriminate|].
  injection H as _ <- <-. cbn [fa_payment].
  set (p := newPayment env req n) in *.
  assert (P : Student.prn (Student.push_fine student p) = toUpperCase (req_prn req))
    by exact (findOne_prn _ _ _ F).
  assert (I : totalIncome after = totalIncome before + Fine.amount p).
  { unfold after, before, getFinancialSummary. cbn [totalIncome].
    rewrite !groupAll_total, !unwindFines_total. unfold incomeOf.
    rewrite (measure_replaceDocument ledgerTotal _ _ _ _ F P), ledgerTotal_push_fine. lia. }
  split; [exact H0|]. split; [exact I|].
  split.
  { change (balance after) with (totalIncome after - totalExpenditure after).
    change (balance before) with (totalIncome before - totalExpenditure before).
    rewrite I. change (totalExpenditure after) with (totalExpenditure before). lia. }
  split; [reflexivity|].
  split.
  { unfold after, before, getFinancialSummary. cbn [totalFines].
    rewrite !groupAll_total.
    rewrite (measure_replaceDocument _ _ _ _ _ F P).
    cbn [Student.push_fine Student.fines]. rewrite length_app. cbn [length]. lia. }
  unfold after, before, getFinancialSummary. cbn [totalStudents].
  rewrite <- !(length_map Student.prn). now rewrite replaceDocument_prns.
Qed.

Lemma addFine_raises_income_witness :
  totalIncome (getFinancialSummary
                 (snd (addFineToStudent acceptAll numbersOnly sampleEnv sampleRoster
                         sampleRequest)) [])
  = totalIncome (getFinancialSummary sampleRoster []) + 30.
Proof.
  exact (proj1 (proj2 (addFine_raises_income acceptAll numbersOnly sampleEnv sampleRoster
                         sampleRequest _ _ _ eq_refl []))).
Defined.

(** ** Looking a student up *)

Lemma upperChar_fixed c : isLowerChar c = false -> upperChar c = c.
Proof. unfold upperChar, isLowerChar. now intros ->. Qed.

Lemma toUpperCase_twice s : toUpperCase (toUpperCase s) = toUpperCase s.
Proof.
  induction s as [|c s IH]; cbn [toUpperCase]; auto.
  now rewrite IH, (upperChar_fixed _ (upperChar_not_lower c)).
Qed.

Lemma toUpperCase_empty s : toUpperCase s = "" -> s = "".
Proof. destruct s; [reflexivity|discriminate]. Qed.

(** X7.  A student written by an upload row is found again under its
    identifier in any letter case: when a row with an identifier and a name
    is persisted, [getStudentByPRN] and [searchStudentByPRN] answer 200 with
    exactly the document the row wrote, for every requested PRN whose
    upper-casing is the row's identifier, in particular for the identifier
    itself and for the trimmed cell as it stands in the file.  A lookup only
    ever returns a student whose stored identifier is the upper-cased
    request, so a stored identifier with a lower-case letter is never found. *)
Theorem uploaded_student_is_found :
  forall (validate : Student.t -> option string) (b : Batch) (row : Row),
    invalidRow row = false ->
    validate (writtenDocument (roster b) row) = None ->
    let after := roster (processRow validate b row) in
    let written := writtenDocument (roster b) row in
    (forall q, toUpperCase q = valueOf (r_prn (resolveRow row)) ->
        getStudentByPRN after q = Success 200 written
        /\ searchStudentByPRN after q = Success 200 written)
    /\ getStudentByPRN after (valueOf (r_prn (resolveRow row))) = Success 200 written
    /\ (forall cell, getValue row prnKeys = Some cell ->
          getStudentByPRN after cell = Success 200 written)
    /\ (forall db q status s,
          getStudentByPRN db q = Success status s \/ searchStudentByPRN db q = Success status s ->
          Student.prn s = toUpperCase q
          /\ allChars (fun c => negb (isLowerChar c)) (Student.prn s) = true).
Proof.
  intros validate b row V C after written.
  assert (P : valueOf (r_prn (resolveRow row)) <> "").
  { unfold invalidRow in V. apply orb_false_iff in V. destruct V as [V _].
    apply negb_false_iff in V. destruct (r_prn (resolveRow row)) as [[|c s]|];
      cbn in V; discriminate. }
  assert (R : after = reconcile (roster b) row).
  { apply processRow_clean. now rewrite V, C. }
  assert (F : findOne after (valueOf (r_prn (resolveRow row))) = Some written).
  { rewrite R, findOne_reconcile. unfold reconcileOne. rewrite V.
    cbn [studentDataOf StudentData.prn]. rewrite String.eqb_refl. cbn [negb andb].
    unfold written, writtenDocument. cbn [studentDataOf StudentData.prn].
    now destruct (findOne (roster b) (valueOf (r_prn (resolveRow row)))). }
  assert (Q : forall q, toUpperCase q = valueOf (r_prn (resolveRow row)) ->
              getStudentByPRN after q = Success 200 written
              /\ searchStudentByPRN after q = Success 200 written).
  { intros q E. unfold getStudentByPRN, searchStudentByPRN. rewrite E, F.
    split; [reflexivity|].
    destruct q as [|c q]; [now rewrite <- E in P|reflexivity]. }
  split; [exact Q|].
  split.
  { apply Q. unfold resolveRow. cbn [r_prn].
    destruct (getValue row prnKeys); cbn [option_map valueOf];
      [apply toUpperCase_twice|reflexivity]. }
  split.
  { intros cell G. apply Q. unfold resolveRow. cbn [r_prn]. now rewrite G. }
  intros db q status s H.
  assert (Fs : findOne db (toUpperCase q) = Some s).
  { destruct H as [H|H].
    - unfold getStudentByPRN in H.
      destruct (findOne db (toUpperCase q)); [now injection H as _ ->|discriminate].
    - unfold searchStudentByPRN in H. destruct (negb (truthy (Some q))); [discriminate|].
      destruct (findOne db (toUpperCase q)); [now injection H as _ ->|discriminate]. }
  rewrite (findOne_prn _ _ _ Fs). split; [reflexivity|apply toUpperCase_no_lower].
Qed.

Lemma uploaded_student_is_found_witness :
  getStudentByPRN (roster (processRow acceptAll (startBatch sampleRoster) newRow)) "c9d8"
  = Success 200 (newDocument (studentDataOf (resolveRow newRow))).
Proof.
  exact (proj1 (proj2 (proj2
    (uploaded_student_is_found acceptAll (startBatch sampleRoster) newRow eq_refl eq_refl)))
    "c9d8" eq_refl).
Defined.

(** ** The ledger, newest first *)

Lemma Date_leb_notLater a b : Date_leb a b = true <-> notLater a b.
Proof.
  unfold Date_leb, notLater.
  destruct (Z.ltb_spec (d_year a) (d_year b)); [split; [lia|reflexivity]|].
  destruct (Z.ltb_spec (d_year b) (d_year a)); [split; [discriminate|lia]|].
  destruct (Z.ltb_spec (d_month a) (d_month b)); [split; [lia|reflexivity]|].
  destruct (Z.ltb_spec (d_month b) (d_month a)); [split; [discriminate|lia]|].
  destruct (Z.ltb_spec (d_day a) (d_day b)); [split; [lia|reflexivity]|].
  destruct (Z.ltb_spec (d_day b) (d_day a)); [split; [discriminate|lia]|].
  destruct (Z.leb_spec (d_ms a) (d_ms b)); split; try discriminate; try reflexivity; lia.
Qed.

Lemma Date_leb_total a b : Date_leb a b = false -> Date_leb b a = true.
Proof.
  intros H. apply Date_leb_notLater.
  assert (N : ~ notLater a b).
  { intros L. apply Date_leb_notLater in L. congruence. }
  unfold notLater in *. lia.
Qed.

Lemma Date_leb_trans a b c :
  Date_leb a b = true -> Date_leb b c = true -> Date_leb a c = true.
Proof.
  rewrite !Date_leb_notLater. unfold notLater. lia.
Qed.

Lemma sameDate_later y x d :
  sameDate (Fine.date x) d = true ->
  Date_leb (Fine.date y) (Fine.date x) = false ->
  sameDate (Fine.date y) d = false.
Proof.
  unfold sameDate. intros S L. apply andb_true_iff in S. destruct S as [S1 S2].
  apply andb_false_iff. left.
  destruct (Date_leb (Fine.date y) d) eqn:E; [|reflexivity].
  rewrite (Date_leb_trans _ _ _ E S2) in L. discriminate.
Qed.

Lemma insertNewestFirst_perm x l : Permutation (x :: l) (insertNewestFirst x l).
Proof.
  induction l as [|y l IH]; cbn [insertNewestFirst]; [reflexivity|].
  destruct (Date_leb (Fine.date y) (Fine.date x)); [reflexivity|].
  rewrite perm_swap. now constructor.
Qed.

Lemma insertNewestFirst_sorted x l :
  StronglySorted (fun a b => Date_leb (Fine.date b) (Fine.date a) = true) l ->
  StronglySorted (fun a b => Date_leb (Fine.date b) (Fine.date a) = true)
                 (insertNewestFirst x l).
Proof.
  induction 1 as [|y l S IH A]; cbn [insertNewestFirst].
  - repeat constructor.
  - destruct (Date_leb (Fine.date y) (Fine.date x)) eqn:E.
    + constructor; [now constructor|]. constructor; [exact E|].
      rewrite Forall_forall in *. intros z I. eapply Date_leb_trans; [apply A, I|exact E].
    + constructor; [exact IH|].
      rewrite Forall_forall in *. intros z I.
      apply (Permutation_in _ (Permutation_sym (insertNewestFirst_perm x l))) in I.
      destruct I as [<-|I]; [now apply Date_leb_total|now apply A].
Qed.

Lemma insertNewestFirst_stable x l d :
  filter (fun f => sameDate (Fine.date f) d) (insertNewestFirst x l)
  = filter (fun f => sameDate (Fine.date f) d) (x :: l).
Proof.
  induction l as [|y l IH]; cbn [insertNewestFirst]; [reflexivity|].
  destruct (Date_leb (Fine.date y) (Fine.date x)) eqn:E; [reflexivity|].
  cbn [filter] in *. rewrite IH.
  destruct (sameDate (Fine.date x) d) eqn:Sx; [|reflexivity].
  now rewrite (sameDate_later y x d Sx E).
Qed.

Lemma sortNewestFirst_perm l : Permutation l (sortNewestFirst l).
Proof.
  induction l as [|x l IH]; cbn [sortNewestFirst fold_right]; [constructor|].
  fold (sortNewestFirst l).
  etransitivity; [apply perm_skip, IH|apply insertNewestFirst_perm].
Qed.

Lemma sortNewestFirst_sorted l :
  StronglySorted (fun a b => Date_leb (Fine.date b) (Fine.date a) = true)
                 (sortNewestFirst l).
Proof.
  induction l as [|x l IH]; cbn [sortNewestFirst fold_right]; [constructor|].
  now apply insertNewestFirst_sorted.
Qed.

Lemma sortNewestFirst_stable l d :
  filter (fun f => sameDate (Fine.date f) d) (sortNewestFirst l)
  = filter (fun f => sameDate (Fine.date f) d) l.
Proof.
  induction l as [|x l IH]; cbn [sortNewestFirst fold_right]; [reflexivity|].
  fold (sortNewestFirst l). rewrite insertNewestFirst_stable. cbn [filter].
  now rewrite IH.
Qed.

(** X8.  [getStudentFines] answers 404 for an unknown identifier and
    otherwise lists the student's ledger newest first: the list holds
    exactly the student's entries (it is a rearrangement of the ledger, so
    none is lost, added or repeated), every entry is at least as recent as
    all the entries after it, entries of the same instant keep the order
    they have in the ledger, and the count reported is the number of ledger
    entries. *)
Theorem fines_are_listed_newest_first :
  forall (db : Collection) (prn : string),
    match getStudentFines db prn with
    | Failure status message =>
        findOne db (toUpperCase prn) = None
        /\ status = 404 /\ message = notFoundMessage prn
    | Success status view =>
        exists student,
          findOne db (toUpperCase prn) = Some student
          /\ status = 200
          /\ fv_prn view = toUpperCase prn
          /\ Permutation (Student.fines student) (fv_fines view)
          /\ StronglySorted (fun a b => Date_leb (Fine.date b) (Fine.date a) = true)
                            (fv_fines view)
          /\ (forall d, filter (fun f => sameDate (Fine.date f) d) (fv_fines view)
                        = filter (fun f => sameDate (Fine.date f) d) (Student.fines student))
          /\ fv_fineCount view = length (Student.fines student)
    end.
Proof.
  intros db prn. unfold getStudentFines.
  destruct (findOne db (toUpperCase prn)) as [student|] eqn:F; [|repeat split].
  exists student. cbn [fv_prn fv_fines fv_fineCount].
  split; [reflexivity|]. split; [reflexivity|].
  split; [exact (findOne_prn _ _ _ F)|].
  split; [apply sortNewestFirst_perm|].
  split; [apply sortNewestFirst_sorted|].
  split; [intros d; apply sortNewestFirst_stable|].
  symmetry. apply Permutation_length, sortNewestFirst_perm.
Qed.

(** ** Deleting a student *)

Lemma findOne_removeDocument_other db p q :
  q <> p -> findOne (removeDocument db p) q = findOne db q.
Proof.
  intros N. unfold findOne. induction db as [|x rest IH]; cbn [removeDocument find]; auto.
  destruct (hasPrn p x) eqn:H.
  - unfold hasPrn in H. apply String.eqb_eq in H.
    unfold hasPrn at 2. destruct (String.eqb_spec (Student.prn x) q); [congruence|reflexivity].
  - cbn [find]. now rewrite IH.
Qed.

Lemma removeDocument_measure (f : Student.t -> Z) db p s :
  findOne db p = Some s ->
  sumZ (map f (removeDocument db p)) = sumZ (map f db) - f s
  /\ length db = S (length (removeDocument db p)).
Proof.
  unfold findOne. induction db as [|x rest IH]; cbn [find removeDocument]; [discriminate|].
  destruct (hasPrn p x).
  - intros [= ->]. cbn [map length]. rewrite sumZ_cons. split; [lia|reflexivity].
  - intros F. destruct (IH F) as [A B]. cbn [map length]. rewrite !sumZ_cons, A, <- B.
    split; [lia|reflexivity].
Qed.

Lemma findOne_removeDocument_unique db p :
  NoDup (map Student.prn db) -> findOne (removeDocument db p) p = None.
Proof.
  unfold findOne. induction db as [|x rest IH]; cbn [map removeDocument find]; auto.
  intros D. inversion D as [|? ? NI D']; subst.
  destruct (hasPrn p x) eqn:H.
  - unfold hasPrn in H. apply String.eqb_eq in H. subst p.
    destruct (find (hasPrn (Student.prn x)) rest) as [s|] eqn:F; [|reflexivity].
    exfalso. apply NI. apply findOne_known. now exists s.
  - cbn [find]. rewrite H. now apply IH.
Qed.

Lemma removeDocument_appended db doc :
  findOne db (Student.prn doc) = None ->
  removeDocument (db ++ [doc])%list (Student.prn doc) = db.
Proof.
  unfold findOne. induction db as [|x rest IH]; cbn [app removeDocument find].
  - intros _. unfold hasPrn. now rewrite String.eqb_refl.
  - destruct (hasPrn (Student.prn doc) x); [discriminate|].
    intros F. now rewrite IH.
Qed.

(** X9.  [deleteStudent] answers 404 and changes nothing when the
    upper-cased identifier finds no student.  Otherwise it answers 200 with
    the identifier and the name of the student found and removes that one
    document: the collection is one shorter, every other identifier finds
    what it found before, the identifier itself finds nothing any more when
    identifiers are unique, and the student's whole ledger leaves the total
    income of the financial summary. *)
Theorem deleteStudent_removes_one_student :
  forall (db : Collection) (prn : string),
    let PRN := toUpperCase prn in
    (findOne db PRN = None ->
     deleteStudent db prn = (Failure 404 (notFoundMessage prn), db))
    /\ (forall student,
          findOne db PRN = Some student ->
          fst (deleteStudent db prn) = Success 200 (PRN, Student.name student)
          /\ length db = S (length (snd (deleteStudent db prn)))
          /\ (forall q, q <> PRN ->
                findOne (snd (deleteStudent db prn)) q = findOne db q)
          /\ (NoDup (map Student.prn db) ->
              findOne (snd (deleteStudent db prn)) PRN = None)
          /\ (forall expenditures,
                totalIncome (getFinancialSummary (snd (deleteStudent db prn)) expenditures)
                = totalIncome (getFinancialSummary db expenditures) - ledgerTotal student)).
Proof.
  intros db prn PRN. unfold deleteStudent. fold PRN. split.
  - now intros ->.
  - intros student F. rewrite F. cbn [fst snd].
    destruct (removeDocument_measure ledgerTotal db PRN student F) as [I L].
    split; [now rewrite (findOne_prn _ _ _ F)|].
    split; [exact L|].
    split; [intros q N; now apply findOne_removeDocument_other|].
    split; [apply findOne_removeDocument_unique|].
    intros expenditures. unfold getFinancialSummary. cbn [totalIncome].
    rewrite !groupAll_total, !unwindFines_total. exact I.
Qed.

(** X10.  Deleting undoes creating: when an upload row creates a student
    (its identifier was not in the collection and the document is
    accepted), deleting that identifier afterwards gives back the collection
    as it was before the row. *)
Theorem delete_undoes_create validate b row :
  invalidRow row = false ->
  findOne (roster b) (valueOf (r_prn (resolveRow row))) = None ->
  validate (newDocument (studentDataOf (resolveRow row))) = None ->
  deleteStudent (roster (processRow validate b row)) (valueOf (r_prn (resolveRow row)))
  = (Success 200 (valueOf (r_prn (resolveRow row)), valueOf (r_name (resolveRow row))),
     roster b).
Proof.
  intros V F C.
  assert (U : toUpperCase (valueOf (r_prn (resolveRow row)))
              = valueOf (r_prn (resolveRow row))).
  { unfold resolveRow. cbn [r_prn].
    destruct (getValue row prnKeys); cbn [option_map valueOf];
      [apply toUpperCase_twice|reflexivity]. }
  assert (R : roster (processRow validate b row)
              = (roster b ++ [newDocument (studentDataOf (resolveRow row))])%list).
  { unfold processRow. unfold invalidRow in V. rewrite V.
    cbn [studentDataOf StudentData.prn]. rewrite F. unfold create. rewrite C.
    cbn [newDocument Student.prn studentDataOf StudentData.prn].
    now rewrite (findOne_None_existsb _ _ F). }
  unfold deleteStudent. rewrite U, R, findOne_app, F.
  unfold hasPrn. cbn [newDocument Student.prn Student.name studentDataOf
                      StudentData.prn StudentData.name].
  rewrite String.eqb_refl. f_equal.
  apply (removeDocument_appended (roster b) (newDocument (studentDataOf (resolveRow row)))).
  exact F.
Qed.

Lemma delete_undoes_create_witness :
  deleteStudent (roster (processRow acceptAll (startBatch sampleRoster) newRow)) "C9D8"
  = (Success 200 ("C9D8", "Binod Kale"), sampleRoster).
Proof.
  exact (delete_undoes_create acceptAll (startBatch sampleRoster) newRow
           eq_refl eq_refl eq_refl).
Defined.

(** ** Locating the header row *)

Lemma scanHeader_found budget i noise header data :
  (length noise < budget)%nat ->
  Forall (fun line => looksLikeHeader line = false) noise ->
  looksLikeHeader header = true ->
  scanHeader budget i (noise ++ header :: data)%list = Some (i + length noise)%nat.
Proof.
  revert budget i. induction noise as [|line noise IH]; intros budget i B N H.
  - destruct budget; [cbn in B; lia|]. cbn [app scanHeader length]. rewrite H.
    f_equal. lia.
  - destruct budget; [cbn in B; lia|]. inversion N as [|? ? Hl N']; subst.
    cbn [app scanHeader length]. cbn [length] in B.
    rewrite Hl, IH by (auto; lia). f_equal. lia.
Qed.

Lemma scanHeader_Some budget i lines k :
  scanHeader budget i lines = Some k ->
  (i <= k < i + budget)%nat
  /\ (k - i < length lines)%nat
  /\ (exists line, nth_error lines (k - i) = Some line /\ looksLikeHeader line = true)
  /\ Forall (fun line => looksLikeHeader line = false) (firstn (k - i) lines).
Proof.
  revert i lines. induction budget as [|budget IH]; intros i [|line rest] H;
    cbn [scanHeader] in H; try discriminate.
  destruct (looksLikeHeader line) eqn:E.
  - injection H as <-. replace (i - i)%nat with 0%nat by lia.
    cbn [length nth_error firstn]. repeat split; try lia; eauto.
  - destruct (IH _ _ H) as (B & L & (l & N & Hl) & F).
    replace (k - i)%nat with (S (k - S i)) by lia.
    cbn [length nth_error firstn]. repeat split; try lia; eauto.
Qed.

Lemma scanHeader_None budget i lines :
  scanHeader budget i lines = None <->
  Forall (fun line => looksLikeHeader line = false) (firstn budget lines).
Proof.
  revert i lines. induction budget as [|budget IH]; intros i [|line rest];
    cbn [scanHeader firstn]; try (split; [constructor|reflexivity]).
  destruct (looksLikeHeader line) eqn:E.
  - split; [discriminate|]. intros F. inversion F; congruence.
  - rewrite IH. split; [now constructor|]. intros F. now inversion F.
Qed.

(** X11.  A header behind at most four non-blank lines of preamble is
    found: when none of those lines passes the header test and the header
    does, parsing starts at the header, with exactly the preamble
    discarded. *)
Theorem header_found_after_noise noise header data :
  (length noise <= 4)%nat ->
  Forall (fun line => looksLikeHeader line = false) noise ->
  looksLikeHeader header = true ->
  headerRowIndex (noise ++ header :: data)%list = length noise
  /\ skipn (headerRowIndex (noise ++ header :: data)%list) (noise ++ header :: data)%list
     = (header :: data)%list.
Proof.
  intros B N H.
  assert (E : headerRowIndex (noise ++ header :: data)%list = length noise).
  { unfold headerRowIndex. rewrite (scanHeader_found 5 0 noise header data); auto. lia. }
  split; [exact E|]. rewrite E.
  rewrite skipn_app, skipn_all, Nat.sub_diag. reflexivity.
Qed.

Lemma header_found_after_noise_witness :
  contentLines sampleFile
  = ["Zeal College"; "Division B,"; "Academic Year 2023-24";
     "Sr. No,PRN  Number,Student Name"; "1,a1b2,Asha Rao"]
  /\ headerRowIndex (contentLines sampleFile) = 3%nat.
Proof.
  split; [reflexivity|].
  refine (proj1 (header_found_after_noise
                   ["Zeal College"; "Division B,"; "Academic Year 2023-24"]
                   "Sr. No,PRN  Number,Student Name" ["1,a1b2,Asha Rao"] _ _ eq_refl)).
  - cbn. lia.
  - repeat constructor.
Defined.

(** X12.  The header scan looks at the first five non-blank lines only.  The
    index it returns is below five and, unless there is no line at all,
    below the number of lines; when it is not zero, the line it points at
    passes the header test and no earlier line does.  When none of the
    first five lines passes the test the index is zero, so that nothing is
    discarded and the first line is taken for the header, wherever a real
    header may stand further down. *)
Theorem header_scan_window :
  forall lines : list string,
    (headerRowIndex lines < 5)%nat
    /\ (lines <> [] -> (headerRowIndex lines < length lines)%nat)
    /\ (headerRowIndex lines <> 0%nat ->
        (exists line, nth_error lines (headerRowIndex lines) = Some line
                      /\ looksLikeHeader line = true)
        /\ Forall (fun line => looksLikeHeader line = false)
                  (firstn (headerRowIndex lines) lines))
    /\ (Forall (fun line => looksLikeHeader line = false) (firstn 5 lines) ->
        headerRowIndex lines = 0%nat
        /\ skipn (headerRowIndex lines) lines = lines).
Proof.
  intros lines. unfold headerRowIndex.
  destruct (scanHeader 5 0 lines) as [k|] eqn:S.
  - destruct (scanHeader_Some _ _ _ _ S) as (B & L & N & F).
    rewrite Nat.sub_0_r in *.
    split; [lia|]. split; [intros _; exact L|]. split; [intros _; split; assumption|].
    intros A. apply scanHeader_None with (i := 0%nat) in A. congruence.
  - split; [lia|]. split.
    + intros N. destruct lines; [congruence|cbn; lia].
    + split; [intros N; congruence|]. intros _. split; reflexivity.
Qed.

(** ** Naming the columns *)

Lemma singleSpaced_collapse b s : singleSpaced b (collapseSeparators b s) = true.
Proof.
  revert b. induction s as [|c s IH]; intros b; cbn [collapseSeparators]; [reflexivity|].
  destruct (isSeparator c) eqn:E.
  - destruct b; [apply IH|]. cbn [singleSpaced]. now rewrite (IH true).
  - cbn [singleSpaced]. rewrite E. apply IH.
Qed.

Lemma collapse_singleSpaced b s :
  singleSpaced b s = true -> collapseSeparators b s = s.
Proof.
  revert b. induction s as [|c s IH]; intros b; cbn [singleSpaced collapseSeparators];
    [reflexivity|].
  destruct (isSeparator c).
  - intros H. apply andb_true_iff in H. destruct H as [H S].
    apply andb_true_iff in H. destruct H as [C B].
    apply negb_true_iff in B. subst b. apply Ascii.eqb_eq in C. subst c.
    now rewrite (IH true S).
  - intros H. now rewrite (IH false H).
Qed.

Lemma singleSpaced_weaken b s : singleSpaced b s = true -> singleSpaced false s = true.
Proof.
  destruct s as [|c s]; cbn [singleSpaced]; auto.
  destruct (isSeparator c); auto.
  intros H. apply andb_true_iff in H. destruct H as [H S].
  apply andb_true_iff in H. destruct H as [C _]. now rewrite C, S.
Qed.

Lemma isWhiteSpace_isSeparator c : isWhiteSpace c = true -> isSeparator c = true.
Proof. unfold isSeparator. intros ->. apply orb_true_r. Qed.

Lemma singleSpaced_trimStart b s :
  singleSpaced b s = true -> singleSpaced false (trimStart s) = true.
Proof.
  revert b. induction s as [|c s IH]; intros b H; cbn [trimStart]; [reflexivity|].
  destruct (isWhiteSpace c) eqn:W.
  - cbn [singleSpaced] in H. rewrite (isWhiteSpace_isSeparator _ W) in H.
    apply andb_true_iff in H. destruct H as [_ S]. exact (IH true S).
  - exact (singleSpaced_weaken _ _ H).
Qed.

Lemma singleSpaced_trimEnd b s :
  singleSpaced b s = true -> singleSpaced b (trimEnd s) = true.
Proof.
  revert b. induction s as [|c s IH]; intros b H; cbn [trimEnd]; [reflexivity|].
  cbn [singleSpaced] in H.
  destruct (trimEnd s) as [|c' t] eqn:T.
  - destruct (isWhiteSpace c) eqn:W; [reflexivity|].
    cbn [singleSpaced]. destruct (isSeparator c); [|reflexivity].
    apply andb_true_iff in H. destruct H as [H _]. now rewrite H.
  - cbn [singleSpaced]. destruct (isSeparator c).
    + apply andb_true_iff in H. destruct H as [H S]. rewrite H. exact (IH true S).
    + exact (IH false H).
Qed.

Lemma allChars_trimStart p s : allChars p s = true -> allChars p (trimStart s) = true.
Proof.
  induction s as [|c s IH]; cbn [trimStart]; auto.
  intros H. destruct (isWhiteSpace c); auto.
  cbn [allChars] in H. apply andb_true_iff in H. now apply IH.
Qed.

Lemma allChars_trimEnd p s : allChars p s = true -> allChars p (trimEnd s) = true.
Proof.
  induction s as [|c s IH]; cbn [trimEnd allChars]; auto.
  intros H. apply andb_true_iff in H. destruct H as [C S].
  destruct (trimEnd s) as [|c' t].
  - destruct (isWhiteSpace c); cbn [allChars]; auto. now rewrite C.
  - cbn [allChars] in *. now rewrite C, (IH S).
Qed.

Lemma lowerChar_not_upper c : isUpperChar (lowerChar c) = false.
Proof.
  unfold lowerChar, isUpperChar.
  destruct ((65 <=? N_of_ascii c)%N && (N_of_ascii c <=? 90)%N) eqn:E; [|exact E].
  apply andb_true_iff in E. destruct E as [A B]. apply N.leb_le in A, B.
  rewrite N_ascii_embedding by lia.
  apply andb_false_iff. right. apply N.leb_gt. lia.
Qed.

Lemma toLowerCase_no_upper s :
  allChars (fun c => negb (isUpperChar c)) (toLowerCase s) = true.
Proof.
  induction s as [|c s IH]; cbn [toLowerCase allChars]; auto.
  now rewrite lowerChar_not_upper, IH.
Qed.

Lemma toLowerCase_fixed s :
  allChars (fun c => negb (isUpperChar c)) s = true -> toLowerCase s = s.
Proof.
  induction s as [|c s IH]; cbn [toLowerCase allChars]; auto.
  intros H. apply andb_true_iff in H. destruct H as [C S].
  rewrite (IH S). f_equal. unfold lowerChar. unfold isUpperChar in C.
  apply negb_true_iff in C. now rewrite C.
Qed.

Lemma collapse_no_upper b s :
  allChars (fun c => negb (isUpperChar c)) s = true ->
  allChars (fun c => negb (isUpperChar c)) (collapseSeparators b s) = true.
Proof.
  revert b. induction s as [|c s IH]; intros b; cbn [collapseSeparators allChars]; auto.
  intros H. apply andb_true_iff in H. destruct H as [C S].
  destruct (isSeparator c).
  - destruct b; [now apply IH|]. cbn [allChars]. now rewrite IH.
  - cbn [allChars]. now rewrite C, IH.
Qed.

Lemma trimStart_fixed s :
  (forall c, firstChar s = Some c -> isWhiteSpace c = false) -> trimStart s = s.
Proof.
  destruct s as [|c s]; cbn [trimStart firstChar]; auto.
  intros H. now rewrite (H c eq_refl).
Qed.

Lemma trimEnd_fixed s :
  (forall c, lastChar s = Some c -> isWhiteSpace c = false) -> trimEnd s = s.
Proof.
  induction s as [|c s IH]; cbn [trimEnd]; auto.
  intros H. destruct s as [|c' s'].
  - cbn [trimEnd]. now rewrite (H c eq_refl).
  - rewrite IH by (intros x L; apply H; exact L). reflexivity.
Qed.

Lemma trim_fixed s : isTrimmed s -> trim s = s.
Proof.
  intros [F L]. unfold trim. rewrite (trimStart_fixed s F). now apply trimEnd_fixed.
Qed.

Lemma singleSpaced_no_dot b s :
  singleSpaced b s = true -> allChars (fun c => negb (Ascii.eqb c ".")) s = true.
Proof.
  revert b. induction s as [|c s IH]; intros b; cbn [singleSpaced allChars]; auto.
  destruct (isSeparator c) eqn:E.
  - intros H. apply andb_true_iff in H. destruct H as [H S].
    apply andb_true_iff in H. destruct H as [C _]. apply Ascii.eqb_eq in C. subst c.
    now rewrite (IH true S).
  - intros H. rewrite (IH false H). unfold isSeparator in E.
    apply orb_false_iff in E. destruct E as [E _]. now rewrite E.
Qed.

(** X13.  Header normalization is idempotent and yields a canonical
    spelling: the normalized header has no surrounding whitespace, no
    upper-case letter and no dot, and its only whitespace is single spaces;
    every string of that shape is its own normalization.  So each column
    name the row objects carry is in that shape, whatever the spelling in
    the file. *)
Theorem header_normalization :
  forall header : string,
    mapHeaders (mapHeaders header) = mapHeaders header
    /\ isTrimmed (mapHeaders header)
    /\ allChars (fun c => negb (isUpperChar c)) (mapHeaders header) = true
    /\ allChars (fun c => negb (Ascii.eqb c ".")) (mapHeaders header) = true
    /\ singleSpaced false (mapHeaders header) = true
    /\ (isTrimmed header ->
        allChars (fun c => negb (isUpperChar c)) header = true ->
        singleSpaced false header = true ->
        mapHeaders header = header).
Proof.
  assert (Fix : forall s, isTrimmed s ->
                  allChars (fun c => negb (isUpperChar c)) s = true ->
                  singleSpaced false s = true -> mapHeaders s = s).
  { intros s T U S. unfold mapHeaders.
    now rewrite (trim_fixed s T), (toLowerCase_fixed s U), (collapse_singleSpaced _ _ S),
      (trim_fixed s T). }
  intros header.
  assert (T : isTrimmed (mapHeaders header)) by apply trim_isTrimmed.
  assert (U : allChars (fun c => negb (isUpperChar c)) (mapHeaders header) = true).
  { unfold mapHeaders, trim. apply allChars_trimEnd, allChars_trimStart, collapse_no_upper,
      toLowerCase_no_upper. }
  assert (S : singleSpaced false (mapHeaders header) = true).
  { unfold mapHeaders, trim. apply singleSpaced_trimEnd.
    apply (singleSpaced_trimStart false). apply singleSpaced_collapse. }
  split; [now apply Fix|]. split; [exact T|]. split; [exact U|].
  split; [exact (singleSpaced_no_dot _ _ S)|]. split; [exact S|apply Fix].
Qed.

(** ** The yearly totals and the statistics *)

Lemma inYearSpan_month year d :
  inYearSpan year d = true -> d_year d = year /\ 1 <= d_month d <= 12.
Proof.
  unfold inYearSpan. intros H. apply andb_true_iff in H. destruct H as [A B].
  apply Date_leb_notLater in A, B. unfold notLater, yearStart, yearEnd in *.
  cbn [d_year d_month d_day d_ms] in *. lia.
Qed.

Lemma sumZ_one_month (g : Z -> Z) (a k : Z) :
  1 <= k <= 12 ->
  sumZ (map (fun m => (if k =? m then a else 0) + g m) monthNumbers)
  = a + sumZ (map g monthNumbers).
Proof.
  intros K.
  assert (C : k = 1 \/ k = 2 \/ k = 3 \/ k = 4 \/ k = 5 \/ k = 6 \/ k = 7 \/ k = 8
              \/ k = 9 \/ k = 10 \/ k = 11 \/ k = 12) by lia.
  unfold monthNumbers. cbn [map]. rewrite !sumZ_cons.
  repeat (destruct C as [->|C]; [cbn; lia|]). subst k. cbn. lia.
Qed.

Lemma months_partition {A : Type} (date : A -> Date) (amount : A -> Z) year (l : list A) :
  sumZ (map (fun m => sumZ (map amount (filter (fun x => inMonth year m (date x)) l)))
            monthNumbers)
  = sumZ (map amount (filter (fun x => inYearSpan year (date x)) l)).
Proof.
  induction l as [|x l IH]; [reflexivity|]. cbn [filter].
  destruct (inYearSpan year (date x)) eqn:S.
  - cbn [map]. rewrite sumZ_cons, <- IH.
    rewrite <- (sumZ_one_month _ (amount x) (d_month (date x)))
      by (apply (inYearSpan_month year), S).
    f_equal. apply map_ext. intros m. unfold inMonth. rewrite S. cbn [andb].
    destruct (d_month (date x) =? m); [cbn [map]; now rewrite sumZ_cons|reflexivity].
  - rewrite <- IH. f_equal. apply map_ext. intros m. unfold inMonth. now rewrite S.
Qed.

Lemma report_incomes year students expenditures names i :
  map income (mapIndexed (monthRow (monthlyIncome year students)
                                   (monthlyExpenditure year expenditures)) i names)
  = map (fun k => monthIncome year (Z.of_nat k + 1) students) (seq i (length names))
  /\ map expenditure (mapIndexed (monthRow (monthlyIncome year students)
                                           (monthlyExpenditure year expenditures)) i names)
     = map (fun k => monthSpent year (Z.of_nat k + 1) expenditures) (seq i (length names)).
Proof.
  revert i. induction names as [|name names IH]; intros i; [split; reflexivity|].
  cbn [mapIndexed map length seq]. destruct (IH (S i)) as [A B]. rewrite A, B.
  destruct (monthRow_values year students expenditures i name) as (I & E & _).
  now rewrite I, E.
Qed.

(** X14.  The yearly totals of the monthly report lose and repeat nothing:
    total income is the sum of the amounts of all ledger entries whose date
    passes the year filter, total expenditure the sum over all expenditure
    records that pass it, and the total balance their difference.  When
    every ledger entry passes the filter, the yearly income is the total
    income of the financial summary.  All this is for a report of a
    four-digit year. *)
Theorem yearly_totals_cover_the_year :
  forall (year : Z) (students : Collection) (expenditures : list Expenditure.t),
    fourDigitYear year ->
    let r := getMonthlyReport year students expenditures in
    yt_totalIncome (yearlyTotals r)
    = sumZ (map Fine.amount
              (filter (fun f => inYearSpan year (Fine.date f)) (unwindFines students)))
    /\ yt_totalExpenditure (yearlyTotals r)
       = sumZ (map Expenditure.amount
                 (filter (fun e => inYearSpan year (Expenditure.date e)) expenditures))
    /\ yt_totalBalance (yearlyTotals r)
       = yt_totalIncome (yearlyTotals r) - yt_totalExpenditure (yearlyTotals r)
    /\ ((forall f, In f (unwindFines students) -> inYearSpan year (Fine.date f) = true) ->
        yt_totalIncome (yearlyTotals r)
        = totalIncome (getFinancialSummary students expenditures)).
Proof.
  intros year students expenditures _ r.
  destruct (report_incomes year students expenditures months 0) as [RI RE].
  assert (I : yt_totalIncome (yearlyTotals r)
              = sumZ (map Fine.amount
                        (filter (fun f => inYearSpan year (Fine.date f))
                                (unwindFines students)))).
  { unfold r, getMonthlyReport. cbn [yearlyTotals yt_totalIncome].
    rewrite fold_left_sum, RI, <- (months_partition Fine.date Fine.amount). reflexivity. }
  assert (E : yt_totalExpenditure (yearlyTotals r)
              = sumZ (map Expenditure.amount
                        (filter (fun e => inYearSpan year (Expenditure.date e))
                                expenditures))).
  { unfold r, getMonthlyReport. cbn [yearlyTotals yt_totalExpenditure].
    rewrite fold_left_sum, RE, <- (months_partition Expenditure.date Expenditure.amount).
    reflexivity. }
  split; [exact I|]. split; [exact E|].
  split.
  { unfold r, getMonthlyReport. cbn [yearlyTotals yt_totalIncome yt_totalExpenditure
                                      yt_totalBalance].
    rewrite !fold_left_sum.
    rewrite (sumZ_difference income expenditure monthBalance); [lia|].
    intros row In_row. apply In_mapIndexed in In_row.
    destruct In_row as (index & name & ->). reflexivity. }
  intros All. rewrite I. unfold getFinancialSummary. cbn [totalIncome].
  rewrite groupAll_total. f_equal. f_equal.
  apply forallb_filter_id. apply forallb_forall. exact All.
Qed.

Lemma yearly_totals_cover_the_year_witness :
  yt_totalIncome (yearlyTotals (getMonthlyReport 2024 [twoEntryStudent; decemberStudent] []))
  = 80
  /\ yt_totalIncome (yearlyTotals (getMonthlyReport 2024 [twoEntryStudent] []))
     = totalIncome (getFinancialSummary [twoEntryStudent] []).
Proof.
  assert (Y : fourDigitYear 2024) by (unfold fourDigitYear; lia).
  split.
  - rewrite (proj1 (yearly_totals_cover_the_year 2024 [twoEntryStudent; decemberStudent]
                      [] Y)).
    reflexivity.
  - apply (yearly_totals_cover_the_year 2024 [twoEntryStudent] [] Y).
    intros f [<-|[<-|[]]]; reflexivity.
Defined.

Lemma groupAll_count (students : Collection) :
  firstOrZero (groupAll (fun s => Z.of_nat (length (Student.fines s))) students)
  = Z.of_nat (length (unwindFines students)).
Proof.
  rewrite groupAll_total. unfold unwindFines.
  induction students as [|s students IH]; [reflexivity|].
  cbn [map flat_map]. rewrite sumZ_cons, IH, length_app. lia.
Qed.

Lemma studentsWithFines_bound (students : Collection) :
  (length (filter hasFines students) <= length students)%nat
  /\ (length (filter hasFines students) <= length (unwindFines students))%nat
  /\ (length (unwindFines students) = 0%nat -> length (filter hasFines students) = 0%nat).
Proof.
  unfold unwindFines.
  induction students as [|s students (A & B & C)]; [cbn; repeat split; lia|].
  cbn [filter flat_map]. rewrite length_app.
  assert (H : hasFines s = match Student.fines s with [] => false | _ => true end)
    by reflexivity.
  rewrite H. destruct (Student.fines s) as [|f fs]; cbn [length app].
  - repeat split; try lia.
  - repeat split; try lia.
Qed.

(** X15.  The statistics of the financial summary agree with one another
    and with the collections: the number of entries is the number of
    ledger entries of all students, the number of students with entries is
    at most the number of students and at most the number of entries, and
    it is zero, like total income, when there is no entry; the number of
    expenditures is the number of expenditure records. *)
Theorem summary_statistics_are_consistent :
  forall (students : Collection) (expenditures : list Expenditure.t),
    let s := getFinancialSummary students expenditures in
    totalFines s = Z.of_nat (length (unwindFines students))
    /\ totalStudents s = length students
    /\ totalExpenditures s = length expenditures
    /\ (studentsWithFines s <= totalStudents s)%nat
    /\ Z.of_nat (studentsWithFines s) <= totalFines s
    /\ (totalFines s = 0 -> studentsWithFines s = 0%nat /\ totalIncome s = 0).
Proof.
  intros students expenditures s.
  assert (T : totalFines s = Z.of_nat (length (unwindFines students)))
    by apply groupAll_count.
  destruct (studentsWithFines_bound students) as (A & B & C).
  change (studentsWithFines s) with (length (filter hasFines students)).
  change (totalStudents s) with (length students).
  split; [exact T|]. split; [reflexivity|]. split; [reflexivity|].
  split; [exact A|]. split; [lia|].
  intros Z0. split; [apply C; lia|].
  unfold s, getFinancialSummary. cbn [totalIncome]. rewrite groupAll_total.
  destruct (unwindFines students); [reflexivity|cbn [length] in *; lia].
Qed.

(** ** Paginated listings *)

Lemma ceilDiv_floor total limit :
  limit <> 0 -> ceilDiv total limit = - ((- total) / limit).
Proof.
  intros N. unfold ceilDiv, Qceiling. f_equal.
  rewrite Zdiv_Qdiv. apply Qfloor_comp.
  rewrite inject_Z_opp. field.
  intros H. apply N. now apply inject_Z_injective.
Qed.

Lemma ceilDiv_bounds total limit :
  0 < limit ->
  (ceilDiv total limit - 1) * limit < total <= ceilDiv total limit * limit.
Proof.
  intros L. rewrite ceilDiv_floor by lia.
  pose proof (Z.div_mod (- total) limit ltac:(lia)) as D.
  pose proof (Z.mod_pos_bound (- total) limit L) as B.
  nia.
Qed.

(** X16.  The pagination both listings report.  An absent, unparsable or
    zero page is page 1 and such a limit is 10.  For a page and a limit of
    at least 1, [totalPages] is the least number of pages of that size that
    hold all matching documents (zero when there is none), [hasNextPage] is
    true exactly when the page is before the last one, which is exactly
    when documents remain after it, and [hasPrevPage] exactly when the page
    is after the first. *)
Theorem pagination_is_consistent :
  forall (A : Type) (matching : list A) (fetch : Z -> Z -> list A)
         (queryPage queryLimit : option Z),
    let page := parseOr queryPage 1 in
    let limit := parseOr queryLimit 10 in
    let total := Z.of_nat (length matching) in
    let p := snd (listPage A matching fetch queryPage queryLimit) in
    fst (listPage A matching fetch queryPage queryLimit) = fetch ((page - 1) * limit) limit
    /\ currentPage p = page /\ totalDocuments p = total
    /\ page <> 0 /\ limit <> 0
    /\ (queryPage = None \/ queryPage = Some 0 -> page = 1)
    /\ (queryLimit = None \/ queryLimit = Some 0 -> limit = 10)
    /\ (0 < limit -> 1 <= page ->
        (totalPages p - 1) * limit < total <= totalPages p * limit
        /\ 0 <= totalPages p
        /\ (total = 0 -> totalPages p = 0)
        /\ (hasNextPage p = true <-> page < totalPages p)
        /\ (hasNextPage p = true <-> (page - 1) * limit + limit < total)
        /\ (hasPrevPage p = true <-> 1 < page)).
Proof.
  intros A matching fetch queryPage queryLimit page limit total p.
  assert (T : 0 <= total) by (unfold total; lia).
  assert (Np : page <> 0).
  { unfold page, parseOr. destruct queryPage as [n|]; [|lia].
    destruct (Z.eqb_spec n 0); lia. }
  assert (Nl : limit <> 0).
  { unfold limit, parseOr. destruct queryLimit as [n|]; [|lia].
    destruct (Z.eqb_spec n 0); lia. }
  change (totalPages p) with (ceilDiv total limit).
  change (hasNextPage p) with (page * limit <? total).
  change (hasPrevPage p) with (1 <? page).
  split; [reflexivity|]. split; [reflexivity|]. split; [reflexivity|].
  split; [exact Np|]. split; [exact Nl|].
  split; [intros [->| ->]; reflexivity|].
  split; [intros [->| ->]; reflexivity|].
  intros L P. pose proof (ceilDiv_bounds total limit L) as B.
  split; [exact B|]. split; [nia|]. split; [intros Z0; nia|].
  rewrite !Z.ltb_lt. repeat split; intros; nia.
Qed.

Lemma firstn_add {A : Type} (a b : nat) (l : list A) :
  firstn (a + b) l = (firstn a l ++ firstn b (skipn a l))%list.
Proof.
  revert l. induction a as [|a IH]; intros [|x l]; cbn [Nat.add firstn skipn app]; auto.
  - now destruct b.
  - now rewrite IH.
Qed.

Lemma windows_concat {A : Type} (l : list A) (size n : nat) :
  concat (map (fun k => firstn size (skipn (k * size) l)) (seq 0 n)) = firstn (n * size) l.
Proof.
  induction n as [|n IH]; [reflexivity|].
  rewrite seq_S, map_app, concat_app, IH. cbn [map concat Nat.add].
  rewrite app_nil_r. replace (S n * size)%nat with (n * size + size)%nat by lia.
  now rewrite firstn_add.
Qed.

(** X17.  The pages of a listing tile the matching documents.  When the
    database answers a skip and a limit with that window of the matching
    documents, then for a limit of at least 1: a page from 1 on holds at
    most [limit] documents, it is empty exactly when it lies after the last
    page, [hasNextPage] is true exactly when documents follow it, and the
    pages 1 to [totalPages], one after the other, are exactly the matching
    documents in their order. *)
Theorem pages_tile_the_listing (A : Type) (matching : list A) (fetch : Z -> Z -> list A) :
  (forall skip limit, 0 <= skip -> 0 < limit -> fetch skip limit = window matching skip limit) ->
  forall limit : Z,
    1 <= limit ->
    let pageOf := fun page : Z => listPage A matching fetch (Some page) (Some limit) in
    (forall page, 1 <= page ->
        fst (pageOf page) = window matching ((page - 1) * limit) limit
        /\ Z.of_nat (length (fst (pageOf page))) <= limit
        /\ (fst (pageOf page) = [] <-> totalPages (snd (pageOf page)) < page)
        /\ (hasNextPage (snd (pageOf page)) = true
            <-> skipn (Z.to_nat (page * limit)) matching <> []))
    /\ concat (map (fun k => fst (pageOf (Z.of_nat k + 1)))
                   (seq 0 (Z.to_nat (ceilDiv (Z.of_nat (length matching)) limit))))
       = matching.
Proof.
  intros W limit L pageOf.
  assert (Pl : parseOr (Some limit) 10 = limit).
  { unfold parseOr. destruct (Z.eqb_spec limit 0); [lia|reflexivity]. }
  assert (Pp : forall page, 1 <= page -> parseOr (Some page) 1 = page).
  { intros page P. unfold parseOr. destruct (Z.eqb_spec page 0); [lia|reflexivity]. }
  assert (F : forall page, 1 <= page ->
                fst (pageOf page) = window matching ((page - 1) * limit) limit).
  { intros page P. unfold pageOf, listPage. cbn [fst]. rewrite Pl, (Pp page P).
    apply W; nia. }
  pose proof (ceilDiv_bounds (Z.of_nat (length matching)) limit ltac:(lia)) as B.
  split.
  - intros page P. rewrite (F page P). unfold window.
    split; [reflexivity|]. split.
    { rewrite length_firstn. lia. }
    unfold pageOf, listPage. cbn [snd]. rewrite Pl, (Pp page P).
    change (totalPages (paginationOf page limit (Z.of_nat (length matching))))
      with (ceilDiv (Z.of_nat (length matching)) limit).
    change (hasNextPage (paginationOf page limit (Z.of_nat (length matching))))
      with (page * limit <? Z.of_nat (length matching)).
    split.
    + split.
      * intros E. apply (f_equal (@length A)) in E.
        rewrite length_firstn, length_skipn in E. cbn [length] in E. nia.
      * intros G. apply length_zero_iff_nil. rewrite length_firstn, length_skipn. nia.
    + rewrite Z.ltb_lt. split.
      * intros G E. apply (f_equal (@length A)) in E. rewrite length_skipn in E.
        cbn [length] in E. nia.
      * intros G. destruct (Z.lt_ge_cases (page * limit) (Z.of_nat (length matching)))
          as [|Ge]; [assumption|].
        exfalso. apply G. apply length_zero_iff_nil. rewrite length_skipn. nia.
  - set (n := Z.to_nat (ceilDiv (Z.of_nat (length matching)) limit)).
    transitivity (concat (map (fun k => firstn (Z.to_nat limit)
                                          (skipn (k * Z.to_nat limit) matching))
                              (seq 0 n))).
    + f_equal. apply map_ext. intros k. rewrite F by lia. unfold window.
      do 2 f_equal. nia.
    + rewrite windows_concat. apply firstn_all2. unfold n. nia.
Qed.

Lemma pages_tile_the_listing_witness :
  concat (map (fun k => fst (listPage Z [10; 20; 30; 40; 50] (window [10; 20; 30; 40; 50])
                               (Some (Z.of_nat k + 1)) (Some 2)))
              (seq 0 (Z.to_nat (ceilDiv 5 2))))
  = [10; 20; 30; 40; 50].
Proof.
  exact (proj2 (pages_tile_the_listing Z [10; 20; 30; 40; 50] (window [10; 20; 30; 40; 50])
                  (fun skip limit _ _ => eq_refl) 2 ltac:(lia))).
Defined.

(** ** Recording expenditures *)

Lemma summary_expenditure (students : Collection) (expenditures : list Expenditure.t) :
  let s := getFinancialSummary students expenditures in
  totalExpenditure s = expenditureOf expenditures
  /\ balance s = incomeOf students - expenditureOf expenditures
  /\ totalIncome s = incomeOf students
  /\ totalExpenditures s = length expenditures.
Proof.
  unfold getFinancialSummary.
  cbn [totalExpenditure balance totalIncome totalExpenditures].
  rewrite !groupAll_total, unwindFines_total. repeat split; reflexivity.
Qed.

Lemma findById_id (store : Store) (id : string) (e : StoredExpenditure) :
  findById store id = Some e -> exp_id e = id.
Proof.
  unfold findById. intros H. apply find_some in H. destruct H as [_ H].
  now apply String.eqb_eq in H.
Qed.

Lemma findById_In (store : Store) (id : string) (e : StoredExpenditure) :
  findById store id = Some e -> In e store.
Proof. unfold findById. intros H. now apply find_some in H. Qed.






Lemma removeStored_total (store : Store) (id : string) (old : StoredExpenditure) :
  findById store id = Some old ->
  expenditureOf (recordsOf store)
  = Expenditure.amount (exp_record old) + expenditureOf (recordsOf (removeStored store id))
  /\ length store = S (length (removeStored store id)).
Proof.
  unfold findById, expenditureOf, recordsOf.
  induction store as [|x store IH]; [discriminate|].
  cbn [find removeStored]. destruct (hasId id x) eqn:H.
  - intros E. injection E as <-. cbn [map length]. rewrite sumZ_cons. split; reflexivity.
  - intros E. destruct (IH E) as [A B]. cbn [map length]. rewrite !sumZ_cons, A, B.
    split; [lia|reflexivity].
Qed.

Lemma findById_removeStored_other (store : Store) (id id' : string) :
  id' <> id ->
  findById (removeStored store id) id' = findById store id'.
Proof.
  intros N. unfold findById.
  induction store as [|x store IH]; [reflexivity|].
  cbn [removeStored]. destruct (hasId id x) eqn:H.
  - cbn [find]. apply String.eqb_eq in H.
    assert (B : hasId id' x = false).
    { unfold hasId. apply String.eqb_neq. congruence. }
    now rewrite B.
  - cbn [find]. now rewrite IH.
Qed.

Lemma removeStored_appended (store : Store) (e : StoredExpenditure) :
  findById store (exp_id e) = None ->
  removeStored (store ++ [e])%list (exp_id e) = store.
Proof.
  unfold findById.
  induction store as [|x store IH].
  - intros _. cbn [app removeStored]. unfold hasId. now rewrite String.eqb_refl.
  - cbn [find app removeStored]. destruct (hasId (exp_id e) x) eqn:H; [discriminate|].
    intros E. now rewrite IH.
Qed.

Lemma findById_appended (store : Store) (e : StoredExpenditure) :
  findById store (exp_id e) = None ->
  findById (store ++ [e])%list (exp_id e) = Some e.
Proof.
  unfold findById.
  induction store as [|x store IH].
  - intros _. cbn [app find]. unfold hasId. now rewrite String.eqb_refl.
  - cbn [find app]. destruct (hasId (exp_id e) x) eqn:H; [discriminate|].
    intros E. now apply IH.
Qed.






Lemma findById_removeStored_unique (store : Store) (id : string) :
  NoDup (map exp_id store) -> findById (removeStored store id) id = None.
Proof.
  unfold findById.
  induction store as [|x store IH]; [reflexivity|].
  cbn [map removeStored]. intros N. inversion N as [|? ? NI N']; subst.
  destruct (hasId id x) eqn:H.
  - apply String.eqb_eq in H. subst id.
    destruct (find (hasId (exp_id x)) store) as [y|] eqn:F; [|reflexivity].
    exfalso. apply NI. apply find_some in F. destruct F as [In_y E].
    apply String.eqb_eq in E. rewrite <- E. now apply in_map.
  - cbn [find]. rewrite H. now apply IH.
Qed.

(** X20.  [deleteExpenditure] (lines 225-241).  An unknown identifier is
    answered with 404 and the store is left as it was.  Otherwise the call
    answers 200 with the identifier and the description of the first record
    that has the identifier, and removes exactly that record: the store is
    one record shorter, every record with another identifier is still found
    as before, and, identifiers being unique, the identifier is no longer
    found.  In the financial summary the total expenditure falls by the
    record's amount, the balance rises by it, the number of expenditures
    falls by one and the income is unchanged. *)
Theorem deleteExpenditure_removes_one_record :
  forall (store : Store) (id : string),
    let out := deleteExpenditure store id in
    (findById store id = None -> out = (Failure 404 expenditureNotFound, store))
    /\ (forall st message, fst out = Failure st message ->
          findById store id = None /\ snd out = store)
    /\ (forall st data, fst out = Success st data ->
          exists old,
            findById store id = Some old
            /\ In old store
            /\ st = 200
            /\ data = (id, Expenditure.description (exp_record old))
            /\ length store = S (length (snd out))
            /\ (forall id', id' <> id -> findById (snd out) id' = findById store id')
            /\ (NoDup (map exp_id store) -> findById (snd out) id = None)
            /\ forall students : Collection,
                 let before := getFinancialSummary students (recordsOf store) in
                 let after := getFinancialSummary students (recordsOf (snd out)) in
                 totalExpenditure after
                 = totalExpenditure before - Expenditure.amount (exp_record old)
                 /\ balance after = balance before + Expenditure.amount (exp_record old)
                 /\ totalIncome after = totalIncome before
                 /\ totalExpenditures before = S (totalExpenditures after)).
Proof.
  intros store id out. unfold deleteExpenditure in out.
  destruct (findById store id) as [old|] eqn:F; subst out.
  - split; [discriminate|]. split; [intros st message H; discriminate H|].
    intros st data H. cbn [fst snd] in *. injection H as <- <-.
    exists old. split; [reflexivity|].
    split; [now apply (findById_In store id)|]. split; [reflexivity|].
    split; [now rewrite (findById_id _ _ _ F)|].
    destruct (removeStored_total store id old F) as [T L].
    split; [exact L|].
    split; [intros id' N; now apply findById_removeStored_other|].
    split; [apply findById_removeStored_unique|].
    intros students. cbv zeta.
    destruct (summary_expenditure students (recordsOf store)) as (A1 & A2 & A3 & A4).
    destruct (summary_expenditure students (recordsOf (removeStored store id)))
      as (B1 & B2 & B3 & B4).
    rewrite A1, A2, A3, A4, B1, B2, B3, B4, T.
    unfold recordsOf. rewrite !length_map, L.
    repeat split; lia.
  - split; [reflexivity|]. split; [intros st message _; split; reflexivity|].
    intros st data H. discriminate H.
Qed.

(** X21.  Adding an expenditure under an identifier the store does not hold
    yet and then deleting that identifier gives the store back as it was;
    the deletion answers with the identifier and the stored, trimmed
    description. *)
Theorem delete_undoes_add :
  forall (validate : Expenditure.t -> option string)
         (stringToNumber : string -> option Z) (today : Date) (newId admin : string)
         (store : Store) (body : ExpenditureBody) (st : Z) (doc : StoredExpenditure),
    findById store newId = None ->
    fst (addExpenditure validate stringToNumber today newId admin store body)
    = Success st doc ->
    findById
      (snd (addExpenditure validate stringToNumber today newId admin store body)) newId
    = Some doc
    /\ deleteExpenditure
         (snd (addExpenditure validate stringToNumber today newId admin store body)) newId
       = (Success 200 (newId, Expenditure.description (exp_record doc)), store).
Proof.
  intros validate stn today newId admin store body st doc Fresh H.
  unfold addExpenditure in *.
  destruct (negb (truthyValue (eb_amount body)) || negb (truthyField (eb_description body)));
    [discriminate H|].
  destruct (toNumber stn (eb_amount body)) as [n|]; [|discriminate H].
  destruct (n <=? 0); [discriminate H|].
  cbv zeta in *.
  match type of H with
  | context [validate ?r] => set (record := r) in *
  end.
  destruct (validate record); [discriminate H|].
  cbn [fst snd] in *. injection H as <- <-.
  set (doc := mkStored newId admin record).
  assert (F : findById (store ++ [doc])%list newId = Some doc)
    by (apply (findById_appended store doc); exact Fresh).
  split; [exact F|].
  unfold deleteExpenditure. rewrite F. cbn [doc exp_id exp_record]. f_equal.
  apply (removeStored_appended store (mkStored newId admin record)). exact Fresh.
Qed.

Lemma delete_undoes_add_witness :
  findById [sampleStored] "e2" = None
  /\ fst (addExpenditure acceptAnyRecord numbersOnly (mkDate 2024 3 5 0) "e2" "admin1"
            [sampleStored] sampleBody)
     = Success 201
         (mkStored "e2" "admin1"
            {| Expenditure.amount := 120; Expenditure.description := "Projector lamp";
               Expenditure.category := "other"; Expenditure.department := Some "IT";
               Expenditure.date := mkDate 2024 3 5 0; Expenditure.receiptNumber := None;
               Expenditure.notes := None |})
  /\ deleteExpenditure
       (snd (addExpenditure acceptAnyRecord numbersOnly (mkDate 2024 3 5 0) "e2" "admin1"
               [sampleStored] sampleBody)) "e2"
     = (Success 200 ("e2", "Projector lamp"), [sampleStored]).
Proof.
  split; [reflexivity|]. split; [reflexivity|].
  exact (proj2 (delete_undoes_add acceptAnyRecord numbersOnly (mkDate 2024 3 5 0)
                  "e2" "admin1" [sampleStored] sampleBody 201 _ eq_refl eq_refl)).
Defined.

(** ** Several rows for one student *)

Lemma processRow_invalid validate b row :
  invalidRow row = true -> roster (processRow validate b row) = roster b.
Proof.
  intros V. unfold processRow. unfold invalidRow in V. cbv zeta. now rewrite V.
Qed.

Lemma processRow_other validate b row p :
  (invalidRow row = false -> rowPrn row <> p) ->
  findOne (roster (processRow validate b row)) p = findOne (roster b) p.
Proof.
  intros H. destruct (invalidRow row) eqn:V.
  - now rewrite processRow_invalid.
  - specialize (H eq_refl). unfold rowPrn in H.
    destruct (processRow_outcomes validate b row)
      as [(R & _)|[(x & F & R & _)|(_ & R & _)]]; rewrite R.
    + reflexivity.
    + rewrite (findOne_replaceDocument _ _ _ _ p F)
        by (rewrite updateExisting_prn; exact (findOne_prn _ _ _ F)).
      destruct (String.eqb_spec (StudentData.prn (studentDataOf (resolveRow row))) p);
        [contradiction|reflexivity].
    + rewrite findOne_app. unfold hasPrn. cbn [newDocument Student.prn].
      destruct (String.eqb_spec (StudentData.prn (studentDataOf (resolveRow row))) p);
        [contradiction|].
      now destruct (findOne (roster b) p).
Qed.

Lemma processRows_other validate rows b p :
  (forall r, In r rows -> invalidRow r = false -> rowPrn r <> p) ->
  findOne (roster (fold_left (processRow validate) rows b)) p = findOne (roster b) p.
Proof.
  revert b. induction rows as [|row rows IH]; intros b H; [reflexivity|].
  cbn [fold_left]. rewrite IH by (intros r I; apply H; now right).
  apply processRow_other. apply H. now left.
Qed.

Lemma find_app_missing {A : Type} (f : A -> bool) (l l' : list A) :
  find f l = None -> find f (l ++ l')%list = find f l'.
Proof.
  induction l as [|y l IH]; cbn [find app]; [reflexivity|].
  destruct (f y); [discriminate|exact IH].
Qed.

Lemma processRows_fines validate rows db p :
  match findOne (roster (processRows validate db rows)) p with
  | Some e =>
      Student.fines e
      = match findOne db p with
        | Some s => Student.fines s
        | None => []
        end
  | None => findOne db p = None
  end.
Proof.
  destruct (processRows_ledgerKeys validate rows (startBatch db)) as (created & K & _).
  cbn [startBatch roster] in K. fold (processRows validate db rows) in K.
  pose proof (findOne_ledgerKeys (roster (processRows validate db rows)) p) as A.
  pose proof (findOne_ledgerKeys db p) as B.
  rewrite K in A.
  destruct (findOne db p) as [s|] eqn:F; cbn [option_map] in B; symmetry in B.
  - rewrite (find_app_found _ _ _ (map (fun q => (q, [])) created) B) in A.
    destruct (findOne (roster (processRows validate db rows)) p) as [e|];
      [|discriminate A].
    cbn [option_map] in A. unfold ledgerKey in A. now injection A.
  - rewrite (find_app_missing _ _ _ B) in A.
    destruct (findOne (roster (processRows validate db rows)) p) as [e|]; [|reflexivity].
    cbn [option_map] in A. symmetry in A. apply find_some in A. destruct A as [I _].
    apply in_map_iff in I. destruct I as (q & E & _). unfold ledgerKey in E.
    now injection E.
Qed.

(** X22.  When a file has several rows for one student, the last one
    decides.  If a row with an identifier and a name is persisted and no
    later row with an identifier and a name files under the same identifier,
    then after the upload, whatever the other rows are and whether or not
    they can be persisted, the student found under the identifier is exactly
    the document that row wrote: it carries the row's name, each optional
    field the row gives (department from the division) and, for a field the
    row leaves empty, the value the student had when the row was reached;
    its ledger is the ledger the student had before the upload, and empty
    for a student the upload created. *)
Theorem last_row_for_a_student_decides :
  forall (validate : Student.t -> option string) (db : Collection)
         (before : list Row) (row : Row) (after : list Row),
    invalidRow row = false ->
    validate (writtenDocument (roster (processRows validate db before)) row) = None ->
    (forall r, In r after -> invalidRow r = false -> rowPrn r <> rowPrn row) ->
    let reached := roster (processRows validate db before) in
    let final := snd (uploadStudentsCSV validate db (before ++ row :: after)) in
    let data := studentDataOf (resolveRow row) in
    exists s,
      findOne final (rowPrn row) = Some s
      /\ getStudentByPRN final (rowPrn row) = Success 200 s
      /\ s = writtenDocument reached row
      /\ Student.prn s = rowPrn row
      /\ Student.name s = valueOf (r_name (resolveRow row))
      /\ (forall v, StudentData.email data = Some v -> Student.email s = Some v)
      /\ (forall v, StudentData.phone data = Some v -> Student.phone s = Some v)
      /\ (forall v, StudentData.division data = Some v ->
            Student.division s = Some v /\ Student.department s = Some v)
      /\ (forall old, findOne reached (rowPrn row) = Some old ->
            (StudentData.email data = None -> Student.email s = Student.email old)
            /\ (StudentData.phone data = None -> Student.phone s = Student.phone old)
            /\ (StudentData.division data = None ->
                  Student.division s = Student.division old
                  /\ Student.department s = Student.department old))
      /\ Student.fines s
         = match findOne db (rowPrn row) with
           | Some s0 => Student.fines s0
           | None => []
           end.
Proof.
  intros validate db before row after V C L reached final data.
  set (written := writtenDocument reached row).
  assert (F : findOne final (rowPrn row) = Some written).
  { unfold final, uploadStudentsCSV. cbn [snd]. unfold processRows.
    rewrite fold_left_app. cbn [fold_left].
    rewrite processRows_other by exact L.
    fold (processRows validate db before).
    assert (R : roster (processRow validate (processRows validate db before) row)
                = reconcile reached row).
    { apply processRow_clean. rewrite V. cbn [orb]. unfold reached in *. now rewrite C. }
    rewrite R, findOne_reconcile. unfold reconcileOne, rowPrn. rewrite V.
    rewrite String.eqb_refl. cbn [negb andb].
    unfold written, writtenDocument.
    now destruct (findOne reached (StudentData.prn (studentDataOf (resolveRow row)))). }
  assert (U : toUpperCase (rowPrn row) = rowPrn row).
  { unfold rowPrn, resolveRow. cbn [studentDataOf StudentData.prn r_prn].
    destruct (getValue row prnKeys); cbn [option_map valueOf];
      [apply toUpperCase_twice|reflexivity]. }
  assert (DD : StudentData.department data = StudentData.division data) by reflexivity.
  assert (TS : forall (v : option string) w, orUndefined v = Some w ->
                 truthy (Some w) = true).
  { intros v w E. unfold orUndefined in E.
    destruct (truthy v) eqn:T; [now subst v|discriminate]. }
  exists written.
  split; [exact F|].
  split; [unfold getStudentByPRN; now rewrite U, F|].
  split; [reflexivity|].
  split; [exact (findOne_prn _ _ _ F)|].
  pose proof (processRows_fines validate before db (rowPrn row)) as N.
  fold reached in N.
  unfold written, writtenDocument. fold data.
  change (StudentData.prn data) with (rowPrn row).
  destruct (findOne reached (rowPrn row)) as [old|] eqn:G.
  - rewrite updateExisting_name, updateExisting_email, updateExisting_phone,
      updateExisting_division, updateExisting_department, updateExisting_fines, DD.
    unfold keep.
    split; [reflexivity|].
    split; [intros v E; now rewrite E, (TS _ _ E)|].
    split; [intros v E; now rewrite E, (TS _ _ E)|].
    split; [intros v E; now rewrite E, (TS _ _ E)|].
    split; [|exact N].
    intros old' E'. injection E' as <-.
    split; [intros E; now rewrite E|].
    split; [intros E; now rewrite E|].
    intros E. now rewrite E.
  - cbn [newDocument Student.name Student.email Student.phone Student.division
           Student.department Student.fines]. rewrite DD.
    split; [reflexivity|].
    split; [intros v E; exact E|].
    split; [intros v E; exact E|].
    split; [intros v E; now split|].
    split; [intros old' E'; discriminate E'|].
    now rewrite N.
Qed.

Lemma last_row_for_a_student_decides_witness :
  exists s,
    findOne (snd (uploadStudentsCSV acceptAll sampleRoster
                    ([newRow; sampleRow] ++ renamedRow :: [newRow; noNameRow]))) "A1B2"
    = Some s
    /\ Student.name s = "Asha R. Rao"
    /\ Student.email s = Some "asha@example.org"
    /\ Student.fines s = [sampleFine].
Proof.
  destruct (last_row_for_a_student_decides acceptAll sampleRoster
              [newRow; sampleRow] renamedRow [newRow; noNameRow] eq_refl eq_refl)
    as (s & F & _ & E & _ & N & _ & _ & _ & _ & L).
  - intros r [<-|[<-|[]]] V; vm_compute; discriminate.
  - exists s. split; [exact F|]. split; [exact N|]. split; [now rewrite E|exact L].
Defined.
